(** * The task-progress and block-synchronisation engine of the translator UI

    A shallow embedding of the polling controller of the desktop front end
    (the script with [setProgress], [stopPolling], [startPolling] and
    [refreshBlocks]): the module variables, the part of the page the script
    reads and writes, the browser's timer table and the requests in flight.

    An [async] handler is cut at its [await fetch] points: the part before
    the request runs when the event fires, the part after it is a
    continuation ([Kont]) stored with the request and run when the response
    arrives.  Between two such parts any other event may run, as on the
    single-threaded event loop of the web view.

    Modelling choices.
    - The page is taken to contain every element the script addresses, so
      [$(id)] never yields [null] for them.
    - Text is [string]; the regular expression [\s] is its ASCII part.
    - A number is [JSNumber]: NaN, the two infinities, or a finite value
      held as a rational.  Comparisons, [Math.min] and [Math.max] are exact
      on doubles, so nothing is lost for them; the product in
      [Math.round(val * 100)] is taken exactly.
    - The settings form and the start-up code of [main] are outside the
      engine and are not modelled. *)

From Stdlib Require Import String Ascii List ZArith QArith Qround Bool Lia.
From Stdlib Require Import DecimalString Lqa.
Import ListNotations.

Local Close Scope Q_scope.
Local Open Scope nat_scope.
Local Open Scope list_scope.
Local Open Scope string_scope.

Set Implicit Arguments.

(* ================================================================== *)
(** ** JavaScript values *)
(* ================================================================== *)

Module JS.

(** Truthiness of a [string | null]: [null] and the empty string are
    falsy. *)
Definition truthy (v : option string) : bool :=
  match v with
  | Some s => negb (s =? "")
  | None => false
  end.

(** Truthiness of a timer handle held in a [number | null]. *)
Definition truthy_handle (v : option nat) : bool :=
  match v with
  | Some h => negb (Nat.eqb h 0)
  | None => false
  end.

(** [v || ""] *)
Definition or_empty (v : option string) : string :=
  if truthy v then match v with Some s => s | None => "" end else "".

(** [v ?? d] *)
Definition nullish {A : Type} (v : option A) (d : A) : A :=
  match v with
  | Some x => x
  | None => d
  end.

(** A [string | null] inside a template literal. *)
Definition interpolate (v : option string) : string :=
  match v with
  | Some s => s
  | None => "null"
  end.

(** [x === v] for a string [x] and a [string | null] [v]. *)
Definition strict_eq (x : string) (v : option string) : bool :=
  match v with
  | Some s => x =? s
  | None => false
  end.

(** Thrown values: [Error] objects with a name and a message. *)
Record JsError := { err_name : string; err_message : string }.

(** [new Error(msg)] *)
Definition new_Error (msg : string) : JsError :=
  {| err_name := "Error"; err_message := msg |}.

(** [String(e?.message || e)]: the message, or for an empty message the
    result of [Error.prototype.toString], which is then the name. *)
Definition error_text (e : JsError) : string :=
  if err_message e =? "" then err_name e else err_message e.

Inductive JSNumber :=
| NaN
| Infinity (negative : bool)
| Finite (q : Q).

Definition Number_isFinite (n : JSNumber) : bool :=
  match n with
  | Finite _ => true
  | _ => false
  end.

(** [a <= b] on numbers that are not NaN. *)
Definition num_leb (a b : JSNumber) : bool :=
  match a, b with
  | Infinity true, _ => true
  | _, Infinity false => true
  | Finite x, Finite y => Qle_bool x y
  | _, _ => false
  end.

Definition Math_min (a b : JSNumber) : JSNumber :=
  match a, b with
  | NaN, _ => NaN
  | _, NaN => NaN
  | _, _ => if num_leb a b then a else b
  end.

Definition Math_max (a b : JSNumber) : JSNumber :=
  match a, b with
  | NaN, _ => NaN
  | _, NaN => NaN
  | _, _ => if num_leb a b then b else a
  end.

Definition is_zero (q : Q) : bool := Qeq_bool q 0%Q.
Definition is_negative (q : Q) : bool := negb (Qle_bool 0%Q q).

(** [a * b] *)
Definition mul (a b : JSNumber) : JSNumber :=
  match a, b with
  | NaN, _ => NaN
  | _, NaN => NaN
  | Finite x, Finite y => Finite (x * y)%Q
  | Infinity s, Finite y =>
      if is_zero y then NaN else Infinity (xorb s (is_negative y))
  | Finite x, Infinity s =>
      if is_zero x then NaN else Infinity (xorb s (is_negative x))
  | Infinity s, Infinity t => Infinity (xorb s t)
  end.

(** [Math.round]: the nearest integer, halves going up. *)
Definition Math_round (n : JSNumber) : JSNumber :=
  match n with
  | Finite q => Finite (inject_Z (Qfloor (q + (1 # 2))%Q))
  | _ => n
  end.

Definition string_of_Z (z : Z) : string :=
  NilZero.string_of_int (Z.to_int z).

Definition string_of_nat (n : nat) : string :=
  NilZero.string_of_uint (Nat.to_uint n).

(** A number inside a template literal; used on integral values only
    (results of [Math.round]). *)
Definition number_toString (n : JSNumber) : string :=
  match n with
  | NaN => "NaN"
  | Infinity false => "Infinity"
  | Infinity true => "-Infinity"
  | Finite q => string_of_Z (Qfloor q)
  end.

(** Two numbers denote the same value. *)
Definition same_value (a b : JSNumber) : Prop :=
  match a, b with
  | NaN, NaN => True
  | Infinity s, Infinity t => s = t
  | Finite x, Finite y => Qeq x y
  | _, _ => False
  end.

(** [\s] on ASCII: tab, line feed, vertical tab, form feed, carriage
    return, space. *)
Definition is_space (c : ascii) : bool :=
  let n := nat_of_ascii c in
  (Nat.leb 9 n && Nat.leb n 13) || Nat.eqb n 32.

(** [s.replace(/\s+/g, " ")]; [in_run] tells that the previous character
    was already part of a run of white space. *)
Fixpoint collapse_spaces (in_run : bool) (s : string) : string :=
  match s with
  | EmptyString => EmptyString
  | String c rest =>
      if is_space c
      then if in_run
           then collapse_spaces true rest
           else String " "%char (collapse_spaces true rest)
      else String c (collapse_spaces false rest)
  end.

(** [s.slice(0, n)] *)
Definition slice0 (n : nat) (s : string) : string := substring 0 n s.

End JS.

Import JS.

(* ================================================================== *)
(** ** Data received from the backend *)
(* ================================================================== *)

(** One entry of [GET /api/tasks/{id}/blocks]. *)
Record Block := {
  id : string;
  order_no : Z;
  status : string;
  source_text : option string;
  translated_text : option string
}.

(** The answer of [GET /api/tasks/{id}]. *)
Record TaskInfo := {
  t_progress : option JSNumber;
  t_status : option string;
  t_error : option string
}.

Definition File := string.

Inductive Method := GET | POST | PATCH.

Inductive RequestBody :=
| NoBody
| JsonBody (fields : list (string * string))
| FormData (file : File) (direction : string).

Record Request := {
  method : Method;
  url : string;
  body : RequestBody
}.

(** What a parsed successful response holds.  [P_echo] is an arbitrary
    JSON answer, carried as its rendering by [JSON.stringify(out, null, 2)]. *)
Inductive Payload :=
| P_task (t : TaskInfo)
| P_blocks (blocks : list Block)
| P_created (task_id : string) (blocks : Z)
| P_echo (pretty : string)
| P_blob.

Inductive Response :=
| NetworkError (e : JsError)
| HttpError (body_text : string)
| HttpOk (p : Payload).

(** The error thrown by [if (!r.ok) throw new Error(await r.text())], or by
    [fetch] itself. *)
Definition thrown (r : Response) : option JsError :=
  match r with
  | NetworkError e => Some e
  | HttpError t => Some (new_Error t)
  | HttpOk _ => None
  end.

(* ================================================================== *)
(** ** The state: module variables, page, window *)
(* ================================================================== *)

(** Who awaits a [refreshBlocks] call. *)
Inductive Caller :=
| FromBlocksTick
| FromFinalTimeout
| FromLoadBlocks
| FromSaveBlock.

(** The rest of an [async] function after an awaited request. *)
Inductive Kont :=
| K_pollTask
| K_refreshBlocks (keepSelection : bool) (caller : Caller)
| K_createTask
| K_runTranslate
| K_saveBlock
| K_exportDocx.

Inductive IntervalCb := CB_pollTask | CB_pollBlocks.
Inductive TimeoutCb := CB_finalRefresh.

(** A row of the block list; its [onclick] closes over the block. *)
Record Item := {
  item_text : string;
  item_block : Block
}.

Record Vars := {
  BASE : string;
  currentTaskId : option string;
  currentBlockId : option string;
  pollTaskTimer : option nat;
  pollBlocksTimer : option nat;
  blocksLoaded : bool;
  blocksCache : list Block
}.

Record Dom := {
  progressBar : JSNumber;
  progressPct : string;
  progressStatus : string;
  taskHint : string;
  progressHint : string;
  progressCounts : string;
  blockHint : string;
  blockList : list Item;
  srcText : string;
  dstText : string;
  file : option File;
  direction : string;
  activeElement : option string
}.

Record Window := {
  intervals : list (nat * IntervalCb * nat);
  timeouts : list (nat * TimeoutCb * nat);
  next_handle : nat;
  inflight : list (Request * Kont);
  net_log : list (Request * Kont);
  downloads : list string
}.

Record World := {
  vars : Vars;
  dom : Dom;
  win : Window
}.
Definition set_BASE (v : string) (s : Vars) : Vars :=
  Build_Vars v (currentTaskId s) (currentBlockId s) (pollTaskTimer s) (pollBlocksTimer s) (blocksLoaded s) (blocksCache s).

Definition set_currentTaskId (v : option string) (s : Vars) : Vars :=
  Build_Vars (BASE s) v (currentBlockId s) (pollTaskTimer s) (pollBlocksTimer s) (blocksLoaded s) (blocksCache s).

Definition set_currentBlockId (v : option string) (s : Vars) : Vars :=
  Build_Vars (BASE s) (currentTaskId s) v (pollTaskTimer s) (pollBlocksTimer s) (blocksLoaded s) (blocksCache s).

Definition set_pollTaskTimer (v : option nat) (s : Vars) : Vars :=
  Build_Vars (BASE s) (currentTaskId s) (currentBlockId s) v (pollBlocksTimer s) (blocksLoaded s) (blocksCache s).

Definition set_pollBlocksTimer (v : option nat) (s : Vars) : Vars :=
  Build_Vars (BASE s) (currentTaskId s) (currentBlockId s) (pollTaskTimer s) v (blocksLoaded s) (blocksCache s).

Definition set_blocksLoaded (v : bool) (s : Vars) : Vars :=
  Build_Vars (BASE s) (currentTaskId s) (currentBlockId s) (pollTaskTimer s) (pollBlocksTimer s) v (blocksCache s).

Definition set_blocksCache (v : list Block) (s : Vars) : Vars :=
  Build_Vars (BASE s) (currentTaskId s) (currentBlockId s) (pollTaskTimer s) (pollBlocksTimer s) (blocksLoaded s) v.

Definition set_progressBar (v : JSNumber) (d : Dom) : Dom :=
  Build_Dom v (progressPct d) (progressStatus d) (taskHint d) (progressHint d) (progressCounts d) (blockHint d) (blockList d) (srcText d) (dstText d) (file d) (direction d) (activeElement d).

Definition set_progressPct (v : string) (d : Dom) : Dom :=
  Build_Dom (progressBar d) v (progressStatus d) (taskHint d) (progressHint d) (progressCounts d) (blockHint d) (blockList d) (srcText d) (dstText d) (file d) (direction d) (activeElement d).

Definition set_progressStatus (v : string) (d : Dom) : Dom :=
  Build_Dom (progressBar d) (progressPct d) v (taskHint d) (progressHint d) (progressCounts d) (blockHint d) (blockList d) (srcText d) (dstText d) (file d) (direction d) (activeElement d).

Definition set_taskHint (v : string) (d : Dom) : Dom :=
  Build_Dom (progressBar d) (progressPct d) (progressStatus d) v (progressHint d) (progressCounts d) (blockHint d) (blockList d) (srcText d) (dstText d) (file d) (direction d) (activeElement d).

Definition set_progressHint (v : string) (d : Dom) : Dom :=
  Build_Dom (progressBar d) (progressPct d) (progressStatus d) (taskHint d) v (progressCounts d) (blockHint d) (blockList d) (srcText d) (dstText d) (file d) (direction d) (activeElement d).

Definition set_progressCounts (v : string) (d : Dom) : Dom :=
  Build_Dom (progressBar d) (progressPct d) (progressStatus d) (taskHint d) (progressHint d) v (blockHint d) (blockList d) (srcText d) (dstText d) (file d) (direction d) (activeElement d).

Definition set_blockHint (v : string) (d : Dom) : Dom :=
  Build_Dom (progressBar d) (progressPct d) (progressStatus d) (taskHint d) (progressHint d) (progressCounts d) v (blockList d) (srcText d) (dstText d) (file d) (direction d) (activeElement d).

Definition set_blockList (v : list Item) (d : Dom) : Dom :=
  Build_Dom (progressBar d) (progressPct d) (progressStatus d) (taskHint d) (progressHint d) (progressCounts d) (blockHint d) v (srcText d) (dstText d) (file d) (direction d) (activeElement d).

Definition set_srcText (v : string) (d : Dom) : Dom :=
  Build_Dom (progressBar d) (progressPct d) (progressStatus d) (taskHint d) (progressHint d) (progressCounts d) (blockHint d) (blockList d) v (dstText d) (file d) (direction d) (activeElement d).

Definition set_dstText (v : string) (d : Dom) : Dom :=
  Build_Dom (progressBar d) (progressPct d) (progressStatus d) (taskHint d) (progressHint d) (progressCounts d) (blockHint d) (blockList d) (srcText d) v (file d) (direction d) (activeElement d).

Definition set_file (v : option File) (d : Dom) : Dom :=
  Build_Dom (progressBar d) (progressPct d) (progressStatus d) (taskHint d) (progressHint d) (progressCounts d) (blockHint d) (blockList d) (srcText d) (dstText d) v (direction d) (activeElement d).

Definition set_direction (v : string) (d : Dom) : Dom :=
  Build_Dom (progressBar d) (progressPct d) (progressStatus d) (taskHint d) (progressHint d) (progressCounts d) (blockHint d) (blockList d) (srcText d) (dstText d) (file d) v (activeElement d).

Definition set_activeElement (v : option string) (d : Dom) : Dom :=
  Build_Dom (progressBar d) (progressPct d) (progressStatus d) (taskHint d) (progressHint d) (progressCounts d) (blockHint d) (blockList d) (srcText d) (dstText d) (file d) (direction d) v.

Definition set_intervals (v : list (nat * IntervalCb * nat)) (x : Window) : Window :=
  Build_Window v (timeouts x) (next_handle x) (inflight x) (net_log x) (downloads x).

Definition set_timeouts (v : list (nat * TimeoutCb * nat)) (x : Window) : Window :=
  Build_Window (intervals x) v (next_handle x) (inflight x) (net_log x) (downloads x).

Definition set_next_handle (v : nat) (x : Window) : Window :=
  Build_Window (intervals x) (timeouts x) v (inflight x) (net_log x) (downloads x).

Definition set_inflight (v : list (Request * Kont)) (x : Window) : Window :=
  Build_Window (intervals x) (timeouts x) (next_handle x) v (net_log x) (downloads x).

Definition set_net_log (v : list (Request * Kont)) (x : Window) : Window :=
  Build_Window (intervals x) (timeouts x) (next_handle x) (inflight x) v (downloads x).

Definition set_downloads (v : list string) (x : Window) : Window :=
  Build_Window (intervals x) (timeouts x) (next_handle x) (inflight x) (net_log x) v.


Definition on_vars (f : Vars -> Vars) (w : World) : World :=
  {| vars := f (vars w); dom := dom w; win := win w |}.

Definition on_dom (f : Dom -> Dom) (w : World) : World :=
  {| vars := vars w; dom := f (dom w); win := win w |}.

Definition on_win (f : Window -> Window) (w : World) : World :=
  {| vars := vars w; dom := dom w; win := f (win w) |}.

(* ================================================================== *)
(** ** Page helpers *)
(* ================================================================== *)

(** [setText(id, v)]: sets the text of the element with that id; an id the
    page does not have is skipped by the [if (el)] guard. *)
Definition setText (elem : string) (v : string) (w : World) : World :=
  if elem =? "taskHint" then on_dom (set_taskHint v) w
  else if elem =? "progressHint" then on_dom (set_progressHint v) w
  else if elem =? "progressCounts" then on_dom (set_progressCounts v) w
  else if elem =? "blockHint" then on_dom (set_blockHint v) w
  else if elem =? "progressPct" then on_dom (set_progressPct v) w
  else if elem =? "progressStatus" then on_dom (set_progressStatus v) w
  else w.

(** [Math.max(0, Math.min(1, Number.isFinite(p) ? p : 0))] *)
Definition progress_value (p : JSNumber) : JSNumber :=
  Math_max (Finite 0%Q)
           (Math_min (Finite 1%Q) (if Number_isFinite p then p else Finite 0%Q)).

(** [setProgress(p, status)] *)
Definition setProgress (p : JSNumber) (st : string) (w : World) : World :=
  let val := progress_value p in
  let w1 := on_dom (set_progressBar val) w in
  let w2 :=
    on_dom (set_progressPct
              (number_toString (Math_round (mul val (Finite 100%Q))) ++ "%")) w1 in
  on_dom (set_progressStatus
            (if st =? "" then "" else "Status: " ++ st)) w2.

(* ================================================================== *)
(** ** Timers and requests *)
(* ================================================================== *)

(** [window.setInterval(cb, ms)]: a fresh positive handle. *)
Definition setInterval (cb : IntervalCb) (ms : nat) (w : World) : nat * World :=
  let h := next_handle (win w) in
  (h, on_win (fun x => set_next_handle (S h)
                         (set_intervals (intervals x ++ [(h, cb, ms)])%list x)) w).

(** [window.clearInterval(h)] *)
Definition clearInterval (h : nat) (w : World) : World :=
  on_win (fun x =>
            set_intervals
              (filter (fun e => negb (Nat.eqb (fst (fst e)) h)) (intervals x)) x)
         w.

(** [setTimeout(cb, ms)] *)
Definition setTimeout (cb : TimeoutCb) (ms : nat) (w : World) : World :=
  let h := next_handle (win w) in
  on_win (fun x => set_next_handle (S h)
                     (set_timeouts (timeouts x ++ [(h, cb, ms)])%list x)) w.

(** [fetch(...)] followed by [await]: the request leaves, and the rest of
    the function waits for the response. *)
Definition fetch (req : Request) (k : Kont) (w : World) : World :=
  on_win (fun x => set_net_log (net_log x ++ [(req, k)])%list
                     (set_inflight (inflight x ++ [(req, k)])%list x)) w.

Definition apiGet (path : string) (k : Kont) (w : World) : World :=
  fetch {| method := GET; url := BASE (vars w) ++ path; body := NoBody |} k w.

Definition apiPostJson (path : string) (fields : list (string * string))
    (k : Kont) (w : World) : World :=
  fetch {| method := POST; url := BASE (vars w) ++ path;
           body := JsonBody fields |} k w.

Definition apiPatchJson (path : string) (fields : list (string * string))
    (k : Kont) (w : World) : World :=
  fetch {| method := PATCH; url := BASE (vars w) ++ path;
           body := JsonBody fields |} k w.

(** [stopPolling()] *)
Definition stopPolling (w : World) : World :=
  let w1 := if truthy_handle (pollTaskTimer (vars w))
            then clearInterval (nullish (pollTaskTimer (vars w)) 0) w
            else w in
  let w2 := if truthy_handle (pollBlocksTimer (vars w1))
            then clearInterval (nullish (pollBlocksTimer (vars w1)) 0) w1
            else w1 in
  let w3 := on_vars (set_pollTaskTimer None) w2 in
  on_vars (set_pollBlocksTimer None) w3.

(** [startPolling()]: the progress loop every 1000 ms, the block loop every
    2500 ms; the callbacks are [pollTask_tick] and [pollBlocks_tick]. *)
Definition startPolling (w : World) : World :=
  let w0 := stopPolling w in
  let (h1, w1) := setInterval CB_pollTask 1000 w0 in
  let w2 := on_vars (set_pollTaskTimer (Some h1)) w1 in
  let (h2, w3) := setInterval CB_pollBlocks 2500 w2 in
  on_vars (set_pollBlocksTimer (Some h2)) w3.

(* ================================================================== *)
(** ** [refreshBlocks] *)
(* ================================================================== *)

Definition is_done (b : Block) : bool :=
  (status b =? "translated") || (status b =? "edited").

(** One row of the list: [#order_no [status] src] with [src] the source
    text, white space collapsed, cut to 60 characters. *)
Definition render_item (b : Block) : Item :=
  let src := slice0 60 (collapse_spaces false (or_empty (source_text b))) in
  {| item_text := "#" ++ string_of_Z (order_no b) ++ " [" ++ status b ++ "] " ++ src;
     item_block := b |}.

(** [document.activeElement] is the destination input. *)
Definition isEditing (w : World) : bool :=
  match activeElement (dom w) with
  | Some el => el =? "dstText"
  | None => false
  end.

(** [blocks.find(x => x.id === currentBlockId)] *)
Definition find_block (cur : option string) (blocks : list Block) : option Block :=
  find (fun x => strict_eq (id x) cur) blocks.

(** The body of [refreshBlocks(keepSelection)] after the block list has
    arrived. *)
Definition refreshBlocks_body (keepSelection : bool) (blocks : list Block)
    (w : World) : World :=
  let w1 := on_vars (set_blocksCache blocks) w in
  let total := length blocks in
  let done := length (filter is_done blocks) in
  let w2 := setText "progressCounts"
              ("Blocks: " ++ string_of_nat done ++ " / " ++ string_of_nat total) w1 in
  let w3 := on_dom (set_blockList []) w2 in
  let w4 := fold_left
              (fun acc b =>
                 on_dom (fun d => set_blockList (blockList d ++ [render_item b])%list d) acc)
              blocks w3 in
  if keepSelection && truthy (currentBlockId (vars w4)) then
    if isEditing w4 then w4
    else match find_block (currentBlockId (vars w4)) blocks with
         | Some b =>
             on_dom (set_dstText (or_empty (translated_text b)))
                    (on_dom (set_srcText (or_empty (source_text b))) w4)
         | None => w4
         end
  else w4.

(** What the caller does once the awaited [refreshBlocks] has returned. *)
Definition after_refresh (caller : Caller) (w : World) : World :=
  match caller with
  | FromLoadBlocks =>
      startPolling
        (setText "blockHint"
           ("Loaded blocks: " ++ string_of_nat (length (blocksCache (vars w)))) w)
  | _ => w
  end.

(** What the caller does when the awaited [refreshBlocks] throws: the two
    click handlers show the message, the timer callbacks swallow it. *)
Definition refresh_failed (caller : Caller) (e : JsError) (w : World) : World :=
  match caller with
  | FromLoadBlocks | FromSaveBlock => setText "blockHint" (error_text e) w
  | FromBlocksTick | FromFinalTimeout => w
  end.

(** [refreshBlocks(keepSelection)] up to its [await]. *)
Definition refreshBlocks (keepSelection : bool) (caller : Caller) (w : World)
    : World :=
  if negb (truthy (currentTaskId (vars w))) then after_refresh caller w
  else apiGet ("/api/tasks/" ++ interpolate (currentTaskId (vars w))
                 ++ "/blocks?offset=0&limit=5000")
              (K_refreshBlocks keepSelection caller) w.

(** [refreshBlocks] from its [await] on. *)
Definition refreshBlocks_resume (keepSelection : bool) (caller : Caller)
    (r : Response) (w : World) : option World :=
  match r with
  | HttpOk (P_blocks blocks) =>
      Some (after_refresh caller (refreshBlocks_body keepSelection blocks w))
  | HttpOk _ => None
  | _ => Some (refresh_failed caller (nullish (thrown r) (new_Error "")) w)
  end.

(* ================================================================== *)
(** ** The two poll loops *)
(* ================================================================== *)

(** The progress callback of [startPolling] up to its [await]. *)
Definition pollTask_tick (w : World) : World :=
  if negb (truthy (currentTaskId (vars w))) then w
  else apiGet ("/api/tasks/" ++ interpolate (currentTaskId (vars w))) K_pollTask w.

(** The progress callback from its [await] on; the [catch] ignores every
    error. *)
Definition pollTask_resume (r : Response) (w : World) : option World :=
  match r with
  | HttpOk (P_task t) =>
      let w1 := setProgress (nullish (t_progress t) (Finite 0%Q))
                            (nullish (t_status t) "") w in
      let w2 := if truthy (t_error t)
                then setText "progressHint" ("Error: " ++ interpolate (t_error t)) w1
                else w1 in
      let w3 := if strict_eq "finished" (t_status t)
                then stopPolling (setTimeout CB_finalRefresh 300 w2)
                else w2 in
      Some (if strict_eq "error" (t_status t) then stopPolling w3 else w3)
  | HttpOk _ => None
  | _ => Some w
  end.

(** The block callback of [startPolling]. *)
Definition pollBlocks_tick (w : World) : World :=
  if negb (truthy (currentTaskId (vars w))) then w
  else if negb (blocksLoaded (vars w)) then w
  else refreshBlocks true FromBlocksTick w.

(** The callback of the timeout set on [finished]. *)
Definition finalRefresh (w : World) : World :=
  refreshBlocks false FromFinalTimeout w.

(* ================================================================== *)
(** ** Click handlers *)
(* ================================================================== *)

(** The [onclick] of a row of the block list. *)
Definition item_onclick (b : Block) (w : World) : World :=
  let w1 := on_vars (set_currentBlockId (Some (id b))) w in
  let w2 := on_dom (set_srcText (or_empty (source_text b))) w1 in
  let w3 := on_dom (set_dstText (or_empty (translated_text b))) w2 in
  setText "blockHint" ("Selected block: " ++ id b) w3.

(** The statements under [// reset UI state] that follow [stopPolling()]. *)
Definition reset_ui_state (w : World) : World :=
  let w1 := on_vars (set_blocksLoaded false) w in
  let w2 := on_vars (set_blocksCache []) w1 in
  let w3 := on_vars (set_currentBlockId None) w2 in
  let w4 := on_dom (set_blockList []) w3 in
  let w5 := on_dom (set_srcText "") w4 in
  let w6 := on_dom (set_dstText "") w5 in
  let w7 := setText "blockHint" "" w6 in
  let w8 := setText "progressHint" "" w7 in
  let w9 := setText "progressCounts" "" w8 in
  setProgress (Finite 0%Q) "created" w9.

Definition createTask_onclick (w : World) : World :=
  match file (dom w) with
  | None => setText "taskHint" "Please select a .docx file." w
  | Some f =>
      let dir := direction (dom w) in
      let w1 := reset_ui_state (stopPolling w) in
      fetch {| method := POST; url := BASE (vars w1) ++ "/api/tasks";
               body := FormData f dir |} K_createTask w1
  end.

Definition createTask_resume (r : Response) (w : World) : option World :=
  match r with
  | HttpOk (P_created task_id n) =>
      let w1 := on_vars (set_currentTaskId (Some task_id)) w in
      let w2 := setText "taskHint"
                  ("Task created: " ++ interpolate (currentTaskId (vars w1))
                     ++ String (ascii_of_nat 10) "Blocks: " ++ string_of_Z n) w1 in
      Some (startPolling w2)
  | HttpOk _ => None
  | _ => Some (setText "taskHint"
                 (error_text (nullish (thrown r) (new_Error ""))) w)
  end.

Definition runTranslate_onclick (w : World) : World :=
  if negb (truthy (currentTaskId (vars w)))
  then setText "progressHint" "Please create a task first." w
  else apiPostJson ("/api/tasks/" ++ interpolate (currentTaskId (vars w))
                      ++ "/run_translate") [] K_runTranslate w.

Definition runTranslate_resume (r : Response) (w : World) : option World :=
  match r with
  | HttpOk (P_echo out) => Some (startPolling (setText "progressHint" out w))
  | HttpOk _ => None
  | _ => Some (setText "progressHint"
                 (error_text (nullish (thrown r) (new_Error ""))) w)
  end.

Definition loadBlocks_onclick (w : World) : World :=
  if negb (truthy (currentTaskId (vars w)))
  then setText "blockHint" "Please create a task first." w
  else refreshBlocks false FromLoadBlocks (on_vars (set_blocksLoaded true) w).

Definition saveBlock_onclick (w : World) : World :=
  if negb (truthy (currentTaskId (vars w)))
     || negb (truthy (currentBlockId (vars w)))
  then setText "blockHint" "Please select a block first." w
  else apiPatchJson ("/api/tasks/" ++ interpolate (currentTaskId (vars w))
                       ++ "/blocks/" ++ interpolate (currentBlockId (vars w)))
                    [("translated_text", dstText (dom w))] K_saveBlock w.

Definition saveBlock_resume (r : Response) (w : World) : option World :=
  match r with
  | HttpOk (P_echo out) =>
      let w1 := setText "blockHint" out w in
      Some (if blocksLoaded (vars w1) then refreshBlocks true FromSaveBlock w1
            else w1)
  | HttpOk _ => None
  | _ => Some (setText "blockHint"
                 (error_text (nullish (thrown r) (new_Error ""))) w)
  end.

Definition exportDocx_onclick (w : World) : World :=
  if negb (truthy (currentTaskId (vars w)))
  then setText "progressHint" "Please create a task first." w
  else fetch {| method := GET;
                url := BASE (vars w) ++ "/api/tasks/"
                         ++ interpolate (currentTaskId (vars w)) ++ "/export";
                body := NoBody |} K_exportDocx w.

Definition exportDocx_resume (r : Response) (w : World) : option World :=
  match r with
  | HttpOk P_blob =>
      let w1 := on_win (fun x => set_downloads
                                   (downloads x ++ ["translated.docx"])%list x) w in
      Some (setText "progressHint"
              "Download started: translated.docx (check your default Downloads folder)."
              w1)
  | HttpOk _ => None
  | _ => Some (setText "progressHint"
                 (error_text (nullish (thrown r) (new_Error ""))) w)
  end.

(* ================================================================== *)
(** ** The event loop *)
(* ================================================================== *)

Inductive Button :=
| Btn_createTask
| Btn_runTranslate
| Btn_loadBlocks
| Btn_saveBlock
| Btn_exportDocx.

Inductive Event :=
| IntervalFires (h : nat)
| TimeoutFires (h : nat)
| ResponseArrives (i : nat) (r : Response)
| Click (b : Button)
| ClickItem (n : nat)
| UserFocus (el : option string)
| UserTypes (text : string)
| UserPicksFile (f : option File).

Definition onclick (b : Button) (w : World) : World :=
  match b with
  | Btn_createTask => createTask_onclick w
  | Btn_runTranslate => runTranslate_onclick w
  | Btn_loadBlocks => loadBlocks_onclick w
  | Btn_saveBlock => saveBlock_onclick w
  | Btn_exportDocx => exportDocx_onclick w
  end.

(** Runs the continuation [k] on the response [r]; [None] when the payload
    is not of the shape the backend promises for that request. *)
Definition resume (k : Kont) (r : Response) (w : World) : option World :=
  match k with
  | K_pollTask => pollTask_resume r w
  | K_refreshBlocks keepSelection caller =>
      refreshBlocks_resume keepSelection caller r w
  | K_createTask => createTask_resume r w
  | K_runTranslate => runTranslate_resume r w
  | K_saveBlock => saveBlock_resume r w
  | K_exportDocx => exportDocx_resume r w
  end.

Definition remove_nth {A : Type} (i : nat) (l : list A) : list A :=
  (firstn i l ++ skipn (S i) l)%list.

Definition handle_of {A B : Type} (e : nat * A * B) : nat := fst (fst e).

(** One turn of the event loop; [None] when the event cannot happen in this
    state (no such timer, no such request, no such row). *)
Definition step (e : Event) (w : World) : option World :=
  match e with
  | IntervalFires h =>
      match find (fun x => Nat.eqb (handle_of x) h) (intervals (win w)) with
      | Some (_, CB_pollTask, _) => Some (pollTask_tick w)
      | Some (_, CB_pollBlocks, _) => Some (pollBlocks_tick w)
      | None => None
      end
  | TimeoutFires h =>
      match find (fun x => Nat.eqb (handle_of x) h) (timeouts (win w)) with
      | Some (_, CB_finalRefresh, _) =>
          Some (finalRefresh
                  (on_win (fun x =>
                             set_timeouts
                               (filter (fun y => negb (Nat.eqb (handle_of y) h))
                                       (timeouts x)) x) w))
      | None => None
      end
  | ResponseArrives i r =>
      match nth_error (inflight (win w)) i with
      | Some (_, k) =>
          resume k r (on_win (fun x => set_inflight (remove_nth i (inflight x)) x) w)
      | None => None
      end
  | Click b => Some (onclick b w)
  | ClickItem n =>
      match nth_error (blockList (dom w)) n with
      | Some it => Some (item_onclick (item_block it) w)
      | None => None
      end
  | UserFocus el => Some (on_dom (set_activeElement el) w)
  | UserTypes text =>
      if isEditing w then Some (on_dom (set_dstText text) w) else None
  | UserPicksFile f => Some (on_dom (set_file f) w)
  end.

Fixpoint run (evs : list Event) (w : World) : option World :=
  match evs with
  | [] => Some w
  | e :: rest =>
      match step e w with
      | Some w' => run rest w'
      | None => None
      end
  end.

(** The state once [main] has run: the backend address is known and
    [setProgress(0, "")] has been called; nothing else has happened. *)
Definition initial (base : string) : World :=
  setProgress (Finite 0%Q) ""
    {| vars := {| BASE := base; currentTaskId := None; currentBlockId := None;
                  pollTaskTimer := None; pollBlocksTimer := None;
                  blocksLoaded := false; blocksCache := [] |};
       dom := {| progressBar := Finite 0%Q; progressPct := ""; progressStatus := "";
                 taskHint := ""; progressHint := ""; progressCounts := "";
                 blockHint := ""; blockList := []; srcText := ""; dstText := "";
                 file := None; direction := "en2zh"; activeElement := None |};
       win := {| intervals := []; timeouts := []; next_handle := 1;
                 inflight := []; net_log := []; downloads := [] |} |}.

(* ================================================================== *)
(** ** Predicates used in the statements *)
(* ================================================================== *)

(** [d'] agrees with [d] on everything of the page that is not a plain
    text panel. *)
Record same_widgets (d d' : Dom) : Prop := {
  sw_progressBar : progressBar d' = progressBar d;
  sw_blockList : blockList d' = blockList d;
  sw_srcText : srcText d' = srcText d;
  sw_dstText : dstText d' = dstText d;
  sw_file : file d' = file d;
  sw_direction : direction d' = direction d;
  sw_activeElement : activeElement d' = activeElement d
}.


(** [clamp(x, lo, hi)] in the words of the specification. *)
Definition clamp (x lo hi : Q) : Q :=
  if Qle_bool x lo then lo else if Qle_bool hi x then hi else x.

(** The fraction the specification asks the progress bar to show: the clamp
    of a finite value, zero for NaN and the infinities. *)
Definition displayed_fraction (p : JSNumber) : JSNumber :=
  match p with
  | Finite q => Finite (clamp q 0%Q 1%Q)
  | _ => Finite 0%Q
  end.

(** The edit session as the user sees it: both buffers and the focus. *)
Record edit_kept (w w' : World) : Prop := {
  ek_srcText : srcText (dom w') = srcText (dom w);
  ek_dstText : dstText (dom w') = dstText (dom w);
  ek_activeElement : activeElement (dom w') = activeElement (dom w)
}.

(** Events that are not the user's own editing: timers, responses, and the
    buttons other than the one that starts a new task. *)
Definition background (e : Event) : bool :=
  match e with
  | IntervalFires _ | TimeoutFires _ | ResponseArrives _ _ => true
  | Click Btn_createTask => false
  | Click _ => true
  | ClickItem _ | UserFocus _ | UserTypes _ | UserPicksFile _ => false
  end.

(* ================================================================== *)
(** ** A sample session *)
(* ================================================================== *)

Definition sample_base : string := "http://127.0.0.1:8000".

Definition sample_b1 : Block :=
  {| id := "b1"; order_no := 1%Z; status := "translated";
     source_text := Some "Hello"; translated_text := Some "Bonjour" |}.

Definition sample_b2 : Block :=
  {| id := "b2"; order_no := 2%Z; status := "pending";
     source_text := Some "Good bye"; translated_text := None |}.

(** The second block once the backend has translated it. *)
Definition sample_b2_done : Block :=
  {| id := "b2"; order_no := 2%Z; status := "translated";
     source_text := Some "Good bye"; translated_text := Some "Au revoir" |}.

Definition sample_running : TaskInfo :=
  {| t_progress := Some (Finite (1 # 2)); t_status := Some "running";
     t_error := None |}.

Definition sample_finished : TaskInfo :=
  {| t_progress := Some (Finite 1%Q); t_status := Some "finished";
     t_error := None |}.

(** A file is picked, the task [t1] is created, translation is started and
    the block list is loaded: both loops run (handles 5 and 6). *)
Definition sample_setup : list Event :=
  [ UserPicksFile (Some "report.docx");
    Click Btn_createTask;
    ResponseArrives 0 (HttpOk (P_created "t1" 2%Z));
    Click Btn_runTranslate;
    ResponseArrives 0 (HttpOk (P_echo "{ }"));
    Click Btn_loadBlocks;
    ResponseArrives 0 (HttpOk (P_blocks [sample_b1; sample_b2])) ].

Definition sample_loaded : World :=
  Eval vm_compute in
    nullish (run sample_setup (initial sample_base)) (initial sample_base).

(** The user has opened the second block; the focus is elsewhere. *)
Definition sample_selected : World :=
  Eval vm_compute in
    nullish (run [ClickItem 1] sample_loaded) sample_loaded.

(** The user has opened the second block and is typing a translation. *)
Definition sample_typing : World :=
  Eval vm_compute in
    nullish (run [ClickItem 1; UserFocus (Some "dstText"); UserTypes "Au rev"]
                 sample_loaded) sample_loaded.

(* ================================================================== *)
(** ** Timers *)
(* ================================================================== *)

(** The interval table holds what the two timer variables name: nothing
    when polling is off, the two loops of the last [startPolling] when it
    is on.  Handles are positive and below the next one to be given out. *)
Definition timers_consistent (w : World) : Prop :=
  1 <= next_handle (win w) /\
  ((pollTaskTimer (vars w) = None /\ pollBlocksTimer (vars w) = None /\
    intervals (win w) = []) \/
   (exists h, 1 <= h /\ S h < next_handle (win w) /\
              pollTaskTimer (vars w) = Some h /\
              pollBlocksTimer (vars w) = Some (S h) /\
              intervals (win w) = [(h, CB_pollTask, 1000); (S h, CB_pollBlocks, 2500)])).

(** Both loops are running. *)
Definition polling_active (w : World) : Prop :=
  exists h1 h2, pollTaskTimer (vars w) = Some h1 /\ pollBlocksTimer (vars w) = Some h2 /\
                In (h1, CB_pollTask, 1000) (intervals (win w)) /\
                In (h2, CB_pollBlocks, 2500) (intervals (win w)).

(** No timer callback can fire. *)
Definition polling_stopped (w : World) : Prop :=
  pollTaskTimer (vars w) = None /\ pollBlocksTimer (vars w) = None /\
  intervals (win w) = [] /\ forall h, step (IntervalFires h) w = None.

(** Both loops have ticked once and their requests are on the way. *)
Definition sample_polling : World :=
  Eval vm_compute in
    nullish (run [IntervalFires 5; IntervalFires 6] sample_loaded) sample_loaded.

(* ================================================================== *)
(** ** Preconditions of the buttons *)
(* ================================================================== *)

Definition is_null {A : Type} (v : option A) : bool :=
  match v with
  | None => true
  | Some _ => false
  end.

(** The action needs a current task (and, to save, a selected block) and
    has none. *)
Definition precondition_unmet (b : Button) (w : World) : bool :=
  match b with
  | Btn_runTranslate | Btn_loadBlocks | Btn_exportDocx =>
      is_null (currentTaskId (vars w))
  | Btn_saveBlock =>
      is_null (currentTaskId (vars w)) || is_null (currentBlockId (vars w))
  | Btn_createTask => false
  end.

(** The hint element next to each button. *)
Definition hint_of (b : Button) : string :=
  match b with
  | Btn_createTask => "taskHint"
  | Btn_runTranslate | Btn_exportDocx => "progressHint"
  | Btn_loadBlocks | Btn_saveBlock => "blockHint"
  end.

Definition precondition_message (b : Button) : string :=
  match b with
  | Btn_saveBlock => "Please select a block first."
  | _ => "Please create a task first."
  end.

(** [$(id).textContent] for the text panels. *)
Definition textContent (elem : string) (d : Dom) : string :=
  if elem =? "taskHint" then taskHint d
  else if elem =? "progressHint" then progressHint d
  else if elem =? "progressCounts" then progressCounts d
  else if elem =? "blockHint" then blockHint d
  else if elem =? "progressPct" then progressPct d
  else if elem =? "progressStatus" then progressStatus d
  else "".

(* ================================================================== *)
(** ** Runs without a restart of polling *)
(* ================================================================== *)

(** The continuations that end in [startPolling()]: a task was created,
    translation was started, the block list was loaded on request. *)
Definition restarting (k : Kont) (r : Response) : bool :=
  match r with
  | HttpOk _ =>
      match k with
      | K_createTask | K_runTranslate | K_refreshBlocks _ FromLoadBlocks => true
      | _ => false
      end
  | _ => false
  end.

Definition starts_polling (w : World) (e : Event) : bool :=
  match e with
  | ResponseArrives i r =>
      match nth_error (inflight (win w)) i with
      | Some (_, k) => restarting k r
      | None => false
      end
  | _ => false
  end.

(** No event of the run starts polling again. *)
Fixpoint never_restarts (evs : list Event) (w : World) : bool :=
  match evs with
  | [] => true
  | e :: rest =>
      negb (starts_polling w e) &&
      match step e w with
      | Some w' => never_restarts rest w'
      | None => true
      end
  end.

(** Requests sent by the callbacks of the two loops. *)
Definition is_loop_request (x : Request * Kont) : bool :=
  match snd x with
  | K_pollTask | K_refreshBlocks true FromBlocksTick => true
  | _ => false
  end.

Definition loop_requests (w : World) : list (Request * Kont) :=
  filter is_loop_request (net_log (win w)).

(** Requests sent by the refresh that [finished] schedules. *)
Definition is_final_refresh (x : Request * Kont) : bool :=
  match snd x with
  | K_refreshBlocks false FromFinalTimeout => true
  | _ => false
  end.

Definition final_refreshes (w : World) : list (Request * Kont) :=
  filter is_final_refresh (net_log (win w)).

(** A later snapshot of the sample task. *)
Definition sample_snapshot : list Block := [sample_b1; sample_b2_done].

(** A snapshot in which one id occurs twice. *)
Definition sample_duplicates : list Block := [sample_b2; sample_b2_done].

(** The task exists, nobody has asked for its blocks yet: both loops run
    (handles 1 and 2) and the cache is not in loaded mode. *)
Definition sample_created : World :=
  Eval vm_compute in
    nullish (run [ UserPicksFile (Some "report.docx");
                   Click Btn_createTask;
                   ResponseArrives 0 (HttpOk (P_created "t1" 2%Z)) ]
                 (initial sample_base))
            (initial sample_base).

Definition sample_network_error : JsError :=
  {| err_name := "TypeError"; err_message := "Failed to fetch" |}.

(* ================================================================== *)
(** ** Start-up and the settings form *)
(* ================================================================== *)

(** [s.trimStart()] and [s.trimEnd()] on ASCII white space. *)
Fixpoint trimStart (s : string) : string :=
  match s with
  | EmptyString => EmptyString
  | String c rest => if is_space c then trimStart rest else s
  end.

Fixpoint trimEnd (s : string) : string :=
  match s with
  | EmptyString => EmptyString
  | String c rest =>
      match trimEnd rest with
      | EmptyString => if is_space c then EmptyString else String c EmptyString
      | kept => String c kept
      end
  end.

(** [s.trim()] *)
Definition trim (s : string) : string := trimEnd (trimStart s).

(** The three inputs of the settings form and the hint below them. *)
Record SettingsForm := {
  baseUrl : string;
  apiKey : string;
  model : string;
  settingsHint : string
}.

Definition set_settingsHint (v : string) (f : SettingsForm) : SettingsForm :=
  {| baseUrl := baseUrl f; apiKey := apiKey f; model := model f;
     settingsHint := v |}.

(** Truthiness of a string. *)
Definition nonempty (s : string) : bool := negb (s =? "").

(** The [onclick] of the save-settings button up to its [await]: the hint
    with the validation message, or the request to send. *)
Definition saveSettings_onclick (base : string) (f : SettingsForm)
    : SettingsForm * option Request :=
  let base_url := trim (baseUrl f) in
  let api_key := trim (apiKey f) in
  let mdl := trim (model f) in
  if negb (nonempty base_url) || negb (nonempty api_key) || negb (nonempty mdl)
  then (set_settingsHint "base_url / api_key / model are required." f, None)
  else (f, Some {| method := POST; url := base ++ "/api/settings";
                   body := JsonBody [("base_url", base_url); ("api_key", api_key);
                                     ("model", mdl)] |}).

(** The same handler from its [await] on. *)
Definition saveSettings_resume (r : Response) (f : SettingsForm)
    : option SettingsForm :=
  match r with
  | HttpOk (P_echo out) => Some (set_settingsHint out f)
  | HttpOk _ => None
  | _ => Some (set_settingsHint
                 (error_text (nullish (thrown r) (new_Error ""))) f)
  end.

(** [getBaseUrl()], given what [invoke("get_backend_base_url")] resolved
    to: the address, or the error thrown. *)
Definition getBaseUrl (v : option string) : JsError + string :=
  if negb (truthy v) then inl (new_Error "Backend not ready.")
  else inr (interpolate v).

(** [main()] with its [catch]: the hint it leaves and, when the backend
    address is known, the application state with the handlers installed. *)
Definition main (v : option string) (f : SettingsForm)
    : SettingsForm * option World :=
  match getBaseUrl v with
  | inl e => (set_settingsHint ("Fatal error: " ++ error_text e) f, None)
  | inr base => (set_settingsHint ("Backend connected: " ++ base) f,
                 Some (initial base))
  end.

(* ================================================================== *)
(** ** Further predicates used in the statements *)
(* ================================================================== *)

(** No white space at either end. *)
Definition no_leading_space (s : string) : bool :=
  match s with
  | EmptyString => true
  | String c _ => negb (is_space c)
  end.

Fixpoint no_trailing_space (s : string) : bool :=
  match s with
  | EmptyString => true
  | String c EmptyString => negb (is_space c)
  | String _ rest => no_trailing_space rest
  end.

Fixpoint all_space (s : string) : bool :=
  match s with
  | EmptyString => true
  | String c rest => is_space c && all_space rest
  end.

(** Every white-space character is a single blank that no white space
    follows; [after_space] tells that the previous character was one. *)
Fixpoint single_blanks (after_space : bool) (s : string) : bool :=
  match s with
  | EmptyString => true
  | String c rest =>
      if is_space c
      then negb after_space && Ascii.eqb c " "%char && single_blanks true rest
      else single_blanks false rest
  end.

(** The characters of a text that are not white space, in order. *)
Fixpoint visible (s : string) : string :=
  match s with
  | EmptyString => EmptyString
  | String c rest => if is_space c then visible rest else String c (visible rest)
  end.

(** The part of a row after the bracketed status. *)
Definition excerpt (b : Block) : string :=
  slice0 60 (collapse_spaces false (or_empty (source_text b))).

(** The state reached from a fresh start by some run of events. *)
Definition reachable (w : World) : Prop :=
  exists base evs, run evs (initial base) = Some w.

(** The request a handler has just sent is the last of the log and of the
    requests in flight; nothing else of the window changed. *)
Definition sent_one (req : Request) (k : Kont) (w w' : World) : Prop :=
  net_log (win w') = (net_log (win w) ++ [(req, k)])%list /\
  inflight (win w') = (inflight (win w) ++ [(req, k)])%list /\
  intervals (win w') = intervals (win w) /\
  timeouts (win w') = timeouts (win w) /\
  downloads (win w') = downloads (win w).

(** The hint in which a failed user action shows its error; the callbacks
    of the timers have none. *)
Definition hint_of_kont (k : Kont) : option string :=
  match k with
  | K_createTask => Some "taskHint"
  | K_runTranslate | K_exportDocx => Some "progressHint"
  | K_saveBlock => Some "blockHint"
  | K_refreshBlocks _ FromLoadBlocks | K_refreshBlocks _ FromSaveBlock =>
      Some "blockHint"
  | K_pollTask | K_refreshBlocks _ FromBlocksTick
  | K_refreshBlocks _ FromFinalTimeout => None
  end.

(** The address of the block list of the current task. *)
Definition blocks_url (w : World) : string :=
  BASE (vars w) ++ "/api/tasks/" ++ interpolate (currentTaskId (vars w))
    ++ "/blocks?offset=0&limit=5000".

(** The module variables that identify the session: backend address,
    current task, selected block, cached blocks. *)
Record session_kept (w w' : World) : Prop := {
  sk_BASE : BASE (vars w') = BASE (vars w);
  sk_task : currentTaskId (vars w') = currentTaskId (vars w);
  sk_block : currentBlockId (vars w') = currentBlockId (vars w);
  sk_cache : blocksCache (vars w') = blocksCache (vars w)
}.

(** An answer of the progress poll for a task that has failed. *)
Definition sample_failed : TaskInfo :=
  {| t_progress := Some (Finite (1 # 4)); t_status := Some "error";
     t_error := Some "quota exceeded" |}.

(* ================================================================== *)
(** ** The script without polling ([src/src/main.ts]) *)
(* ================================================================== *)

(** The same page driven by buttons only: no timers, no cache, no progress
    bar.  Rows are rendered as in the polling script ([render_item]); the
    settings form is the one modelled above.  [safeJson] renders an answer
    with [JSON.stringify] and cannot fail on parsed JSON, so an answer is
    carried as its rendering ([P_echo]). *)
Module Plain.

Inductive Kont :=
| K_createTask
| K_runTranslate
| K_refreshTask
| K_loadBlocks
| K_saveBlock
| K_exportDocx.

Record State := {
  BASE : string;
  currentTaskId : option string;
  currentBlockId : option string;
  taskHint : string;
  progressHint : string;
  blockHint : string;
  blockList : list Item;
  srcText : string;
  dstText : string;
  file : option File;
  direction : string;
  inflight : list (Request * Kont);
  net_log : list (Request * Kont);
  downloads : list string
}.

Definition set_currentTaskId (v : option string) (s : State) : State :=
  Build_State (BASE s) v (currentBlockId s) (taskHint s) (progressHint s) (blockHint s) (blockList s) (srcText s) (dstText s) (file s) (direction s) (inflight s) (net_log s) (downloads s).

Definition set_currentBlockId (v : option string) (s : State) : State :=
  Build_State (BASE s) (currentTaskId s) v (taskHint s) (progressHint s) (blockHint s) (blockList s) (srcText s) (dstText s) (file s) (direction s) (inflight s) (net_log s) (downloads s).

Definition set_taskHint (v : string) (s : State) : State :=
  Build_State (BASE s) (currentTaskId s) (currentBlockId s) v (progressHint s) (blockHint s) (blockList s) (srcText s) (dstText s) (file s) (direction s) (inflight s) (net_log s) (downloads s).

Definition set_progressHint (v : string) (s : State) : State :=
  Build_State (BASE s) (currentTaskId s) (currentBlockId s) (taskHint s) v (blockHint s) (blockList s) (srcText s) (dstText s) (file s) (direction s) (inflight s) (net_log s) (downloads s).

Definition set_blockHint (v : string) (s : State) : State :=
  Build_State (BASE s) (currentTaskId s) (currentBlockId s) (taskHint s) (progressHint s) v (blockList s) (srcText s) (dstText s) (file s) (direction s) (inflight s) (net_log s) (downloads s).

Definition set_blockList (v : list Item) (s : State) : State :=
  Build_State (BASE s) (currentTaskId s) (currentBlockId s) (taskHint s) (progressHint s) (blockHint s) v (srcText s) (dstText s) (file s) (direction s) (inflight s) (net_log s) (downloads s).

Definition set_srcText (v : string) (s : State) : State :=
  Build_State (BASE s) (currentTaskId s) (currentBlockId s) (taskHint s) (progressHint s) (blockHint s) (blockList s) v (dstText s) (file s) (direction s) (inflight s) (net_log s) (downloads s).

Definition set_dstText (v : string) (s : State) : State :=
  Build_State (BASE s) (currentTaskId s) (currentBlockId s) (taskHint s) (progressHint s) (blockHint s) (blockList s) (srcText s) v (file s) (direction s) (inflight s) (net_log s) (downloads s).

Definition set_file (v : option File) (s : State) : State :=
  Build_State (BASE s) (currentTaskId s) (currentBlockId s) (taskHint s) (progressHint s) (blockHint s) (blockList s) (srcText s) (dstText s) v (direction s) (inflight s) (net_log s) (downloads s).

Definition set_inflight (v : list (Request * Kont)) (s : State) : State :=
  Build_State (BASE s) (currentTaskId s) (currentBlockId s) (taskHint s) (progressHint s) (blockHint s) (blockList s) (srcText s) (dstText s) (file s) (direction s) v (net_log s) (downloads s).

Definition set_net_log (v : list (Request * Kont)) (s : State) : State :=
  Build_State (BASE s) (currentTaskId s) (currentBlockId s) (taskHint s) (progressHint s) (blockHint s) (blockList s) (srcText s) (dstText s) (file s) (direction s) (inflight s) v (downloads s).

Definition set_downloads (v : list string) (s : State) : State :=
  Build_State (BASE s) (currentTaskId s) (currentBlockId s) (taskHint s) (progressHint s) (blockHint s) (blockList s) (srcText s) (dstText s) (file s) (direction s) (inflight s) (net_log s) v.


(** [setText(id, v)] *)
Definition setText (elem : string) (v : string) (s : State) : State :=
  if elem =? "taskHint" then set_taskHint v s
  else if elem =? "progressHint" then set_progressHint v s
  else if elem =? "blockHint" then set_blockHint v s
  else s.

Definition fetch (req : Request) (k : Kont) (s : State) : State :=
  set_net_log (net_log s ++ [(req, k)])%list
    (set_inflight (inflight s ++ [(req, k)])%list s).

Definition apiGet (path : string) (k : Kont) (s : State) : State :=
  fetch {| method := GET; url := BASE s ++ path; body := NoBody |} k s.

Definition apiPostJson (path : string) (fields : list (string * string))
    (k : Kont) (s : State) : State :=
  fetch {| method := POST; url := BASE s ++ path; body := JsonBody fields |} k s.

Definition apiPatchJson (path : string) (fields : list (string * string))
    (k : Kont) (s : State) : State :=
  fetch {| method := PATCH; url := BASE s ++ path; body := JsonBody fields |} k s.

(** The text a [catch] shows. *)
Definition failure_text (r : Response) : string :=
  error_text (nullish (thrown r) (new_Error "")).

Definition createTask_onclick (s : State) : State :=
  match file s with
  | None => setText "taskHint" "Please select a .docx file." s
  | Some f =>
      fetch {| method := POST; url := BASE s ++ "/api/tasks";
               body := FormData f (direction s) |} K_createTask s
  end.

Definition createTask_resume (r : Response) (s : State) : option State :=
  match r with
  | HttpOk (P_created task_id n) =>
      let s1 := set_currentTaskId (Some task_id) s in
      let s2 := set_currentBlockId None s1 in
      let s3 := setText "taskHint"
                  ("Task created: " ++ interpolate (currentTaskId s2)
                     ++ String (ascii_of_nat 10) "Blocks: " ++ string_of_Z n) s2 in
      Some (setText "progressHint" "Ready." s3)
  | HttpOk _ => None
  | _ => Some (setText "taskHint" (failure_text r) s)
  end.

Definition runTranslate_onclick (s : State) : State :=
  if negb (truthy (currentTaskId s))
  then setText "progressHint" "Please create a task first." s
  else apiPostJson ("/api/tasks/" ++ interpolate (currentTaskId s) ++ "/run_translate")
                   [] K_runTranslate s.

Definition runTranslate_resume (r : Response) (s : State) : option State :=
  match r with
  | HttpOk (P_echo out) => Some (setText "progressHint" out s)
  | HttpOk _ => None
  | _ => Some (setText "progressHint" (failure_text r) s)
  end.

Definition refreshTask_onclick (s : State) : State :=
  if negb (truthy (currentTaskId s))
  then setText "progressHint" "Please create a task first." s
  else apiGet ("/api/tasks/" ++ interpolate (currentTaskId s)) K_refreshTask s.

Definition refreshTask_resume (r : Response) (s : State) : option State :=
  match r with
  | HttpOk (P_echo out) => Some (setText "progressHint" out s)
  | HttpOk _ => None
  | _ => Some (setText "progressHint" (failure_text r) s)
  end.

Definition loadBlocks_onclick (s : State) : State :=
  if negb (truthy (currentTaskId s))
  then setText "blockHint" "Please create a task first." s
  else apiGet ("/api/tasks/" ++ interpolate (currentTaskId s)
                 ++ "/blocks?offset=0&limit=5000") K_loadBlocks s.

Definition loadBlocks_resume (r : Response) (s : State) : option State :=
  match r with
  | HttpOk (P_blocks blocks) =>
      let s1 := set_blockList [] s in
      let s2 := fold_left
                  (fun acc b => set_blockList (blockList acc ++ [render_item b])%list acc)
                  blocks s1 in
      Some (setText "blockHint"
              ("Loaded blocks: " ++ string_of_nat (length blocks)) s2)
  | HttpOk _ => None
  | _ => Some (setText "blockHint" (failure_text r) s)
  end.

(** The [onclick] of a row. *)
Definition item_onclick (b : Block) (s : State) : State :=
  let s1 := set_currentBlockId (Some (id b)) s in
  let s2 := set_srcText (or_empty (source_text b)) s1 in
  let s3 := set_dstText (or_empty (translated_text b)) s2 in
  setText "blockHint" ("Selected block: " ++ id b) s3.

Definition saveBlock_onclick (s : State) : State :=
  if negb (truthy (currentTaskId s)) || negb (truthy (currentBlockId s))
  then setText "blockHint" "Please select a block first." s
  else apiPatchJson ("/api/tasks/" ++ interpolate (currentTaskId s)
                       ++ "/blocks/" ++ interpolate (currentBlockId s))
                    [("translated_text", dstText s)] K_saveBlock s.

Definition saveBlock_resume (r : Response) (s : State) : option State :=
  match r with
  | HttpOk (P_echo out) => Some (setText "blockHint" out s)
  | HttpOk _ => None
  | _ => Some (setText "blockHint" (failure_text r) s)
  end.

Definition exportDocx_onclick (s : State) : State :=
  if negb (truthy (currentTaskId s))
  then setText "progressHint" "Please create a task first." s
  else fetch {| method := GET;
                url := BASE s ++ "/api/tasks/" ++ interpolate (currentTaskId s)
                         ++ "/export";
                body := NoBody |} K_exportDocx s.

Definition exportDocx_resume (r : Response) (s : State) : option State :=
  match r with
  | HttpOk P_blob =>
      Some (setText "progressHint"
              "Download started: translated.docx (check your default Downloads folder)."
              (set_downloads (downloads s ++ ["translated.docx"])%list s))
  | HttpOk _ => None
  | _ => Some (setText "progressHint" (failure_text r) s)
  end.

Inductive Button :=
| Btn_createTask
| Btn_runTranslate
| Btn_refreshTask
| Btn_loadBlocks
| Btn_saveBlock
| Btn_exportDocx.

Inductive Event :=
| ResponseArrives (i : nat) (r : Response)
| Click (b : Button)
| ClickItem (n : nat)
| UserTypes (text : string)
| UserPicksFile (f : option File).

Definition onclick (b : Button) (s : State) : State :=
  match b with
  | Btn_createTask => createTask_onclick s
  | Btn_runTranslate => runTranslate_onclick s
  | Btn_refreshTask => refreshTask_onclick s
  | Btn_loadBlocks => loadBlocks_onclick s
  | Btn_saveBlock => saveBlock_onclick s
  | Btn_exportDocx => exportDocx_onclick s
  end.

Definition resume (k : Kont) (r : Response) (s : State) : option State :=
  match k with
  | K_createTask => createTask_resume r s
  | K_runTranslate => runTranslate_resume r s
  | K_refreshTask => refreshTask_resume r s
  | K_loadBlocks => loadBlocks_resume r s
  | K_saveBlock => saveBlock_resume r s
  | K_exportDocx => exportDocx_resume r s
  end.

Definition step (e : Event) (s : State) : option State :=
  match e with
  | ResponseArrives i r =>
      match nth_error (inflight s) i with
      | Some (_, k) => resume k r (set_inflight (remove_nth i (inflight s)) s)
      | None => None
      end
  | Click b => Some (onclick b s)
  | ClickItem n =>
      match nth_error (blockList s) n with
      | Some it => Some (item_onclick (item_block it) s)
      | None => None
      end
  | UserTypes text => Some (set_dstText text s)
  | UserPicksFile f => Some (set_file f s)
  end.

Fixpoint run (evs : list Event) (s : State) : option State :=
  match evs with
  | [] => Some s
  | e :: rest =>
      match step e s with
      | Some s' => run rest s'
      | None => None
      end
  end.

(** The state once [main] has run. *)
Definition initial (base : string) : State :=
  {| BASE := base; currentTaskId := None; currentBlockId := None;
     taskHint := ""; progressHint := ""; blockHint := ""; blockList := [];
     srcText := ""; dstText := ""; file := None; direction := "en2zh";
     inflight := []; net_log := []; downloads := [] |}.

(** The hint a click or an answer may write. *)
Definition hint_of (b : Button) : string :=
  match b with
  | Btn_createTask => "taskHint"
  | Btn_runTranslate | Btn_refreshTask | Btn_exportDocx => "progressHint"
  | Btn_loadBlocks | Btn_saveBlock => "blockHint"
  end.

(** A task is on screen with one row, rendered for [sample_b1] of that
    task, and a file is chosen for the next task. *)
Definition sample_state : State :=
  Eval vm_compute in
    nullish (run [ UserPicksFile (Some "first.docx");
                   Click Btn_createTask;
                   ResponseArrives 0 (HttpOk (P_created "t1" 1%Z));
                   Click Btn_loadBlocks;
                   ResponseArrives 0 (HttpOk (P_blocks [sample_b1]));
                   UserPicksFile (Some "second.docx") ]
                 (initial sample_base))
            (initial sample_base).

End Plain.
(* ================================================================== *)
(** ** What each helper leaves alone *)
(* ================================================================== *)

Lemma vars_setText (elem v : string) (w : World) :
  vars (setText elem v w) = vars w.
Proof. unfold setText. repeat (destruct (elem =? _)); reflexivity. Qed.

Lemma win_setText (elem v : string) (w : World) :
  win (setText elem v w) = win w.
Proof. unfold setText. repeat (destruct (elem =? _)); reflexivity. Qed.

Lemma same_widgets_refl (d : Dom) : same_widgets d d.
Proof. constructor; reflexivity. Qed.

Lemma same_widgets_trans (a b c : Dom) :
  same_widgets a b -> same_widgets b c -> same_widgets a c.
Proof.
  intros [] []. constructor; etransitivity; eassumption.
Qed.

Lemma setText_same_widgets (elem v : string) (w : World) :
  same_widgets (dom w) (dom (setText elem v w)).
Proof.
  unfold setText. repeat (destruct (elem =? _)); constructor; reflexivity.
Qed.

Lemma vars_setProgress (p : JSNumber) (st : string) (w : World) :
  vars (setProgress p st w) = vars w.
Proof. reflexivity. Qed.

Lemma win_setProgress (p : JSNumber) (st : string) (w : World) :
  win (setProgress p st w) = win w.
Proof. reflexivity. Qed.

Lemma progressBar_setProgress (p : JSNumber) (st : string) (w : World) :
  progressBar (dom (setProgress p st w)) = progress_value p.
Proof. reflexivity. Qed.

Lemma setProgress_keeps_buffers (p : JSNumber) (st : string) (w : World) :
  blockList (dom (setProgress p st w)) = blockList (dom w) /\
  srcText (dom (setProgress p st w)) = srcText (dom w) /\
  dstText (dom (setProgress p st w)) = dstText (dom w) /\
  activeElement (dom (setProgress p st w)) = activeElement (dom w).
Proof. repeat split. Qed.

Lemma dom_clearInterval (h : nat) (w : World) : dom (clearInterval h w) = dom w.
Proof. reflexivity. Qed.

Lemma dom_stopPolling (w : World) : dom (stopPolling w) = dom w.
Proof.
  unfold stopPolling.
  destruct (truthy_handle (pollTaskTimer (vars w)));
    match goal with
    | |- context [truthy_handle ?x] => destruct (truthy_handle x)
    end; reflexivity.
Qed.

Lemma dom_startPolling (w : World) : dom (startPolling w) = dom w.
Proof. unfold startPolling. simpl. apply dom_stopPolling. Qed.

Lemma dom_setTimeout (cb : TimeoutCb) (ms : nat) (w : World) :
  dom (setTimeout cb ms w) = dom w.
Proof. reflexivity. Qed.

Lemma dom_fetch (req : Request) (k : Kont) (w : World) : dom (fetch req k w) = dom w.
Proof. reflexivity. Qed.

Lemma vars_fetch (req : Request) (k : Kont) (w : World) : vars (fetch req k w) = vars w.
Proof. reflexivity. Qed.

(** [stopPolling] touches the two timer variables and the interval table
    only. *)
Lemma stopPolling_keeps_state (w : World) :
  BASE (vars (stopPolling w)) = BASE (vars w) /\
  currentTaskId (vars (stopPolling w)) = currentTaskId (vars w) /\
  currentBlockId (vars (stopPolling w)) = currentBlockId (vars w) /\
  blocksLoaded (vars (stopPolling w)) = blocksLoaded (vars w) /\
  blocksCache (vars (stopPolling w)) = blocksCache (vars w) /\
  dom (stopPolling w) = dom w /\
  timeouts (win (stopPolling w)) = timeouts (win w) /\
  next_handle (win (stopPolling w)) = next_handle (win w) /\
  inflight (win (stopPolling w)) = inflight (win w) /\
  net_log (win (stopPolling w)) = net_log (win w) /\
  downloads (win (stopPolling w)) = downloads (win w).
Proof.
  unfold stopPolling.
  destruct (truthy_handle (pollTaskTimer (vars w)));
    match goal with
    | |- context [truthy_handle ?x] => destruct (truthy_handle x)
    end; repeat split.
Qed.

Lemma stopPolling_timers_null (w : World) :
  pollTaskTimer (vars (stopPolling w)) = None /\
  pollBlocksTimer (vars (stopPolling w)) = None.
Proof. split; reflexivity. Qed.

Lemma srcText_setText (elem v : string) (w : World) :
  srcText (dom (setText elem v w)) = srcText (dom w).
Proof. apply (sw_srcText (setText_same_widgets elem v w)). Qed.

Lemma dstText_setText (elem v : string) (w : World) :
  dstText (dom (setText elem v w)) = dstText (dom w).
Proof. apply (sw_dstText (setText_same_widgets elem v w)). Qed.

Lemma activeElement_setText (elem v : string) (w : World) :
  activeElement (dom (setText elem v w)) = activeElement (dom w).
Proof. apply (sw_activeElement (setText_same_widgets elem v w)). Qed.

Lemma blockList_setText (elem v : string) (w : World) :
  blockList (dom (setText elem v w)) = blockList (dom w).
Proof. apply (sw_blockList (setText_same_widgets elem v w)). Qed.

Lemma progressBar_setText (elem v : string) (w : World) :
  progressBar (dom (setText elem v w)) = progressBar (dom w).
Proof. apply (sw_progressBar (setText_same_widgets elem v w)). Qed.

Lemma file_setText (elem v : string) (w : World) :
  file (dom (setText elem v w)) = file (dom w).
Proof. apply (sw_file (setText_same_widgets elem v w)). Qed.

Lemma vars_stopPolling_task (w : World) :
  currentTaskId (vars (stopPolling w)) = currentTaskId (vars w).
Proof. apply stopPolling_keeps_state. Qed.

Lemma vars_stopPolling_block (w : World) :
  currentBlockId (vars (stopPolling w)) = currentBlockId (vars w).
Proof. apply stopPolling_keeps_state. Qed.

Lemma vars_stopPolling_loaded (w : World) :
  blocksLoaded (vars (stopPolling w)) = blocksLoaded (vars w).
Proof. apply stopPolling_keeps_state. Qed.

Lemma vars_stopPolling_cache (w : World) :
  blocksCache (vars (stopPolling w)) = blocksCache (vars w).
Proof. apply stopPolling_keeps_state. Qed.

Lemma vars_stopPolling_base (w : World) :
  BASE (vars (stopPolling w)) = BASE (vars w).
Proof. apply stopPolling_keeps_state. Qed.

Lemma win_stopPolling_inflight (w : World) :
  inflight (win (stopPolling w)) = inflight (win w).
Proof. apply stopPolling_keeps_state. Qed.

Lemma win_stopPolling_net_log (w : World) :
  net_log (win (stopPolling w)) = net_log (win w).
Proof. apply stopPolling_keeps_state. Qed.

Lemma win_stopPolling_timeouts (w : World) :
  timeouts (win (stopPolling w)) = timeouts (win w).
Proof. apply stopPolling_keeps_state. Qed.

Lemma win_stopPolling_next_handle (w : World) :
  next_handle (win (stopPolling w)) = next_handle (win w).
Proof. apply stopPolling_keeps_state. Qed.

Lemma win_stopPolling_downloads (w : World) :
  downloads (win (stopPolling w)) = downloads (win w).
Proof. apply stopPolling_keeps_state. Qed.

Lemma startPolling_keeps_state (w : World) :
  BASE (vars (startPolling w)) = BASE (vars w) /\
  currentTaskId (vars (startPolling w)) = currentTaskId (vars w) /\
  currentBlockId (vars (startPolling w)) = currentBlockId (vars w) /\
  blocksLoaded (vars (startPolling w)) = blocksLoaded (vars w) /\
  blocksCache (vars (startPolling w)) = blocksCache (vars w) /\
  timeouts (win (startPolling w)) = timeouts (win w) /\
  inflight (win (startPolling w)) = inflight (win w) /\
  net_log (win (startPolling w)) = net_log (win w) /\
  downloads (win (startPolling w)) = downloads (win w).
Proof.
  unfold startPolling. simpl.
  destruct (stopPolling_keeps_state w)
    as (H1 & H2 & H3 & H4 & H5 & _ & H7 & _ & H9 & H10 & H11).
  repeat split; assumption.
Qed.

Lemma vars_startPolling_task (w : World) :
  currentTaskId (vars (startPolling w)) = currentTaskId (vars w).
Proof. apply startPolling_keeps_state. Qed.

Lemma vars_startPolling_block (w : World) :
  currentBlockId (vars (startPolling w)) = currentBlockId (vars w).
Proof. apply startPolling_keeps_state. Qed.

Lemma vars_startPolling_loaded (w : World) :
  blocksLoaded (vars (startPolling w)) = blocksLoaded (vars w).
Proof. apply startPolling_keeps_state. Qed.

Lemma vars_startPolling_cache (w : World) :
  blocksCache (vars (startPolling w)) = blocksCache (vars w).
Proof. apply startPolling_keeps_state. Qed.

Lemma vars_startPolling_base (w : World) :
  BASE (vars (startPolling w)) = BASE (vars w).
Proof. apply startPolling_keeps_state. Qed.

Lemma win_startPolling_inflight (w : World) :
  inflight (win (startPolling w)) = inflight (win w).
Proof. apply startPolling_keeps_state. Qed.

Lemma win_startPolling_net_log (w : World) :
  net_log (win (startPolling w)) = net_log (win w).
Proof. apply startPolling_keeps_state. Qed.

Lemma win_startPolling_timeouts (w : World) :
  timeouts (win (startPolling w)) = timeouts (win w).
Proof. apply startPolling_keeps_state. Qed.

Lemma win_startPolling_downloads (w : World) :
  downloads (win (startPolling w)) = downloads (win w).
Proof. apply startPolling_keeps_state. Qed.

#[local] Arguments startPolling : simpl never.
#[local] Arguments setText : simpl never.
#[local] Arguments stopPolling : simpl never.
#[local] Arguments setProgress : simpl never.

(** Pushes projections through the helpers. *)
Ltac frame :=
  repeat (cbn in *;
          rewrite ?vars_setText, ?win_setText, ?srcText_setText, ?dstText_setText,
            ?activeElement_setText, ?blockList_setText, ?progressBar_setText,
            ?file_setText, ?vars_setProgress, ?win_setProgress, ?dom_stopPolling,
            ?vars_stopPolling_task, ?vars_stopPolling_block, ?vars_stopPolling_loaded,
            ?vars_stopPolling_cache, ?vars_stopPolling_base, ?win_stopPolling_inflight,
            ?win_stopPolling_net_log, ?win_stopPolling_timeouts,
            ?win_stopPolling_next_handle, ?win_stopPolling_downloads,
            ?dom_startPolling, ?vars_startPolling_task, ?vars_startPolling_block,
            ?vars_startPolling_loaded, ?vars_startPolling_cache,
            ?vars_startPolling_base, ?win_startPolling_inflight,
            ?win_startPolling_net_log, ?win_startPolling_timeouts,
            ?win_startPolling_downloads in *).

(** The rendering loop of [refreshBlocks] appends one row per block, in the
    fetched order. *)
Lemma render_loop (blocks : list Block) (w : World) :
  fold_left
    (fun acc b =>
       on_dom (fun d => set_blockList (blockList d ++ [render_item b])%list d) acc)
    blocks w
  = on_dom (fun d => set_blockList (blockList d ++ map render_item blocks)%list d) w.
Proof.
  revert w. induction blocks as [ | b blocks IH]; intros w.
  - destruct w as [v d x]. destruct d. unfold on_dom, set_blockList. simpl.
    rewrite app_nil_r. reflexivity.
  - simpl. rewrite IH. unfold on_dom, set_blockList. simpl.
    rewrite <- app_assoc. reflexivity.
Qed.

(** [refreshBlocks_body] in closed form. *)
Lemma refreshBlocks_body_eq (keepSelection : bool) (blocks : list Block) (w : World) :
  let shown :=
    on_dom (set_blockList (map render_item blocks))
      (setText "progressCounts"
         ("Blocks: " ++ string_of_nat (length (filter is_done blocks)) ++ " / "
            ++ string_of_nat (length blocks))
         (on_vars (set_blocksCache blocks) w)) in
  refreshBlocks_body keepSelection blocks w =
    if keepSelection && truthy (currentBlockId (vars w)) then
      if isEditing w then shown
      else match find_block (currentBlockId (vars w)) blocks with
           | Some b =>
               on_dom (set_dstText (or_empty (translated_text b)))
                      (on_dom (set_srcText (or_empty (source_text b))) shown)
           | None => shown
           end
    else shown.
Proof.
  unfold refreshBlocks_body. rewrite render_loop. reflexivity.
Qed.

(* ================================================================== *)
(** ** The edit session under background activity *)
(* ================================================================== *)

Lemma edit_kept_refl (w : World) : edit_kept w w.
Proof. constructor; reflexivity. Qed.

Lemma edit_kept_trans (a b c : World) :
  edit_kept a b -> edit_kept b c -> edit_kept a c.
Proof. intros [] []. constructor; etransitivity; eassumption. Qed.

Lemma isEditing_kept (w w' : World) :
  edit_kept w w' -> isEditing w' = isEditing w.
Proof. intros [_ _ H]. unfold isEditing. rewrite H. reflexivity. Qed.

Ltac kept := constructor; frame; reflexivity.

Lemma refreshBlocks_body_kept (keepSelection : bool) (blocks : list Block) (w : World) :
  keepSelection = false \/ isEditing w = true ->
  edit_kept w (refreshBlocks_body keepSelection blocks w).
Proof.
  intros H. rewrite refreshBlocks_body_eq. cbv zeta.
  destruct keepSelection; simpl.
  - destruct H as [H | H]; [discriminate|]. rewrite H.
    destruct (truthy (currentBlockId (vars w))); kept.
  - kept.
Qed.

Lemma after_refresh_kept (caller : Caller) (w : World) :
  edit_kept w (after_refresh caller w).
Proof. destruct caller; unfold after_refresh; kept. Qed.

Lemma refresh_failed_kept (caller : Caller) (e : JsError) (w : World) :
  edit_kept w (refresh_failed caller e w).
Proof. destruct caller; unfold refresh_failed; kept. Qed.

Lemma refreshBlocks_kept (keepSelection : bool) (caller : Caller) (w : World) :
  edit_kept w (refreshBlocks keepSelection caller w).
Proof.
  unfold refreshBlocks.
  destruct (truthy (currentTaskId (vars w))); simpl.
  - kept.
  - apply after_refresh_kept.
Qed.

Lemma refreshBlocks_resume_kept (keepSelection : bool) (caller : Caller)
    (r : Response) (w w' : World) :
  keepSelection = false \/ isEditing w = true ->
  refreshBlocks_resume keepSelection caller r w = Some w' ->
  edit_kept w w'.
Proof.
  intros H. unfold refreshBlocks_resume.
  destruct r as [e | t | p]; try destruct p; intros E; inversion E; subst; clear E.
  - apply refresh_failed_kept.
  - apply refresh_failed_kept.
  - eapply edit_kept_trans; [apply refreshBlocks_body_kept; exact H|].
    apply after_refresh_kept.
Qed.

Lemma pollTask_resume_kept (r : Response) (w w' : World) :
  pollTask_resume r w = Some w' -> edit_kept w w'.
Proof.
  unfold pollTask_resume.
  destruct r as [e | t | p]; try destruct p; intros E; inversion E; subst; clear E;
    try apply edit_kept_refl.
  repeat match goal with
         | |- context [if ?c then _ else _] => destruct c
         end; kept.
Qed.

Lemma resume_kept (k : Kont) (r : Response) (w w' : World) :
  isEditing w = true -> resume k r w = Some w' -> edit_kept w w'.
Proof.
  intros Hed. destruct k; simpl.
  - apply pollTask_resume_kept.
  - apply refreshBlocks_resume_kept. right. exact Hed.
  - unfold createTask_resume.
    destruct r as [e | t | p]; try destruct p; intros E; inversion E; kept.
  - unfold runTranslate_resume.
    destruct r as [e | t | p]; try destruct p; intros E; inversion E; kept.
  - unfold saveBlock_resume.
    destruct r as [e | t | p]; try destruct p; intros E; inversion E; subst;
      try solve [kept].
    rewrite ?vars_setText. destruct (blocksLoaded (vars w)).
    + eapply edit_kept_trans; [| apply refreshBlocks_kept]. kept.
    + kept.
  - unfold exportDocx_resume.
    destruct r as [e | t | p]; try destruct p; intros E; inversion E; kept.
Qed.

Lemma onclick_kept (b : Button) (w : World) :
  b <> Btn_createTask -> edit_kept w (onclick b w).
Proof.
  intros Hb. destruct b; simpl; try congruence.
  - unfold runTranslate_onclick.
    destruct (truthy (currentTaskId (vars w))); kept.
  - unfold loadBlocks_onclick.
    destruct (truthy (currentTaskId (vars w))); simpl; [| kept].
    eapply edit_kept_trans; [| apply refreshBlocks_kept]. kept.
  - unfold saveBlock_onclick.
    destruct (truthy (currentTaskId (vars w)));
      destruct (truthy (currentBlockId (vars w))); kept.
  - unfold exportDocx_onclick.
    destruct (truthy (currentTaskId (vars w))); kept.
Qed.

(** A background event leaves the buffers and the focus alone while the
    destination input has the focus. *)
Lemma step_background_kept (e : Event) (w w' : World) :
  isEditing w = true -> background e = true -> step e w = Some w' ->
  edit_kept w w'.
Proof.
  intros Hed Hbg. destruct e; simpl in Hbg; try discriminate; simpl.
  - destruct (find _ _) as [[[h' cb] ms] | ]; [| discriminate].
    destruct cb; intros E; inversion E; subst; clear E.
    + unfold pollTask_tick. destruct (truthy (currentTaskId (vars w))); kept.
    + unfold pollBlocks_tick.
      destruct (truthy (currentTaskId (vars w))); simpl; [| kept].
      destruct (blocksLoaded (vars w)); simpl; [| kept].
      apply refreshBlocks_kept.
  - destruct (find _ _) as [[[h' cb] ms] | ]; [| discriminate].
    destruct cb. intros E; inversion E; subst; clear E.
    unfold finalRefresh.
    eapply edit_kept_trans; [| apply refreshBlocks_kept]. kept.
  - destruct (nth_error _ _) as [[req k] | ]; [| discriminate].
    intros E. eapply edit_kept_trans; [| eapply resume_kept; [| exact E]].
    + kept.
    + exact Hed.
  - intros E; inversion E; subst. apply onclick_kept.
    destruct b; try discriminate; congruence.
Qed.

Lemma run_background_kept (evs : list Event) (w w' : World) :
  isEditing w = true -> forallb background evs = true -> run evs w = Some w' ->
  edit_kept w w'.
Proof.
  revert w. induction evs as [ | e evs IH]; intros w Hed Hbg Hrun; simpl in *.
  - inversion Hrun; subst. apply edit_kept_refl.
  - apply andb_true_iff in Hbg. destruct Hbg as [He Hevs].
    destruct (step e w) as [w1 | ] eqn:Hs; [| discriminate].
    assert (K1 : edit_kept w w1) by (eapply step_background_kept; eassumption).
    eapply edit_kept_trans; [exact K1|].
    apply IH; auto. rewrite (isEditing_kept K1). exact Hed.
Qed.

(* ================================================================== *)
(** ** The progress bar *)
(* ================================================================== *)

Lemma progress_value_finite (q : Q) :
  same_value (progress_value (Finite q)) (Finite (clamp q 0%Q 1%Q)).
Proof.
  unfold progress_value, clamp, Math_min, Math_max, Number_isFinite, num_leb.
  destruct (Qle_bool 1 q) eqn:H1; destruct (Qle_bool q 0) eqn:H0; simpl.
  - apply Qle_bool_iff in H1. apply Qle_bool_iff in H0.
    exfalso. assert (Hle : (1 <= 0)%Q) by (eapply Qle_trans; eassumption).
    unfold Qle in Hle. simpl in Hle. lia.
  - reflexivity.
  - destruct (Qle_bool 0 q) eqn:H2; simpl.
    + apply Qle_bool_iff in H0. apply Qle_bool_iff in H2.
      apply Qle_antisym; assumption.
    + reflexivity.
  - destruct (Qle_bool 0 q) eqn:H2; simpl.
    + reflexivity.
    + exfalso.
      destruct (Qlt_le_dec q 0) as [Hlt | Hge].
      * apply Qlt_le_weak in Hlt. apply Qle_bool_iff in Hlt. congruence.
      * apply Qle_bool_iff in Hge. congruence.
Qed.

Lemma progress_value_not_finite (p : JSNumber) :
  Number_isFinite p = false -> progress_value p = Finite 0%Q.
Proof. destruct p; simpl; intros H; try discriminate; reflexivity. Qed.

Lemma progress_value_spec (p : JSNumber) :
  same_value (progress_value p) (displayed_fraction p).
Proof.
  destruct p as [ | s | q ].
  - simpl. reflexivity.
  - simpl. reflexivity.
  - apply progress_value_finite.
Qed.

Lemma progressBar_pollTask_resume (t : TaskInfo) (w : World) :
  exists w',
    pollTask_resume (HttpOk (P_task t)) w = Some w' /\
    progressBar (dom w') = progress_value (nullish (t_progress t) (Finite 0%Q)).
Proof.
  unfold pollTask_resume. eexists. split; [reflexivity|].
  repeat match goal with
         | |- context [if ?c then _ else _] => destruct c
         end;
    rewrite ?dom_stopPolling, ?dom_setTimeout;
    rewrite ?(sw_progressBar (setText_same_widgets _ _ _));
    rewrite ?dom_stopPolling, ?dom_setTimeout;
    rewrite ?(sw_progressBar (setText_same_widgets _ _ _));
    reflexivity.
Qed.

(** C4. Whatever progress value [p] reaches [setProgress], the bar shows
    [clamp(p, 0, 1)] when [p] is finite; for NaN and both infinities it
    shows 0 and the percentage reads 0%.  The same holds for the value the
    progress poll receives and hands to [setProgress]. *)
Theorem setProgress_shows_clamped_fraction (p : JSNumber) (st : string) (w : World) :
  same_value (progressBar (dom (setProgress p st w))) (displayed_fraction p) /\
  match p with
  | Finite _ => True
  | _ => progressBar (dom (setProgress p st w)) = Finite 0%Q /\
         progressPct (dom (setProgress p st w)) = "0%"
  end /\
  (forall t : TaskInfo,
      exists w', pollTask_resume (HttpOk (P_task t)) w = Some w' /\
                 same_value (progressBar (dom w'))
                   (displayed_fraction (nullish (t_progress t) (Finite 0%Q)))).
Proof.
  split; [| split].
  - rewrite progressBar_setProgress. apply progress_value_spec.
  - destruct p; [split; reflexivity | split; reflexivity | exact I].
  - intros t. destruct (progressBar_pollTask_resume t w) as [w' [Hr Hb]].
    exists w'. split; [exact Hr|]. rewrite Hb. apply progress_value_spec.
Qed.

(* ================================================================== *)
(** ** Selection preserved across a refresh *)
(* ================================================================== *)

Lemma find_block_present (cur : string) (blocks : list Block) :
  In cur (map id blocks) ->
  exists b, find_block (Some cur) blocks = Some b /\ id b = cur /\ In b blocks.
Proof.
  unfold find_block. induction blocks as [ | x blocks IH]; simpl; intros H.
  - contradiction.
  - destruct (String.eqb_spec (id x) cur) as [E | N].
    + exists x. auto.
    + destruct H as [H | H]; [contradiction|].
      destruct (IH H) as (b & Hf & Hid & Hin). exists b. auto.
Qed.

(** C1. A refresh with [keepSelection = true] arrives with the block list
    [blocks] while a block is selected and its id occurs in [blocks].
    The refresh completes, and
    - if the destination input has the focus, both buffers are what they
      were; the same is true after any run of background events (timer
      ticks, responses, buttons other than task creation), however long;
    - if it has not, the buffers hold the source and translated text of
      the block with that id in [blocks] (an absent text shows as the empty
      string). *)
Theorem refresh_keeps_focused_edit_else_loads_snapshot
    (cur : string) (blocks : list Block) (caller : Caller) (w : World) :
  currentBlockId (vars w) = Some cur ->
  truthy (Some cur) = true ->
  In cur (map id blocks) ->
  exists w' b,
    refreshBlocks_resume true caller (HttpOk (P_blocks blocks)) w = Some w' /\
    find_block (Some cur) blocks = Some b /\ id b = cur /\ In b blocks /\
    (isEditing w = true ->
       srcText (dom w') = srcText (dom w) /\
       dstText (dom w') = dstText (dom w) /\
       forall evs w'', forallb background evs = true -> run evs w = Some w'' ->
                       srcText (dom w'') = srcText (dom w) /\
                       dstText (dom w'') = dstText (dom w)) /\
    (isEditing w = false ->
       srcText (dom w') = or_empty (source_text b) /\
       dstText (dom w') = or_empty (translated_text b)).
Proof.
  intros Hcur Htruthy Hin.
  destruct (find_block_present cur blocks Hin) as (b & Hf & Hid & Hb).
  eexists. exists b. split; [reflexivity|].
  split; [exact Hf|]. split; [exact Hid|]. split; [exact Hb|]. split.
  - intros Hed.
    assert (K : edit_kept w (after_refresh caller (refreshBlocks_body true blocks w))).
    { eapply edit_kept_trans; [apply refreshBlocks_body_kept; right; exact Hed|].
      apply after_refresh_kept. }
    split; [apply K|]. split; [apply K|].
    intros evs w'' Hbg Hrun.
    assert (K' : edit_kept w w'') by (eapply run_background_kept; eassumption).
    split; apply K'.
  - intros Hed.
    rewrite (ek_srcText (after_refresh_kept caller _)).
    rewrite (ek_dstText (after_refresh_kept caller _)).
    rewrite refreshBlocks_body_eq. cbv zeta.
    rewrite Hcur, Htruthy, Hed, Hf. split; reflexivity.
Qed.

(* ================================================================== *)
(** ** The timer table *)
(* ================================================================== *)

Lemma timers_consistent_ext (w w' : World) :
  pollTaskTimer (vars w') = pollTaskTimer (vars w) ->
  pollBlocksTimer (vars w') = pollBlocksTimer (vars w) ->
  intervals (win w') = intervals (win w) ->
  next_handle (win w) <= next_handle (win w') ->
  timers_consistent w -> timers_consistent w'.
Proof.
  intros H1 H2 H3 H4 [Hn [(A & B & C) | (h & Hh & Hlt & A & B & C)]].
  - split; [lia|]. left. rewrite H1, H2, H3. auto.
  - split; [lia|]. right. exists h. rewrite H1, H2, H3.
    repeat split; try assumption; lia.
Qed.

Lemma timers_initial (base : string) : timers_consistent (initial base).
Proof. split; [simpl; lia|]. left. repeat split. Qed.

Lemma stopPolling_consistent (w : World) :
  timers_consistent w ->
  intervals (win (stopPolling w)) = [] /\ timers_consistent (stopPolling w).
Proof.
  intros [Hn [(A & B & C) | (h & Hh & Hlt & A & B & C)]].
  - assert (E : intervals (win (stopPolling w)) = []).
    { unfold stopPolling. rewrite A. simpl. rewrite B. simpl. exact C. }
    split; [exact E|]. split.
    + rewrite win_stopPolling_next_handle. exact Hn.
    + left. repeat split. exact E.
  - assert (E : intervals (win (stopPolling w)) = []).
    { unfold stopPolling. rewrite A. simpl.
      destruct (Nat.eqb_spec h 0) as [Z | NZ]; [lia|]. simpl. rewrite B. simpl.
      rewrite C. cbn [filter fst]. rewrite Nat.eqb_refl. cbn [negb].
      destruct (Nat.eqb_spec (S h) h) as [Z | _]; [lia|]. cbn [filter fst negb].
      rewrite Nat.eqb_refl. reflexivity. }
    split; [exact E|]. split.
    + rewrite win_stopPolling_next_handle. exact Hn.
    + left. repeat split. exact E.
Qed.

Lemma startPolling_consistent (w : World) :
  timers_consistent w -> timers_consistent (startPolling w).
Proof.
  intros H. destruct (stopPolling_consistent H) as [E [Hn _]].
  unfold startPolling, setInterval. cbn. unfold timers_consistent. cbn.
  split; [lia|]. right. exists (next_handle (win (stopPolling w))).
  rewrite E. repeat split; try lia.
Qed.

Lemma startPolling_active (w : World) :
  timers_consistent w -> polling_active (startPolling w).
Proof.
  intros H. destruct (stopPolling_consistent H) as [E _].
  unfold startPolling, setInterval, polling_active. cbn. rewrite E.
  eexists. eexists. split; [reflexivity|]. split; [reflexivity|].
  split; simpl; auto.
Qed.

Lemma no_interval_no_tick (w : World) :
  intervals (win w) = [] -> forall h, step (IntervalFires h) w = None.
Proof. intros E h. simpl. rewrite E. reflexivity. Qed.

Lemma stopPolling_stops (w : World) :
  timers_consistent w -> polling_stopped (stopPolling w).
Proof.
  intros H. destruct (stopPolling_consistent H) as [E _].
  repeat split; try assumption. apply no_interval_no_tick. exact E.
Qed.

Create HintDb timers.

Lemma tc_setText (elem v : string) (w : World) :
  timers_consistent w -> timers_consistent (setText elem v w).
Proof. apply timers_consistent_ext; rewrite ?vars_setText, ?win_setText; auto. Qed.

Lemma tc_setProgress (p : JSNumber) (st : string) (w : World) :
  timers_consistent w -> timers_consistent (setProgress p st w).
Proof. apply timers_consistent_ext; auto. Qed.

Lemma tc_on_dom (f : Dom -> Dom) (w : World) :
  timers_consistent w -> timers_consistent (on_dom f w).
Proof. apply timers_consistent_ext; auto. Qed.

Lemma tc_set_blocksCache (v : list Block) (w : World) :
  timers_consistent w -> timers_consistent (on_vars (set_blocksCache v) w).
Proof. apply timers_consistent_ext; auto. Qed.

Lemma tc_set_blocksLoaded (v : bool) (w : World) :
  timers_consistent w -> timers_consistent (on_vars (set_blocksLoaded v) w).
Proof. apply timers_consistent_ext; auto. Qed.

Lemma tc_set_currentBlockId (v : option string) (w : World) :
  timers_consistent w -> timers_consistent (on_vars (set_currentBlockId v) w).
Proof. apply timers_consistent_ext; auto. Qed.

Lemma tc_set_currentTaskId (v : option string) (w : World) :
  timers_consistent w -> timers_consistent (on_vars (set_currentTaskId v) w).
Proof. apply timers_consistent_ext; auto. Qed.

Lemma tc_fetch (req : Request) (k : Kont) (w : World) :
  timers_consistent w -> timers_consistent (fetch req k w).
Proof. apply timers_consistent_ext; auto. Qed.

Lemma tc_setTimeout (cb : TimeoutCb) (ms : nat) (w : World) :
  timers_consistent w -> timers_consistent (setTimeout cb ms w).
Proof. apply timers_consistent_ext; simpl; auto. Qed.

Lemma tc_stopPolling (w : World) :
  timers_consistent w -> timers_consistent (stopPolling w).
Proof. intros H. apply (stopPolling_consistent H). Qed.

Lemma tc_answered (i : nat) (w : World) :
  timers_consistent w ->
  timers_consistent (on_win (fun x => set_inflight (remove_nth i (inflight x)) x) w).
Proof. apply timers_consistent_ext; auto. Qed.

Lemma tc_timeout_gone (h : nat) (w : World) :
  timers_consistent w ->
  timers_consistent
    (on_win (fun x => set_timeouts
                        (filter (fun y => negb (Nat.eqb (handle_of y) h)) (timeouts x)) x)
            w).
Proof. apply timers_consistent_ext; auto. Qed.

Lemma tc_download (name : string) (w : World) :
  timers_consistent w ->
  timers_consistent (on_win (fun x => set_downloads (downloads x ++ [name])%list x) w).
Proof. apply timers_consistent_ext; auto. Qed.

#[local] Hint Resolve tc_setText tc_setProgress tc_on_dom tc_set_blocksCache
  tc_set_blocksLoaded tc_set_currentBlockId tc_set_currentTaskId tc_fetch
  tc_setTimeout tc_stopPolling startPolling_consistent tc_answered tc_timeout_gone
  tc_download : timers.

Ltac split_ifs :=
  repeat match goal with
         | |- context [if ?c then _ else _] => destruct c
         end.

Lemma tc_refreshBlocks_body (keepSelection : bool) (blocks : list Block) (w : World) :
  timers_consistent w -> timers_consistent (refreshBlocks_body keepSelection blocks w).
Proof.
  intros H. rewrite refreshBlocks_body_eq. cbv zeta.
  split_ifs; try destruct (find_block _ _); auto 10 with timers.
Qed.

Lemma tc_after_refresh (caller : Caller) (w : World) :
  timers_consistent w -> timers_consistent (after_refresh caller w).
Proof. intros H. destruct caller; unfold after_refresh; auto with timers. Qed.

Lemma tc_refresh_failed (caller : Caller) (e : JsError) (w : World) :
  timers_consistent w -> timers_consistent (refresh_failed caller e w).
Proof. intros H. destruct caller; unfold refresh_failed; auto with timers. Qed.

#[local] Hint Resolve tc_refreshBlocks_body tc_after_refresh tc_refresh_failed : timers.

Lemma tc_refreshBlocks (keepSelection : bool) (caller : Caller) (w : World) :
  timers_consistent w -> timers_consistent (refreshBlocks keepSelection caller w).
Proof.
  intros H. unfold refreshBlocks, apiGet. split_ifs; auto with timers.
Qed.

#[local] Hint Resolve tc_refreshBlocks : timers.

Lemma tc_resume (k : Kont) (r : Response) (w w' : World) :
  timers_consistent w -> resume k r w = Some w' -> timers_consistent w'.
Proof.
  intros H. destruct k; simpl;
    unfold pollTask_resume, refreshBlocks_resume, createTask_resume,
      runTranslate_resume, saveBlock_resume, exportDocx_resume;
    destruct r as [e | t | p]; try destruct p;
    intros E; inversion E; subst; clear E;
    split_ifs; auto 12 with timers.
Qed.

Lemma tc_onclick (b : Button) (w : World) :
  timers_consistent w -> timers_consistent (onclick b w).
Proof.
  intros H. destruct b; simpl;
    unfold createTask_onclick, reset_ui_state, runTranslate_onclick,
      loadBlocks_onclick, saveBlock_onclick, exportDocx_onclick,
      apiPostJson, apiPatchJson;
    try destruct (file (dom w)); split_ifs; auto 20 with timers.
Qed.

(** The timer table stays consistent along every run. *)
Lemma tc_step (e : Event) (w w' : World) :
  timers_consistent w -> step e w = Some w' -> timers_consistent w'.
Proof.
  intros H. destruct e; simpl.
  - destruct (find _ _) as [[[h' cb] ms] | ]; [| discriminate].
    destruct cb; intros E; inversion E; subst; clear E;
      unfold pollTask_tick, pollBlocks_tick, apiGet; split_ifs; auto with timers.
  - destruct (find _ _) as [[[h' cb] ms] | ]; [| discriminate].
    destruct cb. intros E; inversion E; subst; clear E.
    unfold finalRefresh. auto with timers.
  - destruct (nth_error _ _) as [[req k] | ]; [| discriminate].
    intros E. eapply tc_resume; [| exact E]. auto with timers.
  - intros E; inversion E; subst. apply tc_onclick. exact H.
  - destruct (nth_error _ _) as [it | ]; [| discriminate].
    intros E; inversion E; subst. unfold item_onclick. auto 10 with timers.
  - intros E; inversion E; subst. auto with timers.
  - destruct (isEditing w); [| discriminate].
    intros E; inversion E; subst. auto with timers.
  - intros E; inversion E; subst. auto with timers.
Qed.

(** Hence every state the application can reach has a consistent timer
    table. *)
Lemma reachable_consistent (base : string) (evs : list Event) (w : World) :
  run evs (initial base) = Some w -> timers_consistent w.
Proof.
  revert w. generalize (timers_initial base). generalize (initial base).
  induction evs as [ | e evs IH]; intros w0 H0 w Hrun; simpl in Hrun.
  - inversion Hrun; subst. exact H0.
  - destruct (step e w0) as [w1 | ] eqn:Hs; [| discriminate].
    apply (IH w1); [| exact Hrun]. eapply tc_step; eassumption.
Qed.

Lemma tc_run (evs : list Event) (w w' : World) :
  timers_consistent w -> run evs w = Some w' -> timers_consistent w'.
Proof.
  revert w. induction evs as [ | e evs IH]; intros w H Hrun; simpl in Hrun.
  - inversion Hrun; subst. exact H.
  - destruct (step e w) as [w1 | ] eqn:Hs; [| discriminate].
    eapply IH; [| exact Hrun]. eapply tc_step; eassumption.
Qed.

(* ================================================================== *)
(** ** Failures inside a poll tick *)
(* ================================================================== *)


(* ================================================================== *)
(** ** The block loop runs on request only *)
(* ================================================================== *)

Lemma vars_refreshBlocks_body (keepSelection : bool) (blocks : list Block) (w : World) :
  vars (refreshBlocks_body keepSelection blocks w) = set_blocksCache blocks (vars w).
Proof.
  rewrite refreshBlocks_body_eq. cbv zeta.
  split_ifs; try destruct (find_block _ _); frame; reflexivity.
Qed.

Lemma win_refreshBlocks_body (keepSelection : bool) (blocks : list Block) (w : World) :
  win (refreshBlocks_body keepSelection blocks w) = win w.
Proof.
  rewrite refreshBlocks_body_eq. cbv zeta.
  split_ifs; try destruct (find_block _ _); frame; reflexivity.
Qed.

Lemma blocksLoaded_after_refresh (caller : Caller) (w : World) :
  blocksLoaded (vars (after_refresh caller w)) = blocksLoaded (vars w).
Proof. destruct caller; unfold after_refresh; frame; reflexivity. Qed.

Lemma blocksLoaded_refresh_failed (caller : Caller) (e : JsError) (w : World) :
  blocksLoaded (vars (refresh_failed caller e w)) = blocksLoaded (vars w).
Proof. destruct caller; unfold refresh_failed; frame; reflexivity. Qed.

Lemma blocksLoaded_refreshBlocks (keepSelection : bool) (caller : Caller) (w : World) :
  blocksLoaded (vars (refreshBlocks keepSelection caller w)) = blocksLoaded (vars w).
Proof.
  unfold refreshBlocks, apiGet. split_ifs; simpl; auto using blocksLoaded_after_refresh.
Qed.

Lemma blocksLoaded_resume (k : Kont) (r : Response) (w w' : World) :
  resume k r w = Some w' -> blocksLoaded (vars w') = blocksLoaded (vars w).
Proof.
  destruct k; simpl;
    unfold pollTask_resume, refreshBlocks_resume, createTask_resume,
      runTranslate_resume, saveBlock_resume, exportDocx_resume;
    destruct r as [e | t | p]; try destruct p;
    intros E; inversion E; subst; clear E;
    rewrite ?blocksLoaded_refresh_failed, ?blocksLoaded_after_refresh,
      ?vars_refreshBlocks_body;
    repeat match goal with
           | |- context [if ?c then _ else _] => destruct c eqn:?
           end;
    rewrite ?blocksLoaded_refreshBlocks; frame; congruence.
Qed.

(** Only the load-blocks button switches the cache to loaded mode. *)
Lemma blocksLoaded_set_by_loadBlocks (e : Event) (w w' : World) :
  step e w = Some w' ->
  blocksLoaded (vars w) = false -> blocksLoaded (vars w') = true ->
  e = Click Btn_loadBlocks.
Proof.
  intros Hs H0 H1. destruct e; simpl in Hs.
  - destruct (find _ _) as [[[h' cb] ms] | ]; [| discriminate].
    destruct cb; inversion Hs; subst; clear Hs; exfalso;
      revert H1; unfold pollTask_tick, pollBlocks_tick, apiGet;
      split_ifs; rewrite ?blocksLoaded_refreshBlocks; simpl; congruence.
  - destruct (find _ _) as [[[h' cb] ms] | ]; [| discriminate].
    destruct cb. inversion Hs; subst; clear Hs. exfalso.
    unfold finalRefresh in H1. rewrite blocksLoaded_refreshBlocks in H1.
    simpl in H1. congruence.
  - destruct (nth_error _ _) as [[req k] | ]; [| discriminate].
    apply blocksLoaded_resume in Hs. simpl in Hs. congruence.
  - destruct b; try reflexivity; exfalso; inversion Hs; subst; clear Hs;
      simpl in H1; revert H1;
      unfold createTask_onclick, reset_ui_state, runTranslate_onclick,
        saveBlock_onclick, exportDocx_onclick, apiPostJson, apiPatchJson;
      try destruct (file (dom w)); split_ifs; frame; intros HH; congruence.
  - destruct (nth_error _ _) as [it | ]; [| discriminate].
    inversion Hs; subst. unfold item_onclick in H1. frame. congruence.
  - inversion Hs; subst. simpl in H1. congruence.
  - destruct (isEditing w); [| discriminate]. inversion Hs; subst.
    simpl in H1. congruence.
  - inversion Hs; subst. simpl in H1. congruence.
Qed.

(** C7. A tick of the block loop sends its request only if a task id is
    set and the cache is in loaded mode.  With either missing the tick
    changes nothing at all; and a state in loaded mode can only have got
    there through the load-blocks button. *)
Theorem blocks_tick_only_in_loaded_mode (h ms : nat) (w : World) :
  find (fun x => Nat.eqb (handle_of x) h) (intervals (win w))
    = Some (h, CB_pollBlocks, ms) ->
  (truthy (currentTaskId (vars w)) && blocksLoaded (vars w) = false ->
   step (IntervalFires h) w = Some w) /\
  (forall w', step (IntervalFires h) w = Some w' ->
              net_log (win w') <> net_log (win w) ->
              truthy (currentTaskId (vars w)) = true /\ blocksLoaded (vars w) = true) /\
  (forall e w0 w1, step e w0 = Some w1 ->
                   blocksLoaded (vars w0) = false -> blocksLoaded (vars w1) = true ->
                   e = Click Btn_loadBlocks).
Proof.
  intros Hf. split; [| split].
  - intros Hc. simpl. rewrite Hf. unfold pollBlocks_tick.
    destruct (truthy (currentTaskId (vars w))); simpl in *; [| reflexivity].
    rewrite Hc. reflexivity.
  - intros w' Hs Hlog. simpl in Hs. rewrite Hf in Hs.
    inversion Hs; subst; clear Hs. unfold pollBlocks_tick in Hlog.
    destruct (truthy (currentTaskId (vars w))); simpl in Hlog; [| congruence].
    destruct (blocksLoaded (vars w)); simpl in Hlog; [| congruence].
    split; reflexivity.
  - intros e w0 w1. apply blocksLoaded_set_by_loadBlocks.
Qed.

(* ================================================================== *)
(** ** Precondition errors *)
(* ================================================================== *)

Lemma truthy_null (v : option string) : is_null v = true -> truthy v = false.
Proof. destruct v; [discriminate | reflexivity]. Qed.

(** C8. Run-translate, load-blocks and export clicked with no current
    task, and save clicked with no current task or no selected block, end
    in the same turn of the event loop with the message in the hint next to
    the button; no request is sent, and neither the module variables nor
    anything else of the page changes. *)
Theorem precondition_error_sends_nothing (b : Button) (w : World) :
  precondition_unmet b w = true ->
  exists w',
    step (Click b) w = Some w' /\
    w' = setText (hint_of b) (precondition_message b) w /\
    textContent (hint_of b) (dom w') = precondition_message b /\
    net_log (win w') = net_log (win w) /\
    inflight (win w') = inflight (win w) /\
    win w' = win w /\
    vars w' = vars w /\
    same_widgets (dom w) (dom w').
Proof.
  intros H. eexists. split; [reflexivity|].
  assert (E : onclick b w = setText (hint_of b) (precondition_message b) w).
  { destruct b; simpl in H; try discriminate; simpl.
    - unfold runTranslate_onclick. rewrite (truthy_null _ H). reflexivity.
    - unfold loadBlocks_onclick. rewrite (truthy_null _ H). reflexivity.
    - unfold saveBlock_onclick.
      apply orb_true_iff in H. destruct H as [H | H]; rewrite (truthy_null _ H).
      + reflexivity.
      + rewrite orb_true_r. reflexivity.
    - unfold exportDocx_onclick. rewrite (truthy_null _ H). reflexivity. }
  rewrite E. split; [reflexivity|].
  rewrite win_setText, vars_setText.
  split; [destruct b; reflexivity|].
  repeat (split; [reflexivity|]). apply setText_same_widgets.
Qed.

(* ================================================================== *)
(** ** The final refresh *)
(* ================================================================== *)

(** C9. The refresh scheduled on [finished] is [refreshBlocks(false)]: the
    timeout callback is the only one there is, and it passes [false].
    Whenever its block list arrives, focus or no focus, both edit buffers
    and the selection stay as they are; the cache is replaced, the list is
    rendered anew and the counts are rewritten, and every other part of the
    page, the timers and the requests are untouched.  When its request
    fails, nothing changes. *)
Theorem final_refresh_leaves_edit_buffers (blocks : list Block) (w : World) :
  (forall h ms, In (h, CB_finalRefresh, ms) (timeouts (win w)) ->
                exists w1, step (TimeoutFires h) w = Some w1 /\
                           forall req k, In (req, k) (inflight (win w1)) ->
                                         In (req, k) (inflight (win w)) \/
                                         k = K_refreshBlocks false FromFinalTimeout) /\
  (exists w',
      resume (K_refreshBlocks false FromFinalTimeout) (HttpOk (P_blocks blocks)) w
        = Some w' /\
      srcText (dom w') = srcText (dom w) /\
      dstText (dom w') = dstText (dom w) /\
      currentBlockId (vars w') = currentBlockId (vars w) /\
      activeElement (dom w') = activeElement (dom w) /\
      blockList (dom w') = map render_item blocks /\
      progressCounts (dom w') =
        "Blocks: " ++ string_of_nat (length (filter is_done blocks)) ++ " / "
          ++ string_of_nat (length blocks) /\
      blocksCache (vars w') = blocks /\
      progressBar (dom w') = progressBar (dom w) /\
      progressPct (dom w') = progressPct (dom w) /\
      progressStatus (dom w') = progressStatus (dom w) /\
      taskHint (dom w') = taskHint (dom w) /\
      progressHint (dom w') = progressHint (dom w) /\
      blockHint (dom w') = blockHint (dom w) /\
      currentTaskId (vars w') = currentTaskId (vars w) /\
      blocksLoaded (vars w') = blocksLoaded (vars w) /\
      win w' = win w) /\
  (forall r, (forall p, r <> HttpOk p) ->
             resume (K_refreshBlocks false FromFinalTimeout) r w = Some w).
Proof.
  split; [| split].
  - intros h ms Hin. cbn [step].
    destruct (find (fun x => Nat.eqb (handle_of x) h) (timeouts (win w)))
      as [[[h' cb] ms'] | ] eqn:Hf.
    + destruct cb. eexists. split; [reflexivity|].
      intros req k. unfold finalRefresh, refreshBlocks, apiGet, after_refresh.
      destruct (truthy (currentTaskId _)); cbn; intros Hk; auto.
      apply in_app_or in Hk. destruct Hk as [Hk | [Hk | []]]; auto.
      inversion Hk. auto.
    + exfalso. apply (find_none _ _ Hf) in Hin. unfold handle_of in Hin.
      simpl in Hin. rewrite Nat.eqb_refl in Hin. discriminate.
  - eexists. split; [reflexivity|]. cbn [after_refresh].
    rewrite refreshBlocks_body_eq. cbn. repeat split.
  - intros r Hr. destruct r as [e | t | p]; try reflexivity.
    exfalso. apply (Hr p). reflexivity.
Qed.

(* ================================================================== *)
(** ** Creating a task *)
(* ================================================================== *)

Lemma nth_error_last (A : Type) (l : list A) (x : A) :
  nth_error (l ++ [x]) (length l) = Some x.
Proof. rewrite nth_error_app2, Nat.sub_diag; [reflexivity | lia]. Qed.

Lemma remove_nth_last (A : Type) (l : list A) (x : A) :
  remove_nth (length l) (l ++ [x]) = l.
Proof.
  unfold remove_nth.
  rewrite firstn_app, Nat.sub_diag, firstn_all. cbn [firstn]. rewrite app_nil_r.
  rewrite (skipn_all2 (n := S (length l)) (l ++ [x]));
    [apply app_nil_r|]. rewrite length_app. simpl. lia.
Qed.

Lemma win_reset_ui_state (w : World) : win (reset_ui_state w) = win w.
Proof. unfold reset_ui_state. frame. reflexivity. Qed.

(** What the reset leaves behind. *)
Lemma reset_ui_state_clears (w : World) :
  blocksLoaded (vars (reset_ui_state w)) = false /\
  blocksCache (vars (reset_ui_state w)) = [] /\
  currentBlockId (vars (reset_ui_state w)) = None /\
  blockList (dom (reset_ui_state w)) = [] /\
  srcText (dom (reset_ui_state w)) = "" /\
  dstText (dom (reset_ui_state w)) = "" /\
  blockHint (dom (reset_ui_state w)) = "" /\
  progressHint (dom (reset_ui_state w)) = "" /\
  progressCounts (dom (reset_ui_state w)) = "" /\
  progressBar (dom (reset_ui_state w)) = Finite 0%Q /\
  progressPct (dom (reset_ui_state w)) = "0%" /\
  progressStatus (dom (reset_ui_state w)) = "Status: created".
Proof. repeat split. Qed.

Lemma reset_ui_state_keeps (w : World) :
  BASE (vars (reset_ui_state w)) = BASE (vars w) /\
  currentTaskId (vars (reset_ui_state w)) = currentTaskId (vars w) /\
  pollTaskTimer (vars (reset_ui_state w)) = pollTaskTimer (vars w) /\
  pollBlocksTimer (vars (reset_ui_state w)) = pollBlocksTimer (vars w) /\
  taskHint (dom (reset_ui_state w)) = taskHint (dom w) /\
  file (dom (reset_ui_state w)) = file (dom w) /\
  activeElement (dom (reset_ui_state w)) = activeElement (dom w) /\
  win (reset_ui_state w) = win w.
Proof. repeat split. Qed.

(* ================================================================== *)
(** ** Once stopped, the loops stay silent until polling is restarted *)
(* ================================================================== *)

Lemma stopped_of_null_timer (w : World) :
  timers_consistent w -> pollTaskTimer (vars w) = None -> polling_stopped w.
Proof.
  intros [_ [(A & B & C) | (h & _ & _ & A & _)]] H.
  - repeat split; try assumption. apply no_interval_no_tick. exact C.
  - congruence.
Qed.

Lemma pollTaskTimer_refresh_failed (caller : Caller) (e : JsError) (w : World) :
  pollTaskTimer (vars (refresh_failed caller e w)) = pollTaskTimer (vars w).
Proof. destruct caller; unfold refresh_failed; frame; reflexivity. Qed.

Lemma net_log_refresh_failed (caller : Caller) (e : JsError) (w : World) :
  net_log (win (refresh_failed caller e w)) = net_log (win w).
Proof. destruct caller; unfold refresh_failed; frame; reflexivity. Qed.

Lemma loop_requests_app (w w' : World) (x : Request * Kont) :
  net_log (win w') = (net_log (win w) ++ [x])%list ->
  is_loop_request x = false ->
  loop_requests w' = loop_requests w.
Proof.
  intros E H. unfold loop_requests. rewrite E, filter_app. simpl. rewrite H.
  apply app_nil_r.
Qed.

Lemma loop_requests_same (w w' : World) :
  net_log (win w') = net_log (win w) -> loop_requests w' = loop_requests w.
Proof. intros E. unfold loop_requests. rewrite E. reflexivity. Qed.

(** A [refreshBlocks] call that does not come from the block loop and does
    not end in [startPolling]. *)
Lemma refreshBlocks_quiet (keepSelection : bool) (caller : Caller) (w : World) :
  caller = FromFinalTimeout \/ caller = FromSaveBlock ->
  pollTaskTimer (vars (refreshBlocks keepSelection caller w)) = pollTaskTimer (vars w) /\
  loop_requests (refreshBlocks keepSelection caller w) = loop_requests w.
Proof.
  intros H. unfold refreshBlocks, apiGet.
  destruct (truthy (currentTaskId (vars w))); cbn [negb].
  - split; [reflexivity|]. eapply loop_requests_app; [reflexivity|].
    destruct H as [-> | ->]; destruct keepSelection; reflexivity.
  - destruct H as [-> | ->]; split; reflexivity.
Qed.

Lemma pollTask_resume_quiet (r : Response) (w w' : World) :
  pollTaskTimer (vars w) = None ->
  pollTask_resume r w = Some w' ->
  pollTaskTimer (vars w') = None /\ loop_requests w' = loop_requests w.
Proof.
  intros Hn. unfold pollTask_resume.
  destruct r as [e | t | p]; try destruct p; try discriminate;
    intros E; inversion E; subst; clear E; try (split; [exact Hn | reflexivity]).
  split.
  - split_ifs; frame; auto.
  - apply loop_requests_same. split_ifs; frame; reflexivity.
Qed.

Lemma refreshBlocks_resume_quiet (keepSelection : bool) (caller : Caller)
    (r : Response) (w w' : World) :
  restarting (K_refreshBlocks keepSelection caller) r = false ->
  pollTaskTimer (vars w) = None ->
  refreshBlocks_resume keepSelection caller r w = Some w' ->
  pollTaskTimer (vars w') = None /\ loop_requests w' = loop_requests w.
Proof.
  intros Hq Hn. unfold refreshBlocks_resume.
  destruct r as [e | t | p]; try destruct p; try discriminate;
    intros E; inversion E; subst; clear E.
  - rewrite pollTaskTimer_refresh_failed. split; [exact Hn|].
    apply loop_requests_same. apply net_log_refresh_failed.
  - rewrite pollTaskTimer_refresh_failed. split; [exact Hn|].
    apply loop_requests_same. apply net_log_refresh_failed.
  - destruct caller; try discriminate; cbn [after_refresh];
      rewrite vars_refreshBlocks_body; (split; [exact Hn|]);
      apply loop_requests_same; rewrite win_refreshBlocks_body; reflexivity.
Qed.

Lemma saveBlock_resume_quiet (r : Response) (w w' : World) :
  pollTaskTimer (vars w) = None ->
  saveBlock_resume r w = Some w' ->
  pollTaskTimer (vars w') = None /\ loop_requests w' = loop_requests w.
Proof.
  intros Hn. unfold saveBlock_resume.
  destruct r as [e | t | p]; try destruct p; try discriminate;
    intros E; inversion E; subst; clear E;
    try (rewrite vars_setText; split; [exact Hn|];
         apply loop_requests_same; rewrite win_setText; reflexivity).
  rewrite ?vars_setText. destruct (blocksLoaded (vars w)).
  - destruct (refreshBlocks_quiet true (setText "blockHint" pretty w)
                (or_intror eq_refl : FromSaveBlock = FromFinalTimeout \/ _))
      as [A B].
    rewrite A, B, vars_setText. split; [exact Hn|].
    apply loop_requests_same. rewrite win_setText. reflexivity.
  - rewrite vars_setText. split; [exact Hn|].
    apply loop_requests_same. rewrite win_setText. reflexivity.
Qed.

Lemma resume_quiet (k : Kont) (r : Response) (w w' : World) :
  restarting k r = false ->
  pollTaskTimer (vars w) = None ->
  resume k r w = Some w' ->
  pollTaskTimer (vars w') = None /\ loop_requests w' = loop_requests w.
Proof.
  intros Hq Hn. destruct k; cbn [resume].
  - apply pollTask_resume_quiet. exact Hn.
  - apply refreshBlocks_resume_quiet; assumption.
  - unfold createTask_resume.
    destruct r as [e | t | p]; try destruct p; try discriminate;
      intros E; inversion E; subst; clear E;
      (rewrite vars_setText; split; [exact Hn|];
       apply loop_requests_same; rewrite win_setText; reflexivity).
  - unfold runTranslate_resume.
    destruct r as [e | t | p]; try destruct p; try discriminate;
      intros E; inversion E; subst; clear E;
      (rewrite vars_setText; split; [exact Hn|];
       apply loop_requests_same; rewrite win_setText; reflexivity).
  - apply saveBlock_resume_quiet. exact Hn.
  - unfold exportDocx_resume.
    destruct r as [e | t | p]; try destruct p; try discriminate;
      intros E; inversion E; subst; clear E;
      (rewrite vars_setText; split; [exact Hn|];
       apply loop_requests_same; rewrite win_setText; reflexivity).
Qed.

Lemma onclick_quiet (b : Button) (w : World) :
  pollTaskTimer (vars w) = None ->
  pollTaskTimer (vars (onclick b w)) = None /\
  loop_requests (onclick b w) = loop_requests w.
Proof.
  intros Hn. destruct b; cbn [onclick].
  - unfold createTask_onclick. destruct (file (dom w)).
    + split; [reflexivity|].
      eapply loop_requests_app;
        [ cbn [fetch on_win win net_log set_net_log set_inflight];
          rewrite win_reset_ui_state, win_stopPolling_net_log; reflexivity
        | reflexivity ].
    + rewrite vars_setText. split; [exact Hn|].
      apply loop_requests_same. rewrite win_setText. reflexivity.
  - unfold runTranslate_onclick, apiPostJson.
    destruct (truthy (currentTaskId (vars w))); cbn [negb].
    + split; [exact Hn|]. eapply loop_requests_app; reflexivity.
    + rewrite vars_setText. split; [exact Hn|].
      apply loop_requests_same. rewrite win_setText. reflexivity.
  - unfold loadBlocks_onclick, refreshBlocks, apiGet.
    destruct (truthy (currentTaskId (vars w))) eqn:Ht; cbn [negb].
    + cbn [vars on_vars currentTaskId set_blocksLoaded]. rewrite Ht. cbn [negb].
      split; [exact Hn|]. eapply loop_requests_app; reflexivity.
    + rewrite vars_setText. split; [exact Hn|].
      apply loop_requests_same. rewrite win_setText. reflexivity.
  - unfold saveBlock_onclick, apiPatchJson.
    destruct (negb (truthy (currentTaskId (vars w)))
              || negb (truthy (currentBlockId (vars w)))).
    + rewrite vars_setText. split; [exact Hn|].
      apply loop_requests_same. rewrite win_setText. reflexivity.
    + split; [exact Hn|]. eapply loop_requests_app; reflexivity.
  - unfold exportDocx_onclick.
    destruct (truthy (currentTaskId (vars w))); cbn [negb].
    + split; [exact Hn|]. eapply loop_requests_app; reflexivity.
    + rewrite vars_setText. split; [exact Hn|].
      apply loop_requests_same. rewrite win_setText. reflexivity.
Qed.

(** While polling is stopped, an event that does not restart it leaves it
    stopped and sends no request of either loop. *)
Lemma step_stopped (e : Event) (w w' : World) :
  timers_consistent w -> polling_stopped w ->
  starts_polling w e = false -> step e w = Some w' ->
  polling_stopped w' /\ loop_requests w' = loop_requests w.
Proof.
  intros Hc (Hn & _ & Hi & Hno) Hq Hs.
  assert (G : pollTaskTimer (vars w') = None /\ loop_requests w' = loop_requests w).
  { destruct e; cbn [step] in Hs.
    - rewrite Hi in Hs. discriminate.
    - destruct (find _ _) as [[[h' cb] ms] | ]; [| discriminate].
      destruct cb. inversion Hs; subst; clear Hs. unfold finalRefresh.
      match goal with
      | |- context [refreshBlocks false FromFinalTimeout ?x] =>
          destruct (refreshBlocks_quiet false x
                      (or_introl eq_refl : FromFinalTimeout = FromFinalTimeout \/ _))
            as [A B]; rewrite A, B
      end.
      split; [exact Hn | reflexivity].
    - cbn [starts_polling] in Hq.
      destruct (nth_error _ _) as [[req k] | ]; [| discriminate].
      eapply resume_quiet in Hs; [| exact Hq | exact Hn].
      destruct Hs as [A B]. split; [exact A|]. rewrite B. reflexivity.
    - inversion Hs; subst. apply onclick_quiet. exact Hn.
    - destruct (nth_error _ _) as [it | ]; [| discriminate].
      inversion Hs; subst. unfold item_onclick.
      rewrite vars_setText. split; [exact Hn|].
      apply loop_requests_same. rewrite win_setText. reflexivity.
    - inversion Hs; subst. split; [exact Hn | reflexivity].
    - destruct (isEditing w); [| discriminate]. inversion Hs; subst.
      split; [exact Hn | reflexivity].
    - inversion Hs; subst. split; [exact Hn | reflexivity]. }
  destruct G as [G1 G2]. split; [| exact G2].
  apply stopped_of_null_timer; [| exact G1]. eapply tc_step; eassumption.
Qed.

Lemma run_stopped (evs : list Event) (w w' : World) :
  timers_consistent w -> polling_stopped w ->
  never_restarts evs w = true -> run evs w = Some w' ->
  polling_stopped w' /\ loop_requests w' = loop_requests w.
Proof.
  revert w. induction evs as [ | e evs IH]; intros w Hc Hst Hq Hrun;
    cbn [run never_restarts] in *.
  - inversion Hrun; subst. split; [exact Hst | reflexivity].
  - destruct (step e w) as [w1 | ] eqn:Hs; [| discriminate].
    apply andb_true_iff in Hq. destruct Hq as [Hq1 Hq2].
    apply negb_true_iff in Hq1.
    destruct (step_stopped e Hc Hst Hq1 Hs) as [S1 L1].
    destruct (IH w1 (tc_step _ Hc Hs) S1 Hq2 Hrun) as [S2 L2].
    split; [exact S2 | congruence].
Qed.

Lemma find_after_filter (A B : Type) (h : nat) (l : list (nat * A * B)) :
  find (fun x => Nat.eqb (handle_of x) h)
       (filter (fun y => negb (Nat.eqb (handle_of y) h)) l) = None.
Proof.
  induction l as [ | x l IH]; simpl; [reflexivity|].
  destruct (Nat.eqb (handle_of x) h) eqn:E; simpl; [exact IH|].
  rewrite E. exact IH.
Qed.

Lemma timeouts_refreshBlocks_final (keepSelection : bool) (w : World) :
  timeouts (win (refreshBlocks keepSelection FromFinalTimeout w)) = timeouts (win w).
Proof.
  unfold refreshBlocks, apiGet. destruct (truthy (currentTaskId (vars w))); reflexivity.
Qed.

(** A timeout fires once: after it has fired, its handle names nothing. *)
Lemma timeout_fires_once (h : nat) (w w' : World) :
  step (TimeoutFires h) w = Some w' -> step (TimeoutFires h) w' = None.
Proof.
  cbn [step].
  destruct (find _ (timeouts (win w))) as [[[h' cb] ms] | ]; [| discriminate].
  destruct cb. intros E; inversion E; subst; clear E.
  unfold finalRefresh. rewrite timeouts_refreshBlocks_final.
  cbn [win on_win timeouts set_timeouts]. rewrite find_after_filter. reflexivity.
Qed.

(** C2, amended.  When a progress poll is answered with status
    [finished], that turn of the event loop schedules exactly one block
    refresh, 300 ms later, and stops both timers.  The scheduled refresh
    fires at most once.  From then on no timer tick can fire and no request
    of either loop is sent, for as long as polling is not started again by
    an answer to task creation, to run-translate or to load-blocks.
    Nothing is said about polls that were already on their way. *)
Theorem finished_poll_schedules_one_refresh_and_stops
    (i : nat) (req : Request) (t : TaskInfo) (w : World) :
  timers_consistent w ->
  nth_error (inflight (win w)) i = Some (req, K_pollTask) ->
  t_status t = Some "finished" ->
  exists w1,
    step (ResponseArrives i (HttpOk (P_task t))) w = Some w1 /\
    timeouts (win w1)
      = (timeouts (win w) ++ [(next_handle (win w), CB_finalRefresh, 300)])%list /\
    polling_stopped w1 /\
    (forall w2, step (TimeoutFires (next_handle (win w))) w1 = Some w2 ->
                step (TimeoutFires (next_handle (win w))) w2 = None) /\
    (forall evs w2, never_restarts evs w1 = true -> run evs w1 = Some w2 ->
                    polling_stopped w2 /\ loop_requests w2 = loop_requests w1).
Proof.
  intros Hc Hi Hst.
  destruct (step (ResponseArrives i (HttpOk (P_task t))) w) as [w1 | ] eqn:Hs.
  2:{ cbn [step] in Hs. rewrite Hi in Hs. discriminate. }
  assert (Hc1 : timers_consistent w1) by (eapply tc_step; eassumption).
  exists w1. split; [reflexivity|].
  cbn [step] in Hs. rewrite Hi in Hs. cbn [resume] in Hs.
  unfold pollTask_resume in Hs. rewrite Hst in Hs.
  cbn [strict_eq String.eqb Ascii.eqb Bool.eqb] in Hs.
  inversion Hs; subst; clear Hs.
  assert (Hstop : polling_stopped
            (stopPolling
               (setTimeout CB_finalRefresh 300
                  (if truthy (t_error t)
                   then setText "progressHint" ("Error: " ++ interpolate (t_error t))
                          (setProgress (nullish (t_progress t) (Finite 0%Q))
                             (nullish (Some "finished") "")
                             (on_win (fun x => set_inflight (remove_nth i (inflight x)) x) w))
                   else setProgress (nullish (t_progress t) (Finite 0%Q))
                          (nullish (Some "finished") "")
                          (on_win (fun x => set_inflight (remove_nth i (inflight x)) x) w))))).
  { apply stopped_of_null_timer; [exact Hc1 | reflexivity]. }
  split; [| split; [exact Hstop | split]].
  - rewrite win_stopPolling_timeouts.
    destruct (truthy (t_error t)); cbn; rewrite ?win_setText; reflexivity.
  - intros w2. apply timeout_fires_once.
  - intros evs w2. apply run_stopped; assumption.
Qed.

Lemma createTask_onclick_with_file (f : File) (w : World) :
  file (dom w) = Some f ->
  createTask_onclick w =
    fetch {| method := POST; url := BASE (vars w) ++ "/api/tasks";
             body := FormData f (direction (dom w)) |}
          K_createTask (reset_ui_state (stopPolling w)).
Proof.
  intros H. unfold createTask_onclick. rewrite H.
  destruct (reset_ui_state_keeps (stopPolling w)) as (B & _).
  rewrite B, vars_stopPolling_base. reflexivity.
Qed.

Lemma createTask_click_stopped (f : File) (w : World) :
  timers_consistent w -> file (dom w) = Some f ->
  polling_stopped (createTask_onclick w).
Proof.
  intros Hc Hf. apply stopped_of_null_timer.
  - apply (@tc_onclick Btn_createTask w Hc).
  - rewrite (@createTask_onclick_with_file f w Hf). reflexivity.
Qed.

(** C3, amended.  Task creation with a file chosen calls [stopPolling]
    first: at that point no timer can fire any more while cache, mode,
    selection and page are still what they were.  The reset that follows
    empties the cache, leaves loaded mode, drops the selection and empties
    both buffers and the list.  Afterwards the timers stay silent and
    no request of either loop is sent until polling is started again.
    Nothing is said about answers to requests sent before the reset. *)
Theorem createTask_stops_polling_then_resets (f : File) (w : World) :
  timers_consistent w ->
  file (dom w) = Some f ->
  exists w1 req,
    step (Click Btn_createTask) w = Some w1 /\
    w1 = fetch req K_createTask (reset_ui_state (stopPolling w)) /\
    (polling_stopped (stopPolling w) /\
     blocksCache (vars (stopPolling w)) = blocksCache (vars w) /\
     blocksLoaded (vars (stopPolling w)) = blocksLoaded (vars w) /\
     currentBlockId (vars (stopPolling w)) = currentBlockId (vars w) /\
     dom (stopPolling w) = dom w) /\
    (polling_stopped w1 /\
     blocksCache (vars w1) = [] /\
     blocksLoaded (vars w1) = false /\
     currentBlockId (vars w1) = None /\
     srcText (dom w1) = "" /\
     dstText (dom w1) = "" /\
     blockList (dom w1) = []) /\
    (forall evs w2, never_restarts evs w1 = true -> run evs w1 = Some w2 ->
                    polling_stopped w2 /\ loop_requests w2 = loop_requests w1).
Proof.
  intros Hc Hf.
  exists (createTask_onclick w). eexists.
  split; [reflexivity|].
  split; [apply (@createTask_onclick_with_file f w Hf)|].
  split; [| split].
  - split; [apply stopPolling_stops; exact Hc|].
    destruct (stopPolling_keeps_state w) as (_ & _ & A & B & C & D & _).
    repeat split; assumption.
  - split; [apply (@createTask_click_stopped f w Hc Hf)|].
    rewrite (@createTask_onclick_with_file f w Hf). repeat split.
  - intros evs w2. apply run_stopped.
    + apply (@tc_onclick Btn_createTask w Hc).
    + apply (@createTask_click_stopped f w Hc Hf).
Qed.

(** The failure branch of task creation writes the message into the task
    hint and does nothing else. *)
Lemma createTask_failure_writes_hint_only
    (i : nat) (req : Request) (r : Response) (e : JsError) (w : World) :
  thrown r = Some e ->
  nth_error (inflight (win w)) i = Some (req, K_createTask) ->
  exists w',
    step (ResponseArrives i r) w = Some w' /\
    vars w' = vars w /\
    same_widgets (dom w) (dom w') /\
    intervals (win w') = intervals (win w) /\
    timeouts (win w') = timeouts (win w) /\
    net_log (win w') = net_log (win w).
Proof.
  intros Hr Hi. cbn [step]. rewrite Hi. cbn [resume]. unfold createTask_resume.
  destruct r as [e' | t | p]; [| | discriminate];
    (eexists; split; [reflexivity|]);
    rewrite vars_setText, win_setText;
    (split; [reflexivity|]);
    (split; [exact (setText_same_widgets "taskHint" _
                      (on_win (fun x => set_inflight (remove_nth i (inflight x)) x) w))|]);
    repeat split.
Qed.


(* ================================================================== *)
(** ** The block cache *)
(* ================================================================== *)

Lemma blocksCache_after_refresh (caller : Caller) (w : World) :
  blocksCache (vars (after_refresh caller w)) = blocksCache (vars w).
Proof. destruct caller; unfold after_refresh; frame; reflexivity. Qed.

Lemma blocksCache_refresh_failed (caller : Caller) (e : JsError) (w : World) :
  blocksCache (vars (refresh_failed caller e w)) = blocksCache (vars w).
Proof. destruct caller; unfold refresh_failed; frame; reflexivity. Qed.

(** C5, amended.  A block list that arrives replaces the cache as a whole:
    whatever the cache held, it is now the fetched list, entry for entry
    and in the fetched order.  So the cache has at most one entry per id
    exactly when the fetched list has.  A failed fetch leaves the cache as
    it was. *)
Theorem refresh_replaces_cache_wholesale
    (keepSelection : bool) (caller : Caller) (blocks : list Block) (w : World) :
  exists w',
    refreshBlocks_resume keepSelection caller (HttpOk (P_blocks blocks)) w = Some w' /\
    blocksCache (vars w') = blocks /\
    (NoDup (map id (blocksCache (vars w'))) <-> NoDup (map id blocks)) /\
    (forall r, (forall p, r <> HttpOk p) ->
               exists w'', refreshBlocks_resume keepSelection caller r w = Some w'' /\
                           blocksCache (vars w'') = blocksCache (vars w)).
Proof.
  eexists. split; [reflexivity|].
  assert (E : blocksCache
                (vars (after_refresh caller (refreshBlocks_body keepSelection blocks w)))
              = blocks).
  { rewrite blocksCache_after_refresh, vars_refreshBlocks_body. reflexivity. }
  split; [exact E|]. split; [rewrite E; reflexivity|].
  intros r Hr. destruct r as [e | t | p].
  - eexists. split; [reflexivity|]. apply blocksCache_refresh_failed.
  - eexists. split; [reflexivity|]. apply blocksCache_refresh_failed.
  - exfalso. apply (Hr p). reflexivity.
Qed.

(** C5 as stated fails: the block loop ticks, the backend answers with a
    list in which the id [b2] occurs twice, and the cache then holds both
    entries. *)
Lemma duplicate_ids_stay_in_cache :
  exists w',
    run [IntervalFires 6; ResponseArrives 0 (HttpOk (P_blocks sample_duplicates))]
        sample_loaded = Some w' /\
    map id (blocksCache (vars w')) = ["b2"; "b2"] /\
    ~ NoDup (map id (blocksCache (vars w'))).
Proof.
  eexists. split; [vm_compute; reflexivity|]. split; [reflexivity|].
  cbn. intros H. inversion H as [ | x l Hnot _ ]; subst. apply Hnot. left. reflexivity.
Qed.

(* ================================================================== *)
(** ** Answers that arrive late *)
(* ================================================================== *)

(** C2 as stated fails: two progress polls are on their way when the first
    is answered [finished].  That answer stops the timers and schedules a
    refresh; the second answer, [finished] as well, is still handled and
    schedules another one.  Both refreshes run. *)
Lemma two_finished_answers_two_refreshes :
  exists w1 w2 w3,
    run [IntervalFires 5; IntervalFires 5;
         ResponseArrives 0 (HttpOk (P_task sample_finished))] sample_loaded = Some w1 /\
    intervals (win w1) = [] /\
    length (timeouts (win w1)) = 1 /\
    step (ResponseArrives 0 (HttpOk (P_task sample_finished))) w1 = Some w2 /\
    length (timeouts (win w2)) = 2 /\
    run [TimeoutFires 7; TimeoutFires 8] w2 = Some w3 /\
    length (final_refreshes w3) = 2.
Proof.
  eexists. eexists. eexists.
  split; [vm_compute; reflexivity|].
  split; [reflexivity|]. split; [reflexivity|].
  split; [vm_compute; reflexivity|].
  split; [reflexivity|].
  split; [vm_compute; reflexivity|].
  reflexivity.
Qed.

(** C3 as stated fails: a block poll of task [t1] is on its way when the
    user creates the next task.  The click stops the timers and empties the
    cache; the answer of the old poll arrives afterwards and fills cache,
    list and counts with the blocks of [t1]. *)
Lemma old_answer_lands_after_reset :
  exists w1 w2,
    step (Click Btn_createTask) sample_polling = Some w1 /\
    blocksCache (vars w1) = [] /\
    intervals (win w1) = [] /\
    nth_error (inflight (win w1)) 1
      = Some ({| method := GET;
                 url := "http://127.0.0.1:8000/api/tasks/t1/blocks?offset=0&limit=5000";
                 body := NoBody |}, K_refreshBlocks true FromBlocksTick) /\
    step (ResponseArrives 1 (HttpOk (P_blocks sample_snapshot))) w1 = Some w2 /\
    blocksCache (vars w2) = sample_snapshot /\
    length (blockList (dom w2)) = 2 /\
    progressCounts (dom w2) = "Blocks: 2 / 2".
Proof.
  eexists. eexists.
  split; [vm_compute; reflexivity|].
  split; [reflexivity|]. split; [reflexivity|]. split; [reflexivity|].
  split; [vm_compute; reflexivity|].
  split; [reflexivity|]. split; reflexivity.
Qed.

(* ================================================================== *)
(** ** The theorems at the sample session *)
(* ================================================================== *)

Lemma sample_polling_consistent : timers_consistent sample_polling.
Proof.
  split; [simpl; lia|]. right. exists 5.
  repeat split; simpl; lia.
Qed.

Lemma refresh_focus_rule_witness :
  currentBlockId (vars sample_selected) = Some "b2" /\
  In "b2" (map id sample_snapshot) /\
  isEditing sample_selected = false /\
  exists w',
    refreshBlocks_resume true FromBlocksTick (HttpOk (P_blocks sample_snapshot))
      sample_selected = Some w' /\
    srcText (dom w') = "Good bye" /\
    dstText (dom w') = "Au revoir".
Proof.
  split; [reflexivity|]. split; [simpl; auto|]. split; [reflexivity|].
  destruct (@refresh_keeps_focused_edit_else_loads_snapshot
              "b2" sample_snapshot FromBlocksTick sample_selected
              eq_refl eq_refl (or_intror (or_introl eq_refl)))
    as (w' & b & Hr & Hf & _ & _ & _ & Hnf).
  exists w'. split; [exact Hr|].
  vm_compute in Hf. inversion Hf; subst b. apply Hnf. reflexivity.
Defined.

Lemma finished_poll_witness :
  timers_consistent sample_polling /\
  exists w1,
    step (ResponseArrives 0 (HttpOk (P_task sample_finished))) sample_polling
      = Some w1 /\
    timeouts (win w1) = [(7, CB_finalRefresh, 300)] /\
    polling_stopped w1.
Proof.
  split; [exact sample_polling_consistent|].
  destruct (@finished_poll_schedules_one_refresh_and_stops
              0 _ sample_finished sample_polling
              sample_polling_consistent eq_refl eq_refl)
    as (w1 & Hs & Ht & Hst & _).
  exists w1. split; [exact Hs|]. split; [exact Ht | exact Hst].
Defined.

Lemma createTask_reset_witness :
  timers_consistent sample_polling /\
  file (dom sample_polling) = Some "report.docx" /\
  exists w1,
    step (Click Btn_createTask) sample_polling = Some w1 /\
    polling_stopped w1 /\
    blocksCache (vars w1) = [] /\
    currentBlockId (vars w1) = None.
Proof.
  split; [exact sample_polling_consistent|]. split; [reflexivity|].
  destruct (@createTask_stops_polling_then_resets
              "report.docx" sample_polling sample_polling_consistent eq_refl)
    as (w1 & req & Hs & _ & _ & (Hst & Hc & _ & Hb & _) & _).
  exists w1. split; [exact Hs|]. split; [exact Hst|]. split; [exact Hc | exact Hb].
Defined.


Lemma blocks_tick_witness :
  find (fun x => Nat.eqb (handle_of x) 2) (intervals (win sample_created))
    = Some (2, CB_pollBlocks, 2500) /\
  blocksLoaded (vars sample_created) = false /\
  step (IntervalFires 2) sample_created = Some sample_created.
Proof.
  split; [reflexivity|]. split; [reflexivity|].
  apply (@blocks_tick_only_in_loaded_mode 2 2500 sample_created eq_refl).
  reflexivity.
Defined.

Lemma precondition_error_witness :
  precondition_unmet Btn_saveBlock sample_loaded = true /\
  exists w',
    step (Click Btn_saveBlock) sample_loaded = Some w' /\
    blockHint (dom w') = "Please select a block first." /\
    net_log (win w') = net_log (win sample_loaded).
Proof.
  split; [reflexivity|].
  destruct (@precondition_error_sends_nothing Btn_saveBlock sample_loaded eq_refl)
    as (w' & Hs & _ & Ht & Hn & _).
  exists w'. repeat split; assumption.
Defined.


(* ================================================================== *)
(** ** The model at work *)
(* ================================================================== *)

Example progress_above_one_shows_full :
  let w := setProgress (Finite (3 # 2)) "running" (initial sample_base) in
  progressBar (dom w) = Finite 1%Q /\
  progressPct (dom w) = "100%" /\
  progressStatus (dom w) = "Status: running".
Proof. repeat split. Qed.

Example progress_nan_shows_zero :
  let w := setProgress NaN "" (initial sample_base) in
  progressBar (dom w) = Finite 0%Q /\
  progressPct (dom w) = "0%" /\
  progressStatus (dom w) = "".
Proof. repeat split. Qed.

Example progress_third_shows_33 :
  progressPct (dom (setProgress (Finite (1 # 3)) "running" (initial sample_base)))
  = "33%".
Proof. reflexivity. Qed.

Example row_text_collapses_white_space :
  item_text
    (render_item {| id := "b9"; order_no := 9%Z; status := "pending";
                    source_text := Some ("Dear  " ++ String (ascii_of_nat 9) " Sir");
                    translated_text := None |})
  = "#9 [pending] Dear Sir".
Proof. reflexivity. Qed.

Example loaded_session_counts :
  progressCounts (dom sample_loaded) = "Blocks: 1 / 2" /\
  blockHint (dom sample_loaded) = "Loaded blocks: 2" /\
  map item_text (blockList (dom sample_loaded))
    = ["#1 [translated] Hello"; "#2 [pending] Good bye"] /\
  intervals (win sample_loaded) = [(5, CB_pollTask, 1000); (6, CB_pollBlocks, 2500)].
Proof. repeat split. Qed.

(** Two block ticks in a row while the user types: the cache follows the
    backend, the text being typed stays. *)
Example typing_survives_two_ticks :
  exists w',
    run [ IntervalFires 6; ResponseArrives 0 (HttpOk (P_blocks sample_snapshot));
          IntervalFires 6; ResponseArrives 0 (HttpOk (P_blocks sample_snapshot)) ]
        sample_typing = Some w' /\
    dstText (dom w') = "Au rev" /\
    srcText (dom w') = "Good bye" /\
    blocksCache (vars w') = sample_snapshot /\
    progressCounts (dom w') = "Blocks: 2 / 2".
Proof. eexists. split; [vm_compute; reflexivity|]. repeat split. Qed.

(** The same two ticks with the focus elsewhere: the buffers follow the
    backend. *)
Example idle_selection_follows_backend :
  exists w',
    run [ IntervalFires 6; ResponseArrives 0 (HttpOk (P_blocks sample_snapshot)) ]
        sample_selected = Some w' /\
    dstText (dom sample_selected) = "" /\
    dstText (dom w') = "Au revoir".
Proof. eexists. split; [vm_compute; reflexivity|]. repeat split. Qed.

(** A poll answered with [error] stops polling, shows the message and
    schedules nothing. *)
Example error_status_stops_polling :
  exists w',
    step (ResponseArrives 0
            (HttpOk (P_task {| t_progress := Some (Finite (1 # 4));
                               t_status := Some "error";
                               t_error := Some "quota exceeded" |})))
         sample_polling = Some w' /\
    intervals (win w') = [] /\
    timeouts (win w') = [] /\
    progressHint (dom w') = "Error: quota exceeded" /\
    progressStatus (dom w') = "Status: error".
Proof. eexists. split; [vm_compute; reflexivity|]. repeat split. Qed.

(* ================================================================== *)
(** ** Trimming and the settings form *)
(* ================================================================== *)

Lemma trimStart_split (s : string) :
  exists pre, all_space pre = true /\ s = pre ++ trimStart s /\
              no_leading_space (trimStart s) = true.
Proof.
  induction s as [ | c rest IH]; simpl.
  - exists "". repeat split.
  - destruct (is_space c) eqn:E.
    + destruct IH as (pre & A & B & C). exists (String c pre). simpl.
      rewrite E, A. repeat split; [congruence | exact C].
    + exists "". simpl. rewrite E. repeat split.
Qed.

Lemma trimEnd_split (s : string) :
  exists post, all_space post = true /\ s = trimEnd s ++ post /\
               no_trailing_space (trimEnd s) = true.
Proof.
  induction s as [ | c rest IH]; simpl.
  - exists "". repeat split.
  - destruct IH as (post & A & B & C).
    destruct (trimEnd rest) as [ | d kept] eqn:E.
    + destruct (is_space c) eqn:Ec.
      * exists (String c post). simpl. rewrite Ec, A.
        repeat split. simpl in B. congruence.
      * exists post. simpl. rewrite Ec. repeat split; [exact A|].
        simpl in B. congruence.
    + exists post. repeat split; [exact A | simpl; simpl in B; congruence | exact C].
Qed.

Lemma trimEnd_keeps_head (s : string) :
  no_leading_space s = true -> no_leading_space (trimEnd s) = true.
Proof.
  destruct s as [ | c rest]; simpl; [reflexivity|]. intros H.
  destruct (trimEnd rest); [| exact H].
  apply negb_true_iff in H. rewrite H. simpl. rewrite H. reflexivity.
Qed.

Lemma trimStart_fixed (s : string) :
  no_leading_space s = true -> trimStart s = s.
Proof.
  destruct s as [ | c rest]; simpl; [reflexivity|]. intros H.
  apply negb_true_iff in H. rewrite H. reflexivity.
Qed.

Lemma trimEnd_fixed (s : string) :
  no_trailing_space s = true -> trimEnd s = s.
Proof.
  induction s as [ | c rest IH]; [reflexivity|]. intros H.
  cbn [trimEnd]. destruct rest as [ | d rest'].
  - simpl in *. apply negb_true_iff in H. rewrite H. reflexivity.
  - rewrite (IH H). reflexivity.
Qed.

Lemma trimStart_all_space (s : string) :
  all_space s = true -> trimStart s = "".
Proof.
  induction s as [ | c rest IH]; simpl; [reflexivity|]. intros H.
  apply andb_true_iff in H. destruct H as [A B]. rewrite A. exact (IH B).
Qed.

Lemma all_space_app (a b : string) :
  all_space (a ++ b) = all_space a && all_space b.
Proof.
  induction a as [ | c rest IH]; simpl; [reflexivity|].
  rewrite IH. apply andb_assoc.
Qed.

Lemma trim_empty_iff (s : string) : trim s = "" <-> all_space s = true.
Proof.
  unfold trim.
  destruct (trimStart_split s) as (pre & A & B & _).
  destruct (trimEnd_split (trimStart s)) as (post & A' & B' & _).
  split; intros H.
  - rewrite B, B', H, !all_space_app, A, A'. reflexivity.
  - rewrite (trimStart_all_space _ H). reflexivity.
Qed.



(* ================================================================== *)
(** ** Rows of the block list *)
(* ================================================================== *)

Lemma collapse_spaces_single_blanks (in_run : bool) (s : string) :
  single_blanks in_run (collapse_spaces in_run s) = true.
Proof.
  revert in_run. induction s as [ | c rest IH]; intros in_run; simpl.
  - reflexivity.
  - destruct (is_space c) eqn:E.
    + destruct in_run.
      * apply IH.
      * simpl. apply IH.
    + simpl. rewrite E. apply IH.
Qed.

Lemma collapse_spaces_visible (in_run : bool) (s : string) :
  visible (collapse_spaces in_run s) = visible s.
Proof.
  revert in_run. induction s as [ | c rest IH]; intros in_run; simpl.
  - reflexivity.
  - destruct (is_space c) eqn:E.
    + destruct in_run; simpl; apply IH.
    + simpl. rewrite E, IH. reflexivity.
Qed.

Lemma collapse_spaces_again (in_run : bool) (s : string) :
  collapse_spaces in_run (collapse_spaces in_run s) = collapse_spaces in_run s.
Proof.
  revert in_run. induction s as [ | c rest IH]; intros in_run; simpl.
  - reflexivity.
  - destruct (is_space c) eqn:E.
    + destruct in_run.
      * apply IH.
      * simpl. rewrite IH. reflexivity.
    + simpl. rewrite E, IH. reflexivity.
Qed.

Lemma collapse_spaces_shorter (in_run : bool) (s : string) :
  String.length (collapse_spaces in_run s) <= String.length s.
Proof.
  revert in_run. induction s as [ | c rest IH]; intros in_run; simpl.
  - lia.
  - destruct (is_space c); [destruct in_run|]; simpl;
      match goal with
      | |- context [collapse_spaces ?b rest] => specialize (IH b)
      end; lia.
Qed.


Lemma slice0_length (n : nat) (s : string) :
  String.length (slice0 n s) = Nat.min n (String.length s).
Proof.
  unfold slice0. revert s. induction n as [ | n IH]; intros s.
  - destruct s; reflexivity.
  - destruct s as [ | c rest]; simpl; [reflexivity|]. rewrite IH. reflexivity.
Qed.

Lemma slice0_prefix (n : nat) (s : string) : prefix (slice0 n s) s = true.
Proof.
  unfold slice0. revert s. induction n as [ | n IH]; intros s.
  - destruct s; reflexivity.
  - destruct s as [ | c rest]; simpl; [reflexivity|].
    destruct (ascii_dec c c) as [_ | N]; [apply IH | contradiction].
Qed.

Lemma slice0_short (n : nat) (s : string) :
  String.length s <= n -> slice0 n s = s.
Proof.
  unfold slice0. revert s. induction n as [ | n IH]; intros s H.
  - destruct s; [reflexivity | simpl in H; lia].
  - destruct s as [ | c rest]; simpl; [reflexivity|].
    rewrite IH; [reflexivity | simpl in H; lia].
Qed.


(* ================================================================== *)
(** ** The list after a refresh, selecting and saving *)
(* ================================================================== *)

Lemma dom_after_refresh_widgets (caller : Caller) (w : World) :
  blockList (dom (after_refresh caller w)) = blockList (dom w) /\
  progressCounts (dom (after_refresh caller w)) = progressCounts (dom w).
Proof.
  destruct caller; unfold after_refresh; rewrite ?dom_startPolling; split; reflexivity.
Qed.

Lemma blockList_refreshBlocks_body (keepSelection : bool) (blocks : list Block)
    (w : World) :
  blockList (dom (refreshBlocks_body keepSelection blocks w)) = map render_item blocks /\
  progressCounts (dom (refreshBlocks_body keepSelection blocks w))
    = "Blocks: " ++ string_of_nat (length (filter is_done blocks)) ++ " / "
        ++ string_of_nat (length blocks).
Proof.
  rewrite refreshBlocks_body_eq. cbv zeta.
  split_ifs; try destruct (find_block _ _); split; reflexivity.
Qed.

Lemma map_block_render (blocks : list Block) :
  map item_block (map render_item blocks) = blocks.
Proof.
  induction blocks as [ | b blocks IH]; simpl; [reflexivity|].
  rewrite IH. reflexivity.
Qed.

(** X5. After every block list that arrives, whoever asked for it, the
    list on the page has one row per block, in the fetched order, and the
    counts read [Blocks: done / total] with [done] the number of blocks
    translated or edited, never more than [total].  Clicking row [n]
    selects block [n] of the fetched list and loads its texts; there is no
    row beyond the last block. *)
Theorem refresh_renders_rows_in_order
    (keepSelection : bool) (caller : Caller) (blocks : list Block) (w : World) :
  exists w',
    refreshBlocks_resume keepSelection caller (HttpOk (P_blocks blocks)) w = Some w' /\
    blockList (dom w') = map render_item blocks /\
    map item_block (blockList (dom w')) = blocks /\
    progressCounts (dom w')
      = "Blocks: " ++ string_of_nat (length (filter is_done blocks)) ++ " / "
          ++ string_of_nat (length blocks) /\
    length (filter is_done blocks) <= length blocks /\
    (forall n b, nth_error blocks n = Some b ->
                 exists w'', step (ClickItem n) w' = Some w'' /\
                             currentBlockId (vars w'') = Some (id b) /\
                             srcText (dom w'') = or_empty (source_text b) /\
                             dstText (dom w'') = or_empty (translated_text b)) /\
    (forall n, length blocks <= n -> step (ClickItem n) w' = None).
Proof.
  eexists. split; [reflexivity|].
  destruct (dom_after_refresh_widgets caller (refreshBlocks_body keepSelection blocks w))
    as [L P].
  destruct (blockList_refreshBlocks_body keepSelection blocks w) as [L' P'].
  rewrite L, P, L', P'.
  split; [reflexivity|]. split; [apply map_block_render|].
  split; [reflexivity|]. split; [apply filter_length_le|]. split.
  - intros n b Hn. cbn [step]. rewrite L, L'.
    rewrite nth_error_map, Hn. cbn [option_map].
    eexists. split; [reflexivity|]. unfold item_onclick.
    rewrite vars_setText, srcText_setText, dstText_setText. repeat split.
  - intros n Hn. cbn [step]. rewrite L, L'.
    rewrite nth_error_map.
    apply nth_error_None in Hn. rewrite Hn. reflexivity.
Qed.

(** X6. The user clicks a row, puts the cursor into the destination input,
    types and presses save, with a task present and a non-empty block id:
    exactly one request leaves, a PATCH to the block of that row under the
    current task, carrying the typed text as [translated_text].  The cache
    is not touched by the click on save. *)
Theorem save_sends_typed_text_of_clicked_row
    (n : nat) (it : Item) (text : string) (w : World) :
  nth_error (blockList (dom w)) n = Some it ->
  truthy (currentTaskId (vars w)) = true ->
  truthy (Some (id (item_block it))) = true ->
  exists w',
    run [ClickItem n; UserFocus (Some "dstText"); UserTypes text; Click Btn_saveBlock] w
      = Some w' /\
    sent_one {| method := PATCH;
                url := BASE (vars w) ++ "/api/tasks/"
                         ++ interpolate (currentTaskId (vars w))
                         ++ "/blocks/" ++ id (item_block it);
                body := JsonBody [("translated_text", text)] |}
             K_saveBlock w w' /\
    currentBlockId (vars w') = Some (id (item_block it)) /\
    dstText (dom w') = text /\
    blocksCache (vars w') = blocksCache (vars w).
Proof.
  intros Hn Ht Hb. cbn [run step]. rewrite Hn.
  cbn [isEditing dom on_dom activeElement set_activeElement String.eqb Ascii.eqb
       Bool.eqb].
  cbn [onclick]. unfold saveBlock_onclick, apiPatchJson.
  unfold item_onclick.
  cbn [vars on_dom]. rewrite !vars_setText.
  cbn [vars on_dom on_vars currentTaskId currentBlockId set_currentBlockId].
  rewrite Ht, Hb. cbn [negb orb].
  eexists. split; [reflexivity|].
  cbn [interpolate dom on_dom dstText set_dstText BASE].
  split; [| repeat split].
  unfold sent_one. cbn. rewrite !win_setText. repeat split.
Qed.

Lemma sent_one_fetch (req : Request) (k : Kont) (w : World) :
  sent_one req k w (fetch req k w).
Proof. unfold sent_one. repeat split. Qed.

Lemma sent_one_ext (req : Request) (k : Kont) (w0 w w' : World) :
  win w = win w0 -> sent_one req k w w' -> sent_one req k w0 w'.
Proof. unfold sent_one. intros E. rewrite E. auto. Qed.

(** X7. When the backend has accepted a save, the hint shows its answer
    and the client changes neither the cache nor the buffers itself.  In
    loaded mode, with a task present, it asks for the block list at once,
    with the selection to be kept; otherwise it sends nothing. *)
Theorem save_answer_refreshes_only_in_loaded_mode (out : string) (w : World) :
  exists w',
    resume K_saveBlock (HttpOk (P_echo out)) w = Some w' /\
    blockHint (dom w') = out /\
    vars w' = vars w /\
    edit_kept w w' /\
    blockList (dom w') = blockList (dom w) /\
    if blocksLoaded (vars w) && truthy (currentTaskId (vars w))
    then sent_one {| method := GET; url := blocks_url w; body := NoBody |}
                  (K_refreshBlocks true FromSaveBlock) w w'
    else win w' = win w.
Proof.
  cbn [resume]. unfold saveBlock_resume. rewrite vars_setText.
  eexists. split; [reflexivity|].
  destruct (blocksLoaded (vars w)); cbn [andb].
  - unfold refreshBlocks, apiGet. rewrite vars_setText.
    destruct (truthy (currentTaskId (vars w))); cbn [negb after_refresh].
    + split; [reflexivity|]. split; [reflexivity|]. split; [kept|].
      split; [reflexivity|].
      eapply sent_one_ext; [| apply sent_one_fetch]. apply win_setText.
    + split; [reflexivity|]. split; [apply vars_setText|]. split; [kept|].
      split; [apply blockList_setText | apply win_setText].
  - split; [reflexivity|]. split; [apply vars_setText|]. split; [kept|].
    split; [apply blockList_setText | apply win_setText].
Qed.

(** X8. A user action whose request fails shows the error in the hint of
    that action and does nothing else: no module variable, no timer, no
    request, and nothing of the page besides the text panels changes.  The
    text is the message of the error; an answer that is not 2xx shows its
    body, and [Error] when the body is empty. *)
Theorem user_action_failure_shown_inline
    (k : Kont) (h : string) (r : Response) (e : JsError) (w : World) :
  hint_of_kont k = Some h ->
  thrown r = Some e ->
  exists w',
    resume k r w = Some w' /\
    w' = setText h (error_text e) w /\
    textContent h (dom w') = error_text e /\
    vars w' = vars w /\
    win w' = win w /\
    same_widgets (dom w) (dom w') /\
    (forall body_text, r = HttpError body_text ->
                       error_text e = if body_text =? "" then "Error" else body_text).
Proof.
  intros Hk Hr.
  assert (E : resume k r w = Some (setText h (error_text e) w)).
  { destruct r as [e' | t | p]; [| | discriminate]; simpl in Hr; inversion Hr; subst;
      destruct k as [ | ks caller | | | | ]; try discriminate;
      try destruct caller; try discriminate;
      simpl in Hk; inversion Hk; subst; reflexivity. }
  rewrite E. eexists. split; [reflexivity|]. split; [reflexivity|].
  rewrite vars_setText, win_setText.
  split.
  { destruct k as [ | ks caller | | | | ]; try discriminate;
      try destruct caller; try discriminate;
      simpl in Hk; inversion Hk; subst; reflexivity. }
  split; [reflexivity|]. split; [reflexivity|].
  split; [apply setText_same_widgets|].
  intros t Ht. subst r. simpl in Hr. inversion Hr; subst.
  unfold error_text, new_Error. simpl. reflexivity.
Qed.

(* ================================================================== *)
(** ** Starting and stopping the loops *)
(* ================================================================== *)

Lemma consistent_on_or_off (w : World) :
  timers_consistent w ->
  (polling_stopped w \/ polling_active w) /\
  length (intervals (win w)) <= 2 /\
  NoDup (map (fun x => handle_of x) (intervals (win w))).
Proof.
  intros [Hn [(A & B & C) | (h & Hh & Hlt & A & B & C)]].
  - split; [left; repeat split; try assumption; apply no_interval_no_tick; exact C|].
    rewrite C. split; [simpl; lia | constructor].
  - split.
    + right. exists h, (S h). rewrite C. repeat split; simpl; auto.
    + rewrite C. split; [simpl; lia|]. simpl. constructor.
      * intros [H | []]. unfold handle_of in H. simpl in H. lia.
      * constructor; [intros [] | constructor].
Qed.

(** X9. However the application got where it is, polling is either off,
    with no interval registered and both timer variables null, or on, with
    exactly one interval per loop (1000 ms and 2500 ms) named by the two
    variables.  Restarting never piles up timers: the table never holds
    more than two intervals, and no handle twice. *)
Theorem polling_is_fully_on_or_off (base : string) (evs : list Event) (w : World) :
  run evs (initial base) = Some w ->
  (polling_stopped w \/ polling_active w) /\
  length (intervals (win w)) <= 2 /\
  NoDup (map (fun x => handle_of x) (intervals (win w))).
Proof.
  intros H. apply consistent_on_or_off. exact (reachable_consistent base evs H).
Qed.

(** X10. [startPolling] replaces the loops, it does not add to them: the
    intervals afterwards are the two fresh ones, whichever were there; a
    handle of before no longer fires; and everything but the timers is as
    it was.  [stopPolling] on a stopped state changes nothing. *)
Theorem startPolling_replaces_the_loops (w : World) :
  timers_consistent w ->
  intervals (win (startPolling w))
    = [(next_handle (win w), CB_pollTask, 1000);
       (S (next_handle (win w)), CB_pollBlocks, 2500)] /\
  pollTaskTimer (vars (startPolling w)) = Some (next_handle (win w)) /\
  pollBlocksTimer (vars (startPolling w)) = Some (S (next_handle (win w))) /\
  (forall h cb ms, In (h, cb, ms) (intervals (win w)) ->
                   find (fun x => Nat.eqb (handle_of x) h)
                        (intervals (win (startPolling w))) = None) /\
  intervals (win (startPolling (startPolling w)))
    = [(S (S (next_handle (win w))), CB_pollTask, 1000);
       (S (S (S (next_handle (win w)))), CB_pollBlocks, 2500)] /\
  dom (startPolling w) = dom w /\
  stopPolling (stopPolling w) = stopPolling w.
Proof.
  intros Hc.
  destruct (stopPolling_consistent Hc) as [E Hc0].
  assert (I1 : intervals (win (startPolling w))
               = [(next_handle (win w), CB_pollTask, 1000);
                  (S (next_handle (win w)), CB_pollBlocks, 2500)]).
  { unfold startPolling, setInterval. cbn. rewrite E, win_stopPolling_next_handle.
    reflexivity. }
  assert (N1 : next_handle (win (startPolling w)) = S (S (next_handle (win w)))).
  { unfold startPolling, setInterval. cbn. rewrite win_stopPolling_next_handle.
    reflexivity. }
  split; [exact I1|].
  split; [unfold startPolling, setInterval; cbn;
          rewrite win_stopPolling_next_handle; reflexivity|].
  split; [unfold startPolling, setInterval; cbn;
          rewrite win_stopPolling_next_handle; reflexivity|].
  split.
  { intros h cb ms Hin. rewrite I1.
    destruct Hc as [Hn [(_ & _ & C) | (h0 & Hh & Hlt & _ & _ & C)]];
      rewrite C in Hin; simpl in Hin.
    - contradiction.
    - assert (Hold : h < next_handle (win w))
        by (destruct Hin as [Hin | [Hin | []]]; inversion Hin; lia).
      unfold handle_of. cbn [find fst].
      destruct (Nat.eqb_spec (next_handle (win w)) h); [lia|].
      destruct (Nat.eqb_spec (S (next_handle (win w))) h); [lia|].
      reflexivity. }
  split.
  { destruct (stopPolling_consistent (startPolling_consistent Hc)) as [E2 _].
    unfold startPolling at 1. unfold setInterval. cbn.
    rewrite E2, win_stopPolling_next_handle, N1. reflexivity. }
  split; [apply dom_startPolling|].
  unfold stopPolling at 1.
  destruct (stopPolling_timers_null w) as [T1 T2]. rewrite T1. cbn [truthy_handle].
  rewrite T2. cbn [truthy_handle].
  unfold stopPolling.
  destruct (truthy_handle (pollTaskTimer (vars w)));
    match goal with
    | |- context [truthy_handle ?x] => destruct (truthy_handle x)
    end; reflexivity.
Qed.

(* ================================================================== *)
(** ** Answers to the progress poll *)
(* ================================================================== *)

(** X11. A progress poll answered with status [error] stops both loops
    and, unlike [finished], schedules no refresh and sends nothing.  The
    status label reads [Status: error]; the progress hint shows the error
    text when the answer carries one and is left alone when it does not.
    Nothing retries: the loops stay silent until polling is started again. *)
Theorem error_status_stops_without_refresh
    (i : nat) (req : Request) (t : TaskInfo) (w : World) :
  timers_consistent w ->
  nth_error (inflight (win w)) i = Some (req, K_pollTask) ->
  t_status t = Some "error" ->
  exists w1,
    step (ResponseArrives i (HttpOk (P_task t))) w = Some w1 /\
    polling_stopped w1 /\
    timeouts (win w1) = timeouts (win w) /\
    net_log (win w1) = net_log (win w) /\
    progressStatus (dom w1) = "Status: error" /\
    progressHint (dom w1)
      = (if truthy (t_error t) then "Error: " ++ interpolate (t_error t)
         else progressHint (dom w)) /\
    (forall evs w2, never_restarts evs w1 = true -> run evs w1 = Some w2 ->
                    polling_stopped w2 /\ loop_requests w2 = loop_requests w1).
Proof.
  intros Hc Hi Hst.
  destruct (step (ResponseArrives i (HttpOk (P_task t))) w) as [w1 | ] eqn:Hs.
  2:{ cbn [step] in Hs. rewrite Hi in Hs. discriminate. }
  assert (Hc1 : timers_consistent w1) by (eapply tc_step; eassumption).
  exists w1. split; [reflexivity|].
  cbn [step] in Hs. rewrite Hi in Hs. cbn [resume] in Hs.
  unfold pollTask_resume in Hs. rewrite Hst in Hs.
  cbn [strict_eq String.eqb Ascii.eqb Bool.eqb nullish] in Hs.
  inversion Hs; subst; clear Hs.
  split; [apply stopped_of_null_timer; [exact Hc1 | reflexivity]|].
  rewrite win_stopPolling_timeouts, win_stopPolling_net_log, dom_stopPolling.
  split; [destruct (truthy (t_error t)); rewrite ?win_setText; reflexivity|].
  split; [destruct (truthy (t_error t)); rewrite ?win_setText; reflexivity|].
  split; [destruct (truthy (t_error t)); reflexivity|].
  split; [destruct (truthy (t_error t)); reflexivity|].
  intros evs w2. apply run_stopped; [exact Hc1|].
  apply stopped_of_null_timer; [exact Hc1 | reflexivity].
Qed.

(** X12. A progress poll answered with any other status than [finished]
    or [error], or with none, only updates the progress display: a missing
    progress counts as 0 and a missing status leaves the label empty.
    Module variables, timers, pending timeouts, requests, the list and the
    edit session are untouched, so polling goes on. *)
Theorem running_status_only_updates_display
    (i : nat) (req : Request) (t : TaskInfo) (w : World) :
  nth_error (inflight (win w)) i = Some (req, K_pollTask) ->
  strict_eq "finished" (t_status t) = false ->
  strict_eq "error" (t_status t) = false ->
  exists w1,
    step (ResponseArrives i (HttpOk (P_task t))) w = Some w1 /\
    vars w1 = vars w /\
    intervals (win w1) = intervals (win w) /\
    timeouts (win w1) = timeouts (win w) /\
    net_log (win w1) = net_log (win w) /\
    edit_kept w w1 /\
    blockList (dom w1) = blockList (dom w) /\
    progressBar (dom w1) = progress_value (nullish (t_progress t) (Finite 0%Q)) /\
    progressStatus (dom w1)
      = match t_status t with
        | None | Some EmptyString => ""
        | Some s => "Status: " ++ s
        end.
Proof.
  intros Hi Hf He. cbn [step]. rewrite Hi. cbn [resume].
  unfold pollTask_resume. rewrite Hf, He.
  eexists. split; [reflexivity|].
  destruct (truthy (t_error t));
    rewrite ?vars_setText, ?win_setText, ?blockList_setText, ?progressBar_setText;
    (split; [reflexivity|]); (split; [reflexivity|]); (split; [reflexivity|]);
    (split; [reflexivity|]); (split; [kept|]); (split; [reflexivity|]);
    (split; [reflexivity|]);
    destruct (t_status t) as [[ | c s] | ]; reflexivity.
Qed.

(* ================================================================== *)
(** ** Creating a task: the other outcomes *)
(* ================================================================== *)



(* ================================================================== *)
(** ** Ticks and the remaining buttons *)
(* ================================================================== *)

(** The answer to the request a handler has just sent runs its
    continuation. *)
Lemma step_answer_to_last (req : Request) (k : Kont) (r : Response) (w : World) :
  step (ResponseArrives (length (inflight (win w))) r) (fetch req k w)
  = resume k r (on_win (fun x => set_inflight (remove_nth (length (inflight (win w)))
                                                           (inflight x)) x)
                       (fetch req k w)).
Proof.
  cbn [step]. cbn [fetch on_win win inflight set_inflight set_net_log].
  rewrite nth_error_last. reflexivity.
Qed.

(** X15. A tick of either loop sends at most one request and touches
    nothing else.  The progress loop asks for the current task when there
    is one; the block loop asks for its blocks, selection to be kept, when
    there is a task and the cache is in loaded mode; otherwise the tick is
    void. *)
Theorem tick_sends_at_most_one_request (h ms : nat) (cb : IntervalCb) (w : World) :
  find (fun x => Nat.eqb (handle_of x) h) (intervals (win w)) = Some (h, cb, ms) ->
  exists w',
    step (IntervalFires h) w = Some w' /\
    vars w' = vars w /\
    dom w' = dom w /\
    match cb with
    | CB_pollTask =>
        if truthy (currentTaskId (vars w))
        then sent_one {| method := GET;
                         url := BASE (vars w) ++ "/api/tasks/"
                                  ++ interpolate (currentTaskId (vars w));
                         body := NoBody |} K_pollTask w w'
        else w' = w
    | CB_pollBlocks =>
        if truthy (currentTaskId (vars w)) && blocksLoaded (vars w)
        then sent_one {| method := GET; url := blocks_url w; body := NoBody |}
                      (K_refreshBlocks true FromBlocksTick) w w'
        else w' = w
    end.
Proof.
  intros Hf. cbn [step]. rewrite Hf. destruct cb.
  - unfold pollTask_tick, apiGet.
    destruct (truthy (currentTaskId (vars w))); cbn [negb];
      eexists; (split; [reflexivity|]); repeat split.
  - unfold pollBlocks_tick, refreshBlocks, apiGet.
    destruct (truthy (currentTaskId (vars w))); cbn [negb andb];
      [destruct (blocksLoaded (vars w)); cbn [negb]|];
      eexists; (split; [reflexivity|]); repeat split.
Qed.

(** X16. Export with a task present sends one GET to the export address
    and changes nothing until the answer is there.  A successful answer
    starts exactly one download, named [translated.docx], and says so in
    the progress hint; a failed one starts none and shows the error.  In
    neither case does a module variable or a timer change. *)
Theorem export_downloads_once (w : World) :
  truthy (currentTaskId (vars w)) = true ->
  exists w1,
    step (Click Btn_exportDocx) w = Some w1 /\
    sent_one {| method := GET;
                url := BASE (vars w) ++ "/api/tasks/"
                         ++ interpolate (currentTaskId (vars w)) ++ "/export";
                body := NoBody |} K_exportDocx w w1 /\
    vars w1 = vars w /\
    dom w1 = dom w /\
    (exists w2,
        step (ResponseArrives (length (inflight (win w))) (HttpOk P_blob)) w1 = Some w2 /\
        downloads (win w2) = (downloads (win w) ++ ["translated.docx"])%list /\
        progressHint (dom w2)
          = "Download started: translated.docx (check your default Downloads folder)." /\
        vars w2 = vars w /\
        intervals (win w2) = intervals (win w) /\
        inflight (win w2) = inflight (win w)) /\
    (forall r e, thrown r = Some e ->
                 exists w2,
                   step (ResponseArrives (length (inflight (win w))) r) w1 = Some w2 /\
                   downloads (win w2) = downloads (win w) /\
                   progressHint (dom w2) = error_text e /\
                   vars w2 = vars w /\
                   intervals (win w2) = intervals (win w)).
Proof.
  intros Ht.
  set (req := {| method := GET;
                 url := BASE (vars w) ++ "/api/tasks/"
                          ++ interpolate (currentTaskId (vars w)) ++ "/export";
                 body := NoBody |}).
  assert (E1 : step (Click Btn_exportDocx) w = Some (fetch req K_exportDocx w)).
  { cbn [step onclick]. unfold exportDocx_onclick. rewrite Ht. reflexivity. }
  exists (fetch req K_exportDocx w). split; [exact E1|].
  split; [apply sent_one_fetch|]. split; [reflexivity|]. split; [reflexivity|].
  split.
  - rewrite step_answer_to_last. cbn [resume exportDocx_resume].
    eexists. split; [reflexivity|].
    rewrite vars_setText, win_setText. cbn. rewrite remove_nth_last. repeat split.
  - intros r e Hr. rewrite step_answer_to_last. cbn [resume]. unfold exportDocx_resume.
    destruct r as [e' | t | p]; [| | discriminate];
      simpl in Hr; inversion Hr; subst;
      (eexists; split; [reflexivity|]);
      rewrite vars_setText, win_setText; repeat split.
Qed.

(** X17. Load-blocks with a task present puts the cache into loaded mode
    at the click and asks for the block list once, selection not to be
    kept.  When the list arrives the cache holds it, the hint gives its
    length, both loops run whether or not they ran before, and buffers and
    selection are as they were.  When the request fails the hint shows the
    error, the timers are as they were, the cache is unchanged, and the
    cache stays in loaded mode. *)
Theorem loadBlocks_enters_loaded_mode (blocks : list Block) (w : World) :
  timers_consistent w ->
  truthy (currentTaskId (vars w)) = true ->
  exists w1,
    step (Click Btn_loadBlocks) w = Some w1 /\
    blocksLoaded (vars w1) = true /\
    sent_one {| method := GET; url := blocks_url w; body := NoBody |}
             (K_refreshBlocks false FromLoadBlocks) w w1 /\
    (exists w2,
        step (ResponseArrives (length (inflight (win w))) (HttpOk (P_blocks blocks))) w1
          = Some w2 /\
        blocksCache (vars w2) = blocks /\
        blockHint (dom w2) = "Loaded blocks: " ++ string_of_nat (length blocks) /\
        polling_active w2 /\
        blocksLoaded (vars w2) = true /\
        edit_kept w w2 /\
        currentBlockId (vars w2) = currentBlockId (vars w)) /\
    (forall r e, thrown r = Some e ->
                 exists w2,
                   step (ResponseArrives (length (inflight (win w))) r) w1 = Some w2 /\
                   blockHint (dom w2) = error_text e /\
                   blocksLoaded (vars w2) = true /\
                   blocksCache (vars w2) = blocksCache (vars w) /\
                   intervals (win w2) = intervals (win w) /\
                   pollTaskTimer (vars w2) = pollTaskTimer (vars w)).
Proof.
  intros Hc Ht.
  set (req := {| method := GET; url := blocks_url w; body := NoBody |}).
  set (wl := on_vars (set_blocksLoaded true) w).
  assert (E1 : step (Click Btn_loadBlocks) w
               = Some (fetch req (K_refreshBlocks false FromLoadBlocks) wl)).
  { cbn [step onclick]. unfold loadBlocks_onclick. rewrite Ht. cbn [negb].
    unfold refreshBlocks, apiGet.
    cbn [vars on_vars currentTaskId set_blocksLoaded BASE].
    rewrite Ht. reflexivity. }
  exists (fetch req (K_refreshBlocks false FromLoadBlocks) wl).
  split; [exact E1|]. split; [reflexivity|].
  split; [apply (@sent_one_fetch req _ wl)|].
  change (inflight (win w)) with (inflight (win wl)).
  split.
  - rewrite step_answer_to_last. cbn [resume refreshBlocks_resume after_refresh].
    set (wa := on_win (fun x => set_inflight (remove_nth (length (inflight (win wl)))
                                                        (inflight x)) x)
                      (fetch req (K_refreshBlocks false FromLoadBlocks) wl)).
    assert (Hvb : vars (refreshBlocks_body false blocks wa)
                  = set_blocksCache blocks (vars wl))
      by exact (vars_refreshBlocks_body false blocks wa).
    assert (Hk : edit_kept wa (refreshBlocks_body false blocks wa))
      by (apply refreshBlocks_body_kept; left; reflexivity).
    assert (Hcb : timers_consistent (refreshBlocks_body false blocks wa)).
    { apply tc_refreshBlocks_body. apply tc_answered. apply tc_fetch.
      apply tc_set_blocksLoaded. exact Hc. }
    set (wb := refreshBlocks_body false blocks wa) in *.
    eexists. split; [reflexivity|].
    split; [rewrite vars_startPolling_cache, vars_setText, Hvb; reflexivity|].
    split; [rewrite dom_startPolling, Hvb; reflexivity|].
    split; [apply startPolling_active; apply tc_setText; exact Hcb|].
    split; [rewrite vars_startPolling_loaded, vars_setText, Hvb; reflexivity|].
    split; [| rewrite vars_startPolling_block, vars_setText, Hvb; reflexivity].
    destruct Hk as [K1 K2 K3].
    constructor; rewrite dom_startPolling;
      rewrite ?srcText_setText, ?dstText_setText, ?activeElement_setText;
      assumption.
  - intros r e Hr. rewrite step_answer_to_last. cbn [resume]. unfold refreshBlocks_resume.
    destruct r as [e' | t | p]; [| | discriminate];
      simpl in Hr; inversion Hr; subst; cbn [refresh_failed nullish thrown];
      (eexists; split; [reflexivity|]);
      rewrite vars_setText, win_setText; repeat split.
Qed.

(** X18. Run-translate with a task present posts an empty JSON object to
    the task's [run_translate] address and changes nothing until the answer
    is there.  On success the progress hint shows the answer and both loops
    run, also when polling had stopped before; cache, mode, selection and
    buffers are untouched. *)
Theorem runTranslate_ensures_polling (out : string) (w : World) :
  timers_consistent w ->
  truthy (currentTaskId (vars w)) = true ->
  exists w1 w2,
    step (Click Btn_runTranslate) w = Some w1 /\
    sent_one {| method := POST;
                url := BASE (vars w) ++ "/api/tasks/"
                         ++ interpolate (currentTaskId (vars w)) ++ "/run_translate";
                body := JsonBody [] |} K_runTranslate w w1 /\
    vars w1 = vars w /\
    dom w1 = dom w /\
    step (ResponseArrives (length (inflight (win w))) (HttpOk (P_echo out))) w1
      = Some w2 /\
    progressHint (dom w2) = out /\
    polling_active w2 /\
    blocksLoaded (vars w2) = blocksLoaded (vars w) /\
    blocksCache (vars w2) = blocksCache (vars w) /\
    currentBlockId (vars w2) = currentBlockId (vars w) /\
    currentTaskId (vars w2) = currentTaskId (vars w) /\
    edit_kept w w2.
Proof.
  intros Hc Ht.
  set (req := {| method := POST;
                 url := BASE (vars w) ++ "/api/tasks/"
                          ++ interpolate (currentTaskId (vars w)) ++ "/run_translate";
                 body := JsonBody [] |}).
  assert (E1 : step (Click Btn_runTranslate) w = Some (fetch req K_runTranslate w)).
  { cbn [step onclick]. unfold runTranslate_onclick, apiPostJson. rewrite Ht.
    reflexivity. }
  exists (fetch req K_runTranslate w). eexists. split; [exact E1|].
  split; [apply sent_one_fetch|]. split; [reflexivity|]. split; [reflexivity|].
  rewrite step_answer_to_last. cbn [resume runTranslate_resume].
  split; [reflexivity|].
  split; [rewrite dom_startPolling; reflexivity|].
  split.
  { apply startPolling_active. apply tc_setText. apply tc_answered. apply tc_fetch.
    exact Hc. }
  rewrite vars_startPolling_loaded, vars_startPolling_cache, vars_startPolling_block,
    vars_startPolling_task, !vars_setText.
  repeat (split; [reflexivity|]). kept.
Qed.

(* ================================================================== *)
(** ** Who writes the session variables *)
(* ================================================================== *)

Lemma session_kept_refl (w : World) : session_kept w w.
Proof. constructor; reflexivity. Qed.

Lemma session_kept_trans (a b c : World) :
  session_kept a b -> session_kept b c -> session_kept a c.
Proof. intros [] []. constructor; etransitivity; eassumption. Qed.

Ltac session := constructor; frame; reflexivity.

Lemma session_after_refresh (caller : Caller) (w : World) :
  session_kept w (after_refresh caller w).
Proof. destruct caller; unfold after_refresh; session. Qed.

Lemma session_refresh_failed (caller : Caller) (e : JsError) (w : World) :
  session_kept w (refresh_failed caller e w).
Proof. destruct caller; unfold refresh_failed; session. Qed.

Lemma session_refreshBlocks (keepSelection : bool) (caller : Caller) (w : World) :
  session_kept w (refreshBlocks keepSelection caller w).
Proof.
  unfold refreshBlocks, apiGet.
  destruct (truthy (currentTaskId (vars w))); cbn [negb].
  - session.
  - apply session_after_refresh.
Qed.

Lemma session_pollTask_resume (r : Response) (w w' : World) :
  pollTask_resume r w = Some w' -> session_kept w w'.
Proof.
  unfold pollTask_resume.
  destruct r as [e | t | p]; try destruct p; try discriminate;
    intros E; inversion E; subst; clear E; try apply session_kept_refl.
  split_ifs; session.
Qed.

(** What an answer may write: the task id on a created task, the cache on
    a block list, and nothing of the session otherwise. *)
Lemma session_resume (k : Kont) (r : Response) (w w' : World) :
  resume k r w = Some w' ->
  BASE (vars w') = BASE (vars w) /\
  currentBlockId (vars w') = currentBlockId (vars w) /\
  (currentTaskId (vars w') = currentTaskId (vars w) \/
   (k = K_createTask /\ exists task_id n, r = HttpOk (P_created task_id n))) /\
  (blocksCache (vars w') = blocksCache (vars w) \/
   exists ks caller blocks,
     k = K_refreshBlocks ks caller /\ r = HttpOk (P_blocks blocks)).
Proof.
  assert (G : forall a b : World, session_kept a b ->
                BASE (vars b) = BASE (vars a) /\
                currentBlockId (vars b) = currentBlockId (vars a) /\
                (currentTaskId (vars b) = currentTaskId (vars a) \/
                 (k = K_createTask /\ exists task_id n, r = HttpOk (P_created task_id n))) /\
                (blocksCache (vars b) = blocksCache (vars a) \/
                 exists ks caller blocks,
                   k = K_refreshBlocks ks caller /\ r = HttpOk (P_blocks blocks))).
  { intros a b []. auto. }
  destruct k; cbn [resume].
  - intros H. apply G. eapply session_pollTask_resume. exact H.
  - unfold refreshBlocks_resume.
    destruct r as [e | t | p]; try destruct p; try discriminate;
      intros E; inversion E; subst; clear E;
      try (apply G; apply session_refresh_failed).
    destruct (session_after_refresh caller (refreshBlocks_body keepSelection blocks w))
      as [A B C D].
    rewrite A, B, C, vars_refreshBlocks_body. cbn.
    split; [reflexivity|]. split; [reflexivity|]. split; [left; reflexivity|].
    right. exists keepSelection, caller, blocks. split; reflexivity.
  - unfold createTask_resume.
    destruct r as [e | t | p]; try destruct p; try discriminate;
      intros E; inversion E; subst; clear E; try (apply G; session).
    frame. split; [reflexivity|]. split; [reflexivity|].
    split; [right; split; [reflexivity | eexists; eexists; reflexivity]|].
    left. reflexivity.
  - unfold runTranslate_resume.
    destruct r as [e | t | p]; try destruct p; try discriminate;
      intros E; inversion E; subst; clear E; apply G; session.
  - unfold saveBlock_resume.
    destruct r as [e | t | p]; try destruct p; try discriminate;
      intros E; inversion E; subst; clear E; apply G; try solve [session].
    destruct (blocksLoaded _).
    + eapply session_kept_trans; [| apply session_refreshBlocks]. session.
    + session.
  - unfold exportDocx_resume.
    destruct r as [e | t | p]; try destruct p; try discriminate;
      intros E; inversion E; subst; clear E; apply G; session.
Qed.

Lemma session_onclick (b : Button) (w : World) :
  b <> Btn_createTask -> session_kept w (onclick b w).
Proof.
  intros Hb. destruct b; cbn [onclick]; try congruence.
  - unfold runTranslate_onclick, apiPostJson. split_ifs; session.
  - unfold loadBlocks_onclick. destruct (negb _); [session|].
    eapply session_kept_trans; [| apply session_refreshBlocks]. session.
  - unfold saveBlock_onclick, apiPatchJson. split_ifs; session.
  - unfold exportDocx_onclick. split_ifs; session.
Qed.

(** X19. The session variables have few writers.  The backend address
    never changes.  The current task changes only when a task creation is
    answered with success; the selection only when a row is clicked or
    create-task is clicked; the cache only when a block list arrives or
    create-task is clicked.  No timer callback writes any of them on its
    own turn. *)
Theorem session_variables_have_few_writers (e : Event) (w w' : World) :
  step e w = Some w' ->
  BASE (vars w') = BASE (vars w) /\
  (currentTaskId (vars w') <> currentTaskId (vars w) ->
   exists i req task_id n,
     e = ResponseArrives i (HttpOk (P_created task_id n)) /\
     nth_error (inflight (win w)) i = Some (req, K_createTask)) /\
  (currentBlockId (vars w') <> currentBlockId (vars w) ->
   (exists n, e = ClickItem n) \/ e = Click Btn_createTask) /\
  (blocksCache (vars w') <> blocksCache (vars w) ->
   e = Click Btn_createTask \/
   exists i req ks caller blocks,
     e = ResponseArrives i (HttpOk (P_blocks blocks)) /\
     nth_error (inflight (win w)) i = Some (req, K_refreshBlocks ks caller)).
Proof.
  assert (G : forall a b : World, session_kept a b ->
                BASE (vars b) = BASE (vars a) /\
                (currentTaskId (vars b) <> currentTaskId (vars a) ->
                 exists i req task_id n,
                   e = ResponseArrives i (HttpOk (P_created task_id n)) /\
                   nth_error (inflight (win w)) i = Some (req, K_createTask)) /\
                (currentBlockId (vars b) <> currentBlockId (vars a) ->
                 (exists n, e = ClickItem n) \/ e = Click Btn_createTask) /\
                (blocksCache (vars b) <> blocksCache (vars a) ->
                 e = Click Btn_createTask \/
                 exists i req ks caller blocks,
                   e = ResponseArrives i (HttpOk (P_blocks blocks)) /\
                   nth_error (inflight (win w)) i = Some (req, K_refreshBlocks ks caller))).
  { intros a b [A B C D]. repeat split; try assumption; intros N; contradiction. }
  intros Hs. destruct e; cbn [step] in Hs.
  - destruct (find _ _) as [[[h' cb] ms] | ]; [| discriminate].
    destruct cb; inversion Hs; subst; clear Hs; apply G.
    + unfold pollTask_tick, apiGet. split_ifs; session.
    + unfold pollBlocks_tick. split_ifs; try apply session_kept_refl.
      apply session_refreshBlocks.
  - destruct (find _ _) as [[[h' cb] ms] | ]; [| discriminate].
    destruct cb. inversion Hs; subst; clear Hs. apply G. unfold finalRefresh.
    eapply session_kept_trans; [| apply session_refreshBlocks]. session.
  - destruct (nth_error (inflight (win w)) i) as [[req k] | ] eqn:Hi; [| discriminate].
    apply session_resume in Hs. cbn [vars on_win] in Hs.
    destruct Hs as (A & B & C & D).
    split; [exact A|]. split; [| split].
    + intros N. destruct C as [C | (-> & task_id & n & ->)]; [contradiction|].
      exists i, req, task_id, n. split; [reflexivity | exact Hi].
    + intros N. contradiction.
    + intros N. destruct D as [D | (ks & caller & blocks & -> & ->)]; [contradiction|].
      right. exists i, req, ks, caller, blocks. split; [reflexivity | exact Hi].
  - inversion Hs; subst; clear Hs.
    destruct b; try (apply G; apply session_onclick; discriminate).
    cbn [onclick]. unfold createTask_onclick.
    destruct (file (dom w)).
    + cbn [vars fetch on_win].
      destruct (reset_ui_state_keeps (stopPolling w)) as (A & B & _).
      rewrite A, B, vars_stopPolling_base, vars_stopPolling_task.
      split; [reflexivity|]. split; [intros N; contradiction|].
      split; intros _; [right | left]; reflexivity.
    + apply G. session.
  - destruct (nth_error _ _) as [it | ]; [| discriminate].
    inversion Hs; subst; clear Hs. unfold item_onclick.
    rewrite !vars_setText. cbn.
    split; [reflexivity|]. split; [intros N; contradiction|].
    split; [intros _; left; eexists; reflexivity | intros N; contradiction].
  - inversion Hs; subst. apply G. session.
  - destruct (isEditing w); [| discriminate]. inversion Hs; subst.
    apply G. session.
  - inversion Hs; subst. apply G. session.
Qed.

(* ================================================================== *)
(** ** The progress display *)
(* ================================================================== *)

Lemma progress_value_in_unit (p : JSNumber) :
  exists q, progress_value p = Finite q /\ (0 <= q)%Q /\ (q <= 1)%Q.
Proof.
  destruct p as [ | s | q0]; unfold progress_value; cbn.
  - exists 0%Q. repeat split; lra.
  - exists 0%Q. repeat split; lra.
  - destruct (Qle_bool 1 q0) eqn:H1; cbn.
    + exists 1%Q. repeat split; lra.
    + destruct (Qle_bool 0 q0) eqn:H0.
      * exists q0. split; [reflexivity|]. apply Qle_bool_iff in H0. split; [exact H0|].
        destruct (Qlt_le_dec q0 1) as [L | G]; [lra|].
        apply Qle_bool_iff in G. congruence.
      * exists 0%Q. repeat split; lra.
Qed.


(* ================================================================== *)
(** ** The further theorems at the sample session *)
(* ================================================================== *)

Lemma sample_loaded_consistent : timers_consistent sample_loaded.
Proof.
  split; [simpl; lia|]. right. exists 5. repeat split; simpl; lia.
Qed.

Lemma sample_created_consistent : timers_consistent sample_created.
Proof.
  split; [simpl; lia|]. right. exists 1. repeat split; simpl; lia.
Qed.

Lemma save_sends_typed_text_witness :
  nth_error (blockList (dom sample_loaded)) 1 = Some (render_item sample_b2) /\
  truthy (currentTaskId (vars sample_loaded)) = true /\
  exists w',
    run [ClickItem 1; UserFocus (Some "dstText"); UserTypes "Au revoir";
         Click Btn_saveBlock] sample_loaded = Some w' /\
    dstText (dom w') = "Au revoir" /\
    currentBlockId (vars w') = Some "b2".
Proof.
  split; [reflexivity|]. split; [reflexivity|].
  destruct (@save_sends_typed_text_of_clicked_row
              1 (render_item sample_b2) "Au revoir" sample_loaded
              eq_refl eq_refl eq_refl)
    as (w' & Hr & _ & Hb & Hd & _).
  exists w'. split; [exact Hr|]. split; [exact Hd | exact Hb].
Defined.

Lemma failure_shown_inline_witness :
  hint_of_kont K_saveBlock = Some "blockHint" /\
  thrown (HttpError "") = Some (new_Error "") /\
  exists w',
    resume K_saveBlock (HttpError "") sample_selected = Some w' /\
    blockHint (dom w') = "Error".
Proof.
  split; [reflexivity|]. split; [reflexivity|].
  destruct (@user_action_failure_shown_inline
              K_saveBlock "blockHint" (HttpError "") (new_Error "") sample_selected
              eq_refl eq_refl)
    as (w' & Hr & _ & Ht & _).
  exists w'. split; [exact Hr | exact Ht].
Defined.

Lemma polling_on_or_off_witness :
  run sample_setup (initial sample_base) = Some sample_loaded /\
  length (intervals (win sample_loaded)) <= 2.
Proof.
  assert (H : run sample_setup (initial sample_base) = Some sample_loaded)
    by (vm_compute; reflexivity).
  split; [exact H|].
  apply (@polling_is_fully_on_or_off sample_base sample_setup sample_loaded H).
Defined.

Lemma startPolling_replaces_witness :
  timers_consistent sample_loaded /\
  intervals (win (startPolling sample_loaded))
    = [(7, CB_pollTask, 1000); (8, CB_pollBlocks, 2500)].
Proof.
  split; [exact sample_loaded_consistent|].
  apply (@startPolling_replaces_the_loops sample_loaded sample_loaded_consistent).
Defined.

Lemma error_status_witness :
  timers_consistent sample_polling /\
  exists w1,
    step (ResponseArrives 0 (HttpOk (P_task sample_failed))) sample_polling = Some w1 /\
    polling_stopped w1 /\
    timeouts (win w1) = [] /\
    progressHint (dom w1) = "Error: quota exceeded".
Proof.
  split; [exact sample_polling_consistent|].
  destruct (@error_status_stops_without_refresh
              0 _ sample_failed sample_polling
              sample_polling_consistent eq_refl eq_refl)
    as (w1 & Hs & Hst & Ht & _ & _ & Hh & _).
  exists w1. split; [exact Hs|]. split; [exact Hst|]. split; [exact Ht | exact Hh].
Defined.

Lemma running_status_witness :
  strict_eq "finished" (t_status sample_running) = false /\
  strict_eq "error" (t_status sample_running) = false /\
  exists w1,
    step (ResponseArrives 0 (HttpOk (P_task sample_running))) sample_polling = Some w1 /\
    intervals (win w1) = [(5, CB_pollTask, 1000); (6, CB_pollBlocks, 2500)] /\
    progressStatus (dom w1) = "Status: running".
Proof.
  split; [reflexivity|]. split; [reflexivity|].
  destruct (@running_status_only_updates_display
              0 _ sample_running sample_polling eq_refl eq_refl eq_refl)
    as (w1 & Hs & _ & Hi & _ & _ & _ & _ & _ & Hl).
  exists w1. split; [exact Hs|]. split; [exact Hi | exact Hl].
Defined.



Lemma tick_sends_one_request_witness :
  find (fun x => Nat.eqb (handle_of x) 5) (intervals (win sample_loaded))
    = Some (5, CB_pollTask, 1000) /\
  exists w',
    step (IntervalFires 5) sample_loaded = Some w' /\
    vars w' = vars sample_loaded /\
    dom w' = dom sample_loaded.
Proof.
  split; [reflexivity|].
  destruct (@tick_sends_at_most_one_request 5 1000 CB_pollTask sample_loaded eq_refl)
    as (w' & Hs & Hv & Hd & _).
  exists w'. split; [exact Hs|]. split; [exact Hv | exact Hd].
Defined.

Lemma export_downloads_once_witness :
  truthy (currentTaskId (vars sample_loaded)) = true /\
  exists w1 w2,
    step (Click Btn_exportDocx) sample_loaded = Some w1 /\
    step (ResponseArrives 0 (HttpOk P_blob)) w1 = Some w2 /\
    downloads (win w2) = ["translated.docx"].
Proof.
  split; [reflexivity|].
  destruct (@export_downloads_once sample_loaded eq_refl)
    as (w1 & Hs & _ & _ & _ & (w2 & Hs2 & Hd & _) & _).
  exists w1, w2. split; [exact Hs|]. split; [exact Hs2 | exact Hd].
Defined.

Lemma loadBlocks_witness :
  timers_consistent sample_created /\
  truthy (currentTaskId (vars sample_created)) = true /\
  exists w1 w2,
    step (Click Btn_loadBlocks) sample_created = Some w1 /\
    step (ResponseArrives 0 (HttpOk (P_blocks [sample_b1; sample_b2]))) w1 = Some w2 /\
    blocksCache (vars w2) = [sample_b1; sample_b2] /\
    blockHint (dom w2) = "Loaded blocks: 2".
Proof.
  split; [exact sample_created_consistent|]. split; [reflexivity|].
  destruct (@loadBlocks_enters_loaded_mode
              [sample_b1; sample_b2] sample_created sample_created_consistent eq_refl)
    as (w1 & Hs & _ & _ & (w2 & Hs2 & Hc & Hh & _) & _).
  exists w1, w2. split; [exact Hs|]. split; [exact Hs2|]. split; [exact Hc | exact Hh].
Defined.

Lemma runTranslate_witness :
  timers_consistent sample_created /\
  truthy (currentTaskId (vars sample_created)) = true /\
  exists w1 w2,
    step (Click Btn_runTranslate) sample_created = Some w1 /\
    step (ResponseArrives 0 (HttpOk (P_echo "{ }"))) w1 = Some w2 /\
    progressHint (dom w2) = "{ }" /\
    polling_active w2.
Proof.
  split; [exact sample_created_consistent|]. split; [reflexivity|].
  destruct (@runTranslate_ensures_polling "{ }" sample_created
              sample_created_consistent eq_refl)
    as (w1 & w2 & Hs & _ & _ & _ & Hs2 & Hh & Hp & _).
  exists w1, w2. split; [exact Hs|]. split; [exact Hs2|]. split; [exact Hh | exact Hp].
Defined.

Lemma few_writers_witness :
  step (ClickItem 1) sample_loaded = Some sample_selected /\
  BASE (vars sample_selected) = BASE (vars sample_loaded) /\
  currentBlockId (vars sample_selected) <> currentBlockId (vars sample_loaded).
Proof.
  assert (H : step (ClickItem 1) sample_loaded = Some sample_selected)
    by (vm_compute; reflexivity).
  split; [exact H|].
  split; [apply (@session_variables_have_few_writers
                   (ClickItem 1) sample_loaded sample_selected H)|].
  discriminate.
Defined.

(* ================================================================== *)
(** ** The script without polling *)
(* ================================================================== *)

Module PlainFacts.
Import Plain.

Lemma plain_setText_frame (elem v : string) (s : State) :
  BASE (setText elem v s) = BASE s /\
  currentTaskId (setText elem v s) = currentTaskId s /\
  currentBlockId (setText elem v s) = currentBlockId s /\
  blockList (setText elem v s) = blockList s /\
  srcText (setText elem v s) = srcText s /\
  dstText (setText elem v s) = dstText s /\
  file (setText elem v s) = file s /\
  inflight (setText elem v s) = inflight s /\
  net_log (setText elem v s) = net_log s /\
  downloads (setText elem v s) = downloads s.
Proof.
  unfold setText. repeat (destruct (elem =? _)); repeat split.
Qed.

Lemma plain_render_loop (blocks : list Block) (s : State) :
  fold_left (fun acc b => set_blockList (blockList acc ++ [render_item b])%list acc)
            blocks s
  = set_blockList (blockList s ++ map render_item blocks)%list s.
Proof.
  revert s. induction blocks as [ | b blocks IH]; intros s.
  - destruct s. unfold set_blockList. simpl. rewrite app_nil_r. reflexivity.
  - simpl. rewrite IH. unfold set_blockList. simpl. rewrite <- app_assoc. reflexivity.
Qed.

Lemma plain_step_answer_to_last (req : Request) (k : Kont) (r : Response) (s : State) :
  step (ResponseArrives (length (inflight s)) r) (fetch req k s)
  = resume k r (set_net_log (net_log s ++ [(req, k)])%list s).
Proof.
  cbn [step]. cbn [fetch inflight set_inflight set_net_log].
  rewrite nth_error_last, remove_nth_last.
  destruct s. reflexivity.
Qed.

(** X21. In the script without polling, create-task resets nothing.  The
    click only sends the upload.  A successful answer sets the current
    task, clears the selected block id and writes the two hints; the rows
    listed for the previous task and both buffers stay on the page.  A
    failed answer writes the task hint and nothing else. *)
Theorem plain_createTask_leaves_rows_and_buffers
    (f : File) (task_id : string) (n : Z) (s : State) :
  file s = Some f ->
  exists s1,
    step (Click Btn_createTask) s = Some s1 /\
    s1 = fetch {| method := POST; url := BASE s ++ "/api/tasks";
                  body := FormData f (direction s) |} K_createTask s /\
    (exists s2,
        step (ResponseArrives (length (inflight s)) (HttpOk (P_created task_id n))) s1
          = Some s2 /\
        currentTaskId s2 = Some task_id /\
        currentBlockId s2 = None /\
        taskHint s2 = "Task created: " ++ task_id ++ String (ascii_of_nat 10) "Blocks: "
                        ++ string_of_Z n /\
        progressHint s2 = "Ready." /\
        blockList s2 = blockList s /\
        srcText s2 = srcText s /\
        dstText s2 = dstText s /\
        blockHint s2 = blockHint s /\
        inflight s2 = inflight s) /\
    (forall r e, thrown r = Some e ->
                 exists s2,
                   step (ResponseArrives (length (inflight s)) r) s1 = Some s2 /\
                   taskHint s2 = error_text e /\
                   currentTaskId s2 = currentTaskId s /\
                   currentBlockId s2 = currentBlockId s /\
                   blockList s2 = blockList s /\
                   srcText s2 = srcText s /\
                   dstText s2 = dstText s /\
                   progressHint s2 = progressHint s /\
                   blockHint s2 = blockHint s).
Proof.
  intros Hf.
  assert (E1 : step (Click Btn_createTask) s
               = Some (fetch {| method := POST; url := BASE s ++ "/api/tasks";
                                body := FormData f (direction s) |} K_createTask s)).
  { cbn [step onclick]. unfold createTask_onclick. rewrite Hf. reflexivity. }
  eexists. split; [exact E1|]. split; [reflexivity|]. split.
  - rewrite plain_step_answer_to_last. cbn [resume createTask_resume].
    eexists. split; [reflexivity|]. repeat split.
  - intros r e Hr. rewrite plain_step_answer_to_last. cbn [resume].
    unfold createTask_resume, failure_text.
    destruct r as [e' | t | p]; [| | discriminate];
      simpl in Hr; inversion Hr; subst;
      (eexists; split; [reflexivity|]); repeat split.
Qed.

(** X22. In the script without polling, a row listed before a new task is
    created still works afterwards: the user creates the next task, clicks
    the old row and saves, and the PATCH that leaves names the new task and
    the block of the old row, with that block's translation as text. *)
Theorem plain_old_row_saves_under_new_task
    (n : nat) (it : Item) (f : File) (task_id : string) (k : Z) (s : State) :
  nth_error (blockList s) n = Some it ->
  file s = Some f ->
  truthy (Some task_id) = true ->
  truthy (Some (id (item_block it))) = true ->
  exists s',
    run [ Click Btn_createTask;
          ResponseArrives (length (inflight s)) (HttpOk (P_created task_id k));
          ClickItem n;
          Click Btn_saveBlock ] s = Some s' /\
    net_log s'
      = (net_log s
           ++ [({| method := POST; url := BASE s ++ "/api/tasks";
                   body := FormData f (direction s) |}, K_createTask);
               ({| method := PATCH;
                   url := BASE s ++ "/api/tasks/" ++ task_id ++ "/blocks/"
                            ++ id (item_block it);
                   body := JsonBody [("translated_text",
                                      or_empty (translated_text (item_block it)))] |},
                K_saveBlock)])%list /\
    currentTaskId s' = Some task_id /\
    currentBlockId s' = Some (id (item_block it)).
Proof.
  intros Hn Hf Ht Hb.
  set (req := {| method := POST; url := BASE s ++ "/api/tasks";
                 body := FormData f (direction s) |}).
  assert (E1 : step (Click Btn_createTask) s = Some (fetch req K_createTask s)).
  { cbn [step onclick]. unfold createTask_onclick. rewrite Hf. reflexivity. }
  set (s2 := setText "progressHint" "Ready."
               (setText "taskHint"
                  ("Task created: " ++ task_id ++ String (ascii_of_nat 10) "Blocks: "
                     ++ string_of_Z k)
                  (set_currentBlockId None
                     (set_currentTaskId (Some task_id)
                        (set_net_log (net_log s ++ [(req, K_createTask)])%list s))))).
  assert (E2 : step (ResponseArrives (length (inflight s))
                       (HttpOk (P_created task_id k))) (fetch req K_createTask s)
               = Some s2).
  { rewrite plain_step_answer_to_last. reflexivity. }
  assert (E3 : step (ClickItem n) s2 = Some (item_onclick (item_block it) s2)).
  { cbn [step]. change (blockList s2) with (blockList s). rewrite Hn. reflexivity. }
  set (s3 := item_onclick (item_block it) s2) in *.
  assert (T3 : currentTaskId s3 = Some task_id) by reflexivity.
  assert (B3 : currentBlockId s3 = Some (id (item_block it))) by reflexivity.
  cbn [run]. rewrite E1, E2, E3. cbn [step onclick].
  unfold saveBlock_onclick, apiPatchJson. rewrite T3, B3, Ht, Hb. cbn [negb orb].
  eexists. split; [reflexivity|].
  split; [| split; [exact T3 | exact B3]].
  cbn. rewrite <- app_assoc. reflexivity.
Qed.

(** X23. In the script without polling, load-blocks with a task present
    asks for the block list once.  When the list arrives the page shows one
    row per block in the fetched order and the hint gives their number; the
    selected block id and both buffers are left as they were, also when the
    selected block is not in the list.  When the request fails the rows on
    the page stay and the hint shows the error. *)
Theorem plain_loadBlocks_renders_and_keeps_selection (blocks : list Block) (s : State) :
  truthy (currentTaskId s) = true ->
  exists s1,
    step (Click Btn_loadBlocks) s = Some s1 /\
    net_log s1
      = (net_log s
           ++ [({| method := GET;
                   url := BASE s ++ "/api/tasks/" ++ interpolate (currentTaskId s)
                            ++ "/blocks?offset=0&limit=5000";
                   body := NoBody |}, K_loadBlocks)])%list /\
    blockList s1 = blockList s /\
    (exists s2,
        step (ResponseArrives (length (inflight s)) (HttpOk (P_blocks blocks))) s1
          = Some s2 /\
        blockList s2 = map render_item blocks /\
        map item_block (blockList s2) = blocks /\
        blockHint s2 = "Loaded blocks: " ++ string_of_nat (length blocks) /\
        currentBlockId s2 = currentBlockId s /\
        srcText s2 = srcText s /\
        dstText s2 = dstText s /\
        currentTaskId s2 = currentTaskId s) /\
    (forall r e, thrown r = Some e ->
                 exists s2,
                   step (ResponseArrives (length (inflight s)) r) s1 = Some s2 /\
                   blockList s2 = blockList s /\
                   blockHint s2 = error_text e /\
                   currentBlockId s2 = currentBlockId s).
Proof.
  intros Ht.
  assert (E1 : step (Click Btn_loadBlocks) s
               = Some (fetch {| method := GET;
                                url := BASE s ++ "/api/tasks/"
                                         ++ interpolate (currentTaskId s)
                                         ++ "/blocks?offset=0&limit=5000";
                                body := NoBody |} K_loadBlocks s)).
  { cbn [step onclick]. unfold loadBlocks_onclick, apiGet. rewrite Ht. reflexivity. }
  eexists. split; [exact E1|]. split; [reflexivity|]. split; [reflexivity|]. split.
  - rewrite plain_step_answer_to_last. cbn [resume loadBlocks_resume].
    rewrite plain_render_loop.
    eexists. split; [reflexivity|].
    split; [reflexivity|]. split; [apply map_block_render|]. repeat split.
  - intros r e Hr. rewrite plain_step_answer_to_last. cbn [resume].
    unfold loadBlocks_resume, failure_text.
    destruct r as [e' | t | p]; [| | discriminate];
      simpl in Hr; inversion Hr; subst;
      (eexists; split; [reflexivity|]); repeat split.
Qed.

(** X24. In the script without polling, a click on a button never changes
    the task id, the selection, the rows or the buffers: it either sends
    exactly one request and writes nothing, or sends none and writes the
    hint of that button.  Run-translate, refresh, load-blocks and export
    without a task, and save without a task or without a selected block,
    send none. *)
Theorem plain_click_sends_one_request_or_writes_hint (b : Button) (s : State) :
  exists s',
    step (Click b) s = Some s' /\
    currentTaskId s' = currentTaskId s /\
    currentBlockId s' = currentBlockId s /\
    blockList s' = blockList s /\
    srcText s' = srcText s /\
    dstText s' = dstText s /\
    downloads s' = downloads s /\
    ((exists req k, s' = fetch req k s) \/
     (exists msg, s' = setText (hint_of b) msg s)) /\
    (match b with
     | Btn_createTask => file s = None
     | Btn_saveBlock => truthy (currentTaskId s) && truthy (currentBlockId s) = false
     | _ => truthy (currentTaskId s) = false
     end -> net_log s' = net_log s /\ inflight s' = inflight s).
Proof.
  eexists. split; [reflexivity|].
  destruct b; cbn [onclick hint_of].
  - unfold createTask_onclick. destruct (file s) eqn:Hf.
    + repeat split; try (left; eexists; eexists; reflexivity); discriminate.
    + repeat split; right; eexists; reflexivity.
  - unfold runTranslate_onclick, apiPostJson.
    destruct (truthy (currentTaskId s)); cbn [negb].
    + repeat split; try (left; eexists; eexists; reflexivity); discriminate.
    + repeat split; right; eexists; reflexivity.
  - unfold refreshTask_onclick, apiGet.
    destruct (truthy (currentTaskId s)); cbn [negb].
    + repeat split; try (left; eexists; eexists; reflexivity); discriminate.
    + repeat split; right; eexists; reflexivity.
  - unfold loadBlocks_onclick, apiGet.
    destruct (truthy (currentTaskId s)); cbn [negb].
    + repeat split; try (left; eexists; eexists; reflexivity); discriminate.
    + repeat split; right; eexists; reflexivity.
  - unfold saveBlock_onclick, apiPatchJson.
    destruct (truthy (currentTaskId s)); destruct (truthy (currentBlockId s));
      cbn [negb orb andb];
      repeat split; try (left; eexists; eexists; reflexivity);
      try (right; eexists; reflexivity); discriminate.
  - unfold exportDocx_onclick.
    destruct (truthy (currentTaskId s)); cbn [negb].
    + repeat split; try (left; eexists; eexists; reflexivity); discriminate.
    + repeat split; right; eexists; reflexivity.
Qed.

Lemma plain_createTask_witness :
  file sample_state = Some "second.docx" /\
  exists s1 s2,
    step (Click Btn_createTask) sample_state = Some s1 /\
    step (ResponseArrives 0 (HttpOk (P_created "t2" 4%Z))) s1 = Some s2 /\
    currentTaskId s2 = Some "t2" /\
    map item_block (blockList s2) = [sample_b1].
Proof.
  split; [reflexivity|].
  destruct (@plain_createTask_leaves_rows_and_buffers
              "second.docx" "t2" 4%Z sample_state eq_refl)
    as (s1 & Hs1 & _ & (s2 & Hs2 & Ht & _ & _ & _ & Hl & _) & _).
  exists s1, s2. split; [exact Hs1|]. split; [exact Hs2|]. split; [exact Ht|].
  rewrite Hl. reflexivity.
Defined.

Lemma plain_old_row_witness :
  nth_error (blockList sample_state) 0 = Some (render_item sample_b1) /\
  file sample_state = Some "second.docx" /\
  exists s',
    run [ Click Btn_createTask; ResponseArrives 0 (HttpOk (P_created "t2" 4%Z));
          ClickItem 0; Click Btn_saveBlock ] sample_state = Some s' /\
    currentTaskId s' = Some "t2" /\
    currentBlockId s' = Some "b1".
Proof.
  split; [reflexivity|]. split; [reflexivity|].
  destruct (@plain_old_row_saves_under_new_task
              0 (render_item sample_b1) "second.docx" "t2" 4%Z sample_state
              eq_refl eq_refl eq_refl eq_refl)
    as (s' & Hr & _ & Ht & Hb).
  exists s'. split; [exact Hr|]. split; [exact Ht | exact Hb].
Defined.

Lemma plain_loadBlocks_witness :
  truthy (currentTaskId sample_state) = true /\
  exists s1 s2,
    step (Click Btn_loadBlocks) sample_state = Some s1 /\
    step (ResponseArrives 0 (HttpOk (P_blocks sample_snapshot))) s1 = Some s2 /\
    map item_block (blockList s2) = sample_snapshot /\
    blockHint s2 = "Loaded blocks: 2".
Proof.
  split; [reflexivity|].
  destruct (@plain_loadBlocks_renders_and_keeps_selection
              sample_snapshot sample_state eq_refl)
    as (s1 & Hs1 & _ & _ & (s2 & Hs2 & _ & Hm & Hh & _) & _).
  exists s1, s2. split; [exact Hs1|]. split; [exact Hs2|]. split; [exact Hm | exact Hh].
Defined.

End PlainFacts.

(* ================================================================== *)
(** ** Start-up *)
(* ================================================================== *)

Example main_without_backend (f : SettingsForm) :
  main None f = (set_settingsHint "Fatal error: Backend not ready." f, None) /\
  main (Some "") f = (set_settingsHint "Fatal error: Backend not ready." f, None).
Proof. split; reflexivity. Qed.

Example main_with_backend (f : SettingsForm) :
  main (Some sample_base) f
  = (set_settingsHint "Backend connected: http://127.0.0.1:8000" f,
     Some (initial sample_base)).
Proof. reflexivity. Qed.

Example saveSettings_blank_key :
  saveSettings_onclick sample_base
    {| baseUrl := " https://api.example.com/v1 "; apiKey := "   ";
       model := "m1"; settingsHint := "" |}
  = ({| baseUrl := " https://api.example.com/v1 "; apiKey := "   ";
        model := "m1";
        settingsHint := "base_url / api_key / model are required." |}, None).
Proof. reflexivity. Qed.

Example saveSettings_trimmed :
  snd (saveSettings_onclick sample_base
         {| baseUrl := " https://api.example.com/v1 "; apiKey := "k-1";
            model := "m1 "; settingsHint := "" |})
  = Some {| method := POST; url := "http://127.0.0.1:8000/api/settings";
            body := JsonBody [("base_url", "https://api.example.com/v1");
                              ("api_key", "k-1"); ("model", "m1")] |}.
Proof. reflexivity. Qed.

Example saveSettings_answer (f : SettingsForm) :
  saveSettings_resume (HttpOk (P_echo "{ }")) f = Some (set_settingsHint "{ }" f) /\
  saveSettings_resume (HttpError "bad key") f = Some (set_settingsHint "bad key" f).
Proof. split; reflexivity. Qed.
